(** * zenapi UI: router, session store, root view-state machine,
      monitoring view and model catalog view.

    A shallow embedding of the TypeScript sources

      - the application entry point (normalizePath, App),
      - features/MonitoringView.tsx (rateColor, fetchData),
      - the model catalog view (MiniSparkline, formatNumber, formatCost,
        formatPrice, ModelsView),

    together with the properties stated about them.

    Conventions.  A JavaScript string is a [string] (one [ascii] per code
    unit).  A JavaScript [number] is a binary64 [float]; array lengths and
    indices are integers.  [localStorage] is a finite map from keys to
    values.  Hook state ([useState]) is a record; a setter called during a
    render pass or in a handler overwrites the stored value, the last call
    wins. *)

From Stdlib Require Import ZArith Lia Bool List Ascii String.
From Stdlib Require Import Floats DecimalString.
From stdpp Require Import base option gmap strings.
Import ListNotations.

#[local] Open Scope string_scope.
#[local] Open Scope Z_scope.

(* A decimal literal denotes the nearest binary64 value, as it does in
   JavaScript. *)
#[local] Set Warnings "-inexact-float".

(** ** JavaScript strings *)

Module JsString.

Definition is_slash (c : ascii) : bool := Ascii.eqb c "/"%char.

(** [s.length] *)
Definition length (s : string) : Z := Z.of_nat (String.length s).

(** Truthiness of a string: every string but the empty one. *)
Definition truthy (s : string) : bool :=
  match s with
  | EmptyString => false
  | String _ _ => true
  end.

(** [s.startsWith(p)] *)
Definition startsWith (s p : string) : bool := String.prefix p s.

(** [s.includes(p)] *)
Fixpoint includes (s p : string) : bool :=
  String.prefix p s
  || match s with
     | EmptyString => false
     | String _ rest => includes rest p
     end.

(** [s.toLowerCase()] on code units below 256: A-Z and the capital
    letters of Latin-1 move up by 32. *)
Definition lower_unit (c : ascii) : ascii :=
  let n := N_of_ascii c in
  if ((65 <=? n) && (n <=? 90)
      || (192 <=? n) && (n <=? 222) && negb (n =? 215))%N
  then ascii_of_N (n + 32) else c.

Fixpoint toLowerCase (s : string) : string :=
  match s with
  | EmptyString => EmptyString
  | String c rest => String (lower_unit c) (toLowerCase rest)
  end.

(** [String(z)] of an integer. *)
Definition of_Z (z : Z) : string :=
  DecimalString.NilZero.string_of_int (Z.to_int z).

(** Does [/\/+$/] match at the very start of [s]?  The greedy run of
    slashes has to reach the end of the input, so the whole of [s] is
    slashes, and there is at least one. *)
Fixpoint all_slashes (s : string) : bool :=
  match s with
  | EmptyString => true
  | String c rest => is_slash c && all_slashes rest
  end.

Definition matches_slashes_to_end (s : string) : bool :=
  truthy s && all_slashes s.

(** [s.replace(/\/+$/, "")]: the regular expression has no [g] flag, so
    the leftmost match is replaced; positions are tried from the left,
    and the first one from which only slashes follow starts the match,
    which then runs to the end of the input. *)
Fixpoint replace_trailing_slashes (s : string) : string :=
  if matches_slashes_to_end s then EmptyString
  else match s with
       | EmptyString => EmptyString
       | String c rest => String c (replace_trailing_slashes rest)
       end.

End JsString.

(** ** Router: path normalization *)

(** const normalizePath = (path: string) => {
      if (path.length <= 1) return "/";
      return path.replace(/\/+$/, "") || "/";
    }; *)
Definition normalizePath (path : string) : string :=
  if JsString.length path <=? 1 then "/"
  else
    let stripped := JsString.replace_trailing_slashes path in
    if JsString.truthy stripped then stripped else "/".

(** One code unit other than a slash, followed by one or more slashes and
    nothing else, as in "a/". *)
Definition unit_then_slashes (p : string) : bool :=
  match p with
  | EmptyString => false
  | String c rest =>
      negb (JsString.is_slash c) && JsString.truthy rest
      && JsString.all_slashes rest
  end.

(** ** Session store, router and root view-state machine *)

Module Root.

(** Modelled from the spec: the [User] type of core/types, which is not
    among the sources; a fetched profile that "holds at minimum an
    identifier". *)
Record User := mkUser { user_id : string }.

(** [SiteMode] is a string enumeration of core/types; the code only
    compares it with the literal "personal". *)
Definition SiteMode := string.

(** The hook state of [App], one field per [useState]. *)
Record Hooks := mkHooks {
  adminToken : option string;
  userToken : option string;
  userRecord : option User;
  siteMode : option SiteMode;
  notice : string;
  path : string
}.

(** What [App] touches of the browser: the address bar, the session
    history around the current entry, and [localStorage]. *)
Record Browser := mkBrowser {
  pathname : string;
  history_back : list string;
  history_forward : list string;
  localStorage : gmap string string
}.

Record World := mkWorld { hooks : Hooks; browser : Browser }.

(** Truthiness of [string | null] and of [User | null]. *)
Definition token_truthy (t : option string) : bool :=
  match t with
  | Some s => JsString.truthy s
  | None => false
  end.

Definition record_truthy (u : option User) : bool :=
  match u with
  | Some _ => true
  | None => false
  end.

(** [userToken && userRecord] *)
Definition authenticated (h : Hooks) : bool :=
  token_truthy (userToken h) && record_truthy (userRecord h).

(** [siteMode !== null] and [siteMode === "personal"]. *)
Definition known (m : option SiteMode) : bool :=
  match m with
  | Some _ => true
  | None => false
  end.

Definition is_personal (m : option SiteMode) : bool :=
  match m with
  | Some s => String.eqb s "personal"
  | None => false
  end.

(** *** Actions: a state monad over the world *)

Definition Act (A : Type) : Type := World -> A * World.

#[export] Instance act_ret : MRet Act := fun A a w => (a, w).

#[export] Instance act_bind : MBind Act :=
  fun A B k m w => let (a, w') := m w in k a w'.

Definition exec {A} (m : Act A) (w : World) : World := snd (m w).
Definition eval {A} (m : Act A) (w : World) : A := fst (m w).

(** [if (b) { m }] *)
Definition when (b : bool) (m : Act unit) : Act unit :=
  if b then m else mret tt.

Definition get_hooks : Act Hooks := fun w => (hooks w, w).
Definition get_browser : Act Browser := fun w => (browser w, w).

Definition modify_hooks (f : Hooks -> Hooks) : Act unit :=
  fun w => (tt, mkWorld (f (hooks w)) (browser w)).

Definition modify_browser (f : Browser -> Browser) : Act unit :=
  fun w => (tt, mkWorld (hooks w) (f (browser w))).

(** The setters returned by [useState]. *)
Definition setAdminToken (v : option string) : Act unit :=
  modify_hooks (fun h =>
    mkHooks v (userToken h) (userRecord h) (siteMode h) (notice h) (path h)).

Definition setUserToken (v : option string) : Act unit :=
  modify_hooks (fun h =>
    mkHooks (adminToken h) v (userRecord h) (siteMode h) (notice h) (path h)).

Definition setUserRecord (v : option User) : Act unit :=
  modify_hooks (fun h =>
    mkHooks (adminToken h) (userToken h) v (siteMode h) (notice h) (path h)).

Definition setSiteMode (v : option SiteMode) : Act unit :=
  modify_hooks (fun h =>
    mkHooks (adminToken h) (userToken h) (userRecord h) v (notice h) (path h)).

Definition setNotice (v : string) : Act unit :=
  modify_hooks (fun h =>
    mkHooks (adminToken h) (userToken h) (userRecord h) (siteMode h) v (path h)).

Definition setPath (v : string) : Act unit :=
  modify_hooks (fun h =>
    mkHooks (adminToken h) (userToken h) (userRecord h) (siteMode h)
            (notice h) v).

(** [localStorage.setItem], [localStorage.removeItem]. *)
Definition localStorage_setItem (k v : string) : Act unit :=
  modify_browser (fun b =>
    mkBrowser (pathname b) (history_back b) (history_forward b)
              (<[k := v]> (localStorage b))).

Definition localStorage_removeItem (k : string) : Act unit :=
  modify_browser (fun b =>
    mkBrowser (pathname b) (history_back b) (history_forward b)
              (delete k (localStorage b))).

(** [history.pushState(null, "", url)]: a new entry after the current
    one, the forward entries are dropped.  The url is a plain absolute
    path, as "/user" and "/login", which the browser stores as the
    pathname of the new entry unchanged; [App] itself passes no other.
    Urls with a query, a fragment, dot segments, escapes or a host, which
    the browser resolves or refuses, are outside this model. *)
Definition history_pushState (url : string) : Act unit :=
  modify_browser (fun b =>
    mkBrowser url (pathname b :: history_back b) [] (localStorage b)).

(** [history.replaceState(null, "", url)]: the current entry changes. *)
Definition history_replaceState (url : string) : Act unit :=
  modify_browser (fun b =>
    mkBrowser url (history_back b) (history_forward b) (localStorage b)).

(** The initial hook state: the tokens come from [localStorage], the path
    from the address bar. *)
Definition initial (b : Browser) : World :=
  mkWorld
    (mkHooks (localStorage b !! "admin_token")
             (localStorage b !! "user_token")
             None None ""
             (normalizePath (pathname b)))
    b.

(** *** Session store *)

Definition updateAdminToken (next : option string) : Act unit :=
  setAdminToken next ;;
  match next with
  | Some t =>
      if JsString.truthy t then localStorage_setItem "admin_token" t
      else localStorage_removeItem "admin_token"
  | None => localStorage_removeItem "admin_token"
  end.

Definition updateUserToken (next : option string) : Act unit :=
  setUserToken next ;;
  match next with
  | Some t =>
      if JsString.truthy t then localStorage_setItem "user_token" t
      else (localStorage_removeItem "user_token" ;; setUserRecord None)
  | None => localStorage_removeItem "user_token" ;; setUserRecord None
  end.

(** *** Router *)

Definition navigateTo (target : string) : Act unit :=
  history_pushState target ;;
  setPath (normalizePath target).

(** The [popstate] listener; the browser has already moved to the entry
    whose path is in the address bar. *)
Definition handlePopState : Act unit :=
  b ← get_browser;
  setPath (normalizePath (pathname b)).

Definition handleUserLogin (token : string) : Act unit :=
  updateUserToken (Some token) ;;
  navigateTo "/user".

Definition handleUserLogout : Act unit :=
  updateUserToken None ;;
  navigateTo "/login".

(** *** Effects *)

(** The site-mode fetch resolves with the server's [site_mode], or
    rejects. *)
Definition onSiteInfo (result : option SiteMode) : Act unit :=
  match result with
  | Some m => setSiteMode (Some m)
  | None => setSiteMode (Some "personal")
  end.

(** The profile effect, run when [userToken] changed.  Without a token
    the record is reset and no request leaves; otherwise the result is
    the bearer token of the request to /api/u/auth/me. *)
Definition loadUserRecord : Act (option string) :=
  h ← get_hooks;
  match userToken h with
  | Some t =>
      if JsString.truthy t then mret (Some t)
      else setUserRecord None ;; mret None
  | None => setUserRecord None ;; mret None
  end.

Definition onProfileLoaded (u : User) : Act unit :=
  setUserRecord (Some u) ;;
  b ← get_browser;
  let current := normalizePath (pathname b) in
  when (String.eqb current "/login" || String.eqb current "/register")
       (navigateTo "/user").

Definition onProfileFailed : Act unit := updateUserToken None.

(** The admin login form: the request resolved with a token, or rejected
    with an error message. *)
Definition handleAdminLogin (result : string + string) : Act unit :=
  match result with
  | inl token => updateAdminToken (Some token) ;; setNotice ""
  | inr message => setNotice message
  end.

(** *** The render pass *)

Inductive View :=
| AdminLoginView (notice : string)
| AdminAppView (token : string)
| UserAppView (token : string) (user : User)
| PublicAppView.

(** [App]: the values of the hooks are read once, at the start of the
    pass; the setters and the history calls act on the world.  A
    component may return [null], here [None]. *)
Definition App : Act (option View) :=
  h ← get_hooks;
  let path := path h in
  (* Homepage redirect logic *)
  when (String.eqb path "/" && known (siteMode h))
    (if is_personal (siteMode h) then
       history_replaceState "/admin" ;; setPath "/admin"
     else if authenticated h
     then history_replaceState "/user" ;; setPath "/user"
     else history_replaceState "/login" ;; setPath "/login") ;;
  (* Personal mode: redirect all non-admin paths to admin *)
  when (is_personal (siteMode h)
        && negb (JsString.startsWith path "/admin"))
    (history_replaceState "/admin" ;; setPath "/admin") ;;
  (* Admin routes *)
  if JsString.startsWith path "/admin" then
    match adminToken h with
    | Some t =>
        if JsString.truthy t then mret (Some (AdminAppView t))
        else mret (Some (AdminLoginView (notice h)))
    | None => mret (Some (AdminLoginView (notice h)))
    end
  (* User routes *)
  else if JsString.startsWith path "/user" then
    let to_login : Act (option View) :=
      (* Redirect to login *)
      when (negb (String.eqb path "/login"))
        (history_replaceState "/login" ;; setPath "/login") ;;
      mret (Some PublicAppView) in
    match userToken h, userRecord h with
    | Some t, Some u =>
        if JsString.truthy t then mret (Some (UserAppView t u))
        else to_login
    | _, _ => to_login
    end
  (* Public routes (/login, /register) *)
  else mret (Some PublicAppView).

(** The path stored after a render pass, the view it returned, and the
    address bar after it. *)
Definition path_after (w : World) : string := path (hooks (exec App w)).
Definition rendered (w : World) : option View := eval App w.
Definition pathname_after (w : World) : string :=
  pathname (browser (exec App w)).

(** [n] render passes in a row, each on the state the previous one
    left. *)
Fixpoint passes (n : nat) (w : World) : World :=
  match n with
  | O => w
  | S k => passes k (exec App w)
  end.

End Root.

(** ** JavaScript numbers *)

Module JsNumber.

#[local] Open Scope float_scope.

(** An integer as a number (exact below 2^53, rounded to nearest above). *)
Definition of_Z (z : Z) : float :=
  SF2Prim (binary_normalize prec emax z 0 false).

Definition is_nan (x : float) : bool := negb (x =? x).

(** [Number.isFinite(x)] *)
Definition is_finite (x : float) : bool :=
  match Prim2SF x with
  | S754_zero _ | S754_finite _ _ _ => true
  | S754_infinity _ | S754_nan => false
  end.

(** [Math.max(...args)]: the result starts at -Infinity; a NaN argument
    makes the result NaN; +0 counts as larger than -0. *)
Definition max_step (highest : option float) (number : float) : option float :=
  match highest with
  | None => None
  | Some h =>
      if is_nan number then None
      else if (h =? 0) && (number =? 0) && (1 / h <? 0) && (0 <? 1 / number)
      then Some number
      else if h <? number then Some number
      else Some h
  end.

Definition Math_max (args : list float) : float :=
  match fold_left max_step args (Some neg_infinity) with
  | Some h => h
  | None => nan
  end.

(** Decimal digits of a non-negative integer. *)
Definition digits (n : Z) : string :=
  DecimalString.NilZero.string_of_uint (N.to_uint (Z.to_N n)).

Fixpoint zeros (k : nat) : string :=
  match k with
  | O => ""
  | S k' => String "0" (zeros k')
  end.

(** The integer [n] for which [n / 10^f - x] is as close to zero as
    possible for [x = m * 2^e], the larger one when there are two. *)
Definition nearest_scaled (m : positive) (e : Z) (f : nat) : Z :=
  let num := (Zpos m * 10 ^ Z.of_nat f)%Z in
  if (0 <=? e)%Z then (num * 2 ^ e)%Z
  else ((2 * num + 2 ^ (- e)) / (2 * 2 ^ (- e)))%Z.

(** The digits of [n] with a decimal point before the last [f] of them,
    padded with zeros on the left up to [f + 1] digits. *)
Definition fixed_digits (n : Z) (f : nat) : string :=
  let m := digits n in
  match f with
  | O => m
  | S _ =>
      let m := (zeros (S f - String.length m) ++ m)%string in
      let k := String.length m in
      (String.substring 0 (k - f) m ++ "." ++ String.substring (k - f) f m)%string
  end.

Section WithToString.

(** [Number::toString], the language's shortest round-trip rendering of
    a number, is a built-in that the sources only call. *)
Variable Number_toString : float -> string.

(** [x.toFixed(f)] *)
Definition toFixed (x : float) (f : nat) : string :=
  match Prim2SF x with
  | S754_nan => "NaN"
  | S754_infinity false => "Infinity"
  | S754_infinity true => "-Infinity"
  | S754_zero _ => fixed_digits 0 f
  | S754_finite s m e =>
      let sign := if s then "-" else "" in
      let m := if 1e21 <=? abs x then Number_toString (abs x)
               else fixed_digits (nearest_scaled m e f) f in
      (sign ++ m)%string
  end.

End WithToString.

End JsNumber.

(** ** Monitoring view *)

Module Monitoring.

(** const rateColor = (rate: number | null) => ... *)
Definition rateColor (rate : option float) : string :=
  match rate with
  | None => "text-stone-400"
  | Some rate =>
      if (99 <=? rate)%float then "text-green-600"
      else if (95 <=? rate)%float then "text-yellow-600"
      else "text-red-600"
  end.

Definition rateBg (rate : option float) : string :=
  match rate with
  | None => "bg-stone-100"
  | Some rate =>
      if (99 <=? rate)%float then "bg-green-50"
      else if (95 <=? rate)%float then "bg-yellow-50"
      else "bg-red-50"
  end.

(** The meaning of the four text colours. *)
Inductive Tone := neutral | good | warning | critical.

Definition tone_of (class : string) : option Tone :=
  if String.eqb class "text-stone-400" then Some neutral
  else if String.eqb class "text-green-600" then Some good
  else if String.eqb class "text-yellow-600" then Some warning
  else if String.eqb class "text-red-600" then Some critical
  else None.

Section FetchData.

(** [MonitoringData] (core/types) is only passed along here. *)
Variable MonitoringData : Type.
(** [apiBase] (core/constants). *)
Variable apiBase : string.
(** The parent component, which owns the displayed data, and the
    [onLoaded] callback it hands down. *)
Variable Parent : Type.
Variable onLoaded : MonitoringData -> Parent -> Parent.

Record Request := mkRequest {
  url : string;
  headers : list (string * string)
}.

(** [res.json()] resolves with the parsed body or rejects. *)
Inductive Body :=
| Parsed (data : MonitoringData)
| SyntaxError (message : string).

Record Response := mkResponse { status : Z; body : Body }.

(** [res.ok]: the status is in the range 200-299. *)
Definition ok (res : Response) : bool :=
  (200 <=? status res) && (status res <=? 299).

(** [fetch] resolves with a response or rejects (network error). *)
Inductive Fetched :=
| Resolved (res : Response)
| NetworkError (message : string).

Variable fetch : Request -> Fetched.

(** The component's hooks, the parent, and the calls of [onLoaded] so
    far, latest first. *)
Record State := mkState {
  days : Z;
  loading : bool;
  parent : Parent;
  onLoaded_calls : list MonitoringData
}.

(** *** State and exceptions *)

Inductive Completion (A : Type) :=
| Normal (a : A)
| Thrown (error : string).
Arguments Normal {A} a.
Arguments Thrown {A} error.

Definition M (A : Type) : Type := State -> Completion A * State.

#[local] Instance m_ret : MRet M := fun A a s => (Normal a, s).

#[local] Instance m_bind : MBind M :=
  fun A B k m s =>
    match m s with
    | (Normal a, s') => k a s'
    | (Thrown e, s') => (Thrown e, s')
    end.

Definition throw {A} (e : string) : M A := fun s => (Thrown e, s).

(** [try { body } catch { handler } finally { finalizer }] *)
Definition try_catch_finally {A}
    (body : M A) (handler : string -> M A) (finalizer : M unit) : M A :=
  fun s =>
    let (c, s1) :=
      match body s with
      | (Normal a, s') => (Normal a, s')
      | (Thrown e, s') => handler e s'
      end in
    match finalizer s1 with
    | (Normal _, s2) => (c, s2)
    | (Thrown e, s2) => (Thrown e, s2)
    end.

Definition setDays (d : Z) : M unit :=
  fun s => (Normal tt, mkState d (loading s) (parent s) (onLoaded_calls s)).

Definition setLoading (b : bool) : M unit :=
  fun s => (Normal tt, mkState (days s) b (parent s) (onLoaded_calls s)).

Definition call_onLoaded (data : MonitoringData) : M unit :=
  fun s => (Normal tt,
            mkState (days s) (loading s) (onLoaded data (parent s))
                    (data :: onLoaded_calls s)).

Definition await_fetch (req : Request) : M Response :=
  match fetch req with
  | Resolved res => mret res
  | NetworkError e => throw e
  end.

Definition await_json (res : Response) : M MonitoringData :=
  match body res with
  | Parsed data => mret data
  | SyntaxError e => throw e
  end.

Definition request (token : string) (d : Z) : Request :=
  mkRequest
    (apiBase ++ "/api/monitoring?days=" ++ JsString.of_Z d)
    (("Content-Type", "application/json")
     :: if JsString.truthy token
        then [("Authorization", "Bearer " ++ token)] else []).

(** const fetchData = useCallback(async (d: number) => { ... }) *)
Definition fetchData (token : string) (d : Z) : M unit :=
  setLoading true ;;
  try_catch_finally
    (res ← await_fetch (request token d);
     if negb (ok res) then throw ("HTTP " ++ JsString.of_Z (status res))
     else
       data ← await_json res;
       call_onLoaded data)
    (fun _ => (* silently ignore *) mret tt)
    (setLoading false).

Definition handleDaysChange (token : string) (d : Z) : M unit :=
  setDays d ;;
  fetchData token d.

(** The ways the request of [fetchData] fails. *)
Definition fetch_failed (token : string) (d : Z) : Prop :=
  match fetch (request token d) with
  | NetworkError _ => True
  | Resolved res =>
      ok res = false \/ exists e, body res = SyntaxError e
  end.

End FetchData.

Arguments Normal {A} a.
Arguments Thrown {A} error.
Arguments Parsed {MonitoringData} data.
Arguments SyntaxError {MonitoringData} message.
Arguments Resolved {MonitoringData} res.
Arguments NetworkError {MonitoringData} message.
Arguments mkResponse {MonitoringData} status body.
Arguments status {MonitoringData} r.
Arguments body {MonitoringData} r.
Arguments ok {MonitoringData} res.
Arguments mkState {MonitoringData Parent} days loading parent onLoaded_calls.
Arguments days {MonitoringData Parent} s.
Arguments loading {MonitoringData Parent} s.
Arguments parent {MonitoringData Parent} s.
Arguments onLoaded_calls {MonitoringData Parent} s.

End Monitoring.

(** ** Model catalog view *)

Module Catalog.

Record DailyPoint := mkDaily {
  day : string;
  requests : float;
  tokens : float
}.

Record Channel := mkChannel {
  ch_id : string;
  ch_name : string;
  input_price : option float;
  output_price : option float
}.

(** [ModelItem] (core/types), with the fields the view reads. *)
Record ModelItem := mkModel {
  id : string;
  channels : list Channel;
  total_requests : float;
  total_tokens : float;
  total_cost : float;
  avg_latency_ms : option float;
  daily : list DailyPoint
}.

(** *** Sparkline *)

Definition width : float := 120.
Definition height : float := 32.
Definition padding : float := 2.

Definition values (data : list DailyPoint) : list float := map requests data.

(** const max = Math.max(...values, 1); *)
Definition scale_max (values : list float) : float :=
  JsNumber.Math_max (values ++ [1%float]).

(** Math.max(values.length - 1, 1), over integers. *)
Definition step_count (values : list float) : Z :=
  Z.max (Z.of_nat (length values) - 1) 1.

(** const step = (width - padding * 2) / Math.max(values.length - 1, 1); *)
Definition step (values : list float) : float :=
  ((width - padding * 2) / JsNumber.of_Z (step_count values))%float.

Definition point_x (values : list float) (i : nat) : float :=
  (padding + JsNumber.of_Z (Z.of_nat i) * step values)%float.

Definition point_y (max v : float) : float :=
  (height - padding - ((v / max) * (height - padding * 2)))%float.

(** The coordinates behind [points]: one per value, in order. *)
Definition coords (values : list float) : list (float * float) :=
  imap (fun i v => (point_x values i, point_y (scale_max values) v)) values.

(** The coordinates behind [areaPoints]: the line, closed along the
    bottom edge. *)
Definition area_coords (values : list float) : list (float * float) :=
  (padding, (height - padding)%float)
  :: coords values
  ++ [((padding + JsNumber.of_Z (Z.of_nat (length values) - 1) * step values)%float,
       (height - padding)%float)].

Record Svg := mkSvg {
  svg_width : float;
  svg_height : float;
  viewBox : string;
  polygon_points : string;
  polyline_points : string
}.

Section WithToString.

Variable Number_toString : float -> string.

Definition show_point (p : float * float) : string :=
  Number_toString (fst p) ++ "," ++ Number_toString (snd p).

Definition show_points (ps : list (float * float)) : string :=
  String.concat " " (map show_point ps).

(** const MiniSparkline = ({ data }) => { ... } *)
Definition MiniSparkline (data : list DailyPoint) : option Svg :=
  match data with
  | [] => None
  | _ :: _ =>
      let values := values data in
      Some (mkSvg width height
              ("0 0 " ++ Number_toString width ++ " " ++ Number_toString height)
              (show_points (area_coords values))
              (show_points (coords values)))
  end.

(** *** Formatting *)

Definition formatNumber (n : float) : string :=
  if (1000000 <=? n)%float
  then JsNumber.toFixed Number_toString (n / 1000000)%float 1 ++ "M"
  else if (1000 <=? n)%float
  then JsNumber.toFixed Number_toString (n / 1000)%float 1 ++ "K"
  else Number_toString n.

Definition formatCost (n : float) : string :=
  if (n =? 0)%float then "$0"
  else if (n <? 0.01)%float
  then "$" ++ JsNumber.toFixed Number_toString n 4
  else "$" ++ JsNumber.toFixed Number_toString n 2.

Definition formatPrice (n : option float) : string :=
  match n with
  | None => "-"
  | Some n => "$" ++ Number_toString n
  end.

End WithToString.

(** *** Search and pagination *)

Definition pageSizeOptions : list Z := [12; 24; 48].

Inductive PageItem :=
| PageNumber (n : Z)
| Ellipsis.

#[export] Instance PageItem_eq_dec : EqDecision PageItem.
Proof. solve_decision. Defined.

(** [l.slice(start, end)]; a negative index counts from the end. *)
Definition slice {A} (l : list A) (start end_ : Z) : list A :=
  let len := Z.of_nat (length l) in
  let rel i := if i <? 0 then Z.max (len + i) 0 else Z.min i len in
  let k := rel start in
  firstn (Z.to_nat (Z.max (rel end_ - k) 0)) (skipn (Z.to_nat k) l).

(** The hooks of [ModelsView], the [models] prop, and the dependencies
    with which each of the two effects last ran ([None] before the
    first render). *)
Record State := mkState {
  models : list ModelItem;
  search : string;
  pageSize : Z;
  page : Z;
  reset_deps : option (string * Z);
  clamp_deps : option Z
}.

Definition filtered (s : State) : list ModelItem :=
  if JsString.truthy (search s)
  then filter (fun m =>
         JsString.includes (JsString.toLowerCase (id m))
                           (JsString.toLowerCase (search s)))
         (models s)
  else models s.

Definition total (s : State) : Z := Z.of_nat (length (filtered s)).

(** Math.ceil(a / b) on integers with [b] positive. *)
Definition ceil_div (a b : Z) : Z := - ((- a) / b).

(** Math.max(1, Math.ceil(total / pageSize)) *)
Definition totalPages (s : State) : Z :=
  Z.max 1 (ceil_div (total s) (pageSize s)).

(** filtered.slice(start, start + pageSize) *)
Definition pagedModels (s : State) : list ModelItem :=
  let start := (page s - 1) * pageSize s in
  slice (filtered s) start (start + pageSize s).

Definition setSearch (v : string) (s : State) : State :=
  mkState (models s) v (pageSize s) (page s) (reset_deps s) (clamp_deps s).

Definition setPageSize (v : Z) (s : State) : State :=
  mkState (models s) (search s) v (page s) (reset_deps s) (clamp_deps s).

Definition setPage (f : Z -> Z) (s : State) : State :=
  mkState (models s) (search s) (pageSize s) (f (page s))
          (reset_deps s) (clamp_deps s).

Definition setModels (v : list ModelItem) (s : State) : State :=
  mkState v (search s) (pageSize s) (page s) (reset_deps s) (clamp_deps s).

(** useEffect(() => { setPage(1); }, [search, pageSize]); *)
Definition reset_effect (s : State) : State :=
  let deps := Some (search s, pageSize s) in
  if bool_decide (reset_deps s = deps) then s
  else
    let s' := setPage (fun _ => 1) s in
    mkState (models s') (search s') (pageSize s') (page s') deps (clamp_deps s').

(** useEffect(() => { setPage((prev) => Math.min(prev, totalPages)); },
    [totalPages]);  [totalPages] is the value of the render the effects
    belong to. *)
Definition clamp_effect (totalPages : Z) (s : State) : State :=
  let deps := Some totalPages in
  if bool_decide (clamp_deps s = deps) then s
  else
    let s' := setPage (fun prev => Z.min prev totalPages) s in
    mkState (models s') (search s') (pageSize s') (page s') (reset_deps s') deps.

(** One render followed by its effects, in the order of the source. *)
Definition commit (s : State) : State :=
  clamp_effect (totalPages s) (reset_effect s).

(** The first render. *)
Definition mount (models : list ModelItem) : State :=
  commit (mkState models "" 12 1 None None).

(** The state between events: both effects have seen the current inputs,
    the page size is one of the options, and the page is in range. *)
Definition settled (s : State) : Prop :=
  reset_deps s = Some (search s, pageSize s)
  /\ clamp_deps s = Some (totalPages s)
  /\ pageSize s ∈ pageSizeOptions
  /\ 1 <= page s <= totalPages s.

Section Events.

(** [buildPageItems] (core/utils) is not among the sources. *)
Variable buildPageItems : Z -> Z -> list PageItem.

Definition pageItems (s : State) : list PageItem :=
  buildPageItems (page s) (totalPages s).

Inductive Event :=
| Input (value : string)
| SelectPageSize (size : Z)
| ClickPrev
| ClickNext
| ClickPage (item : Z)
| Props (models : list ModelItem).

(** The pagination controls are rendered only when the filtered list is
    not empty; a disabled button does not fire. *)
Definition pagination_shown (s : State) : bool :=
  negb (total s =? 0).

Definition enabled (ev : Event) (s : State) : bool :=
  match ev with
  | Input _ => true
  | Props _ => true
  | SelectPageSize size =>
      pagination_shown s && bool_decide (size ∈ pageSizeOptions)
  | ClickPrev => pagination_shown s && negb (page s <=? 1)
  | ClickNext => pagination_shown s && negb (totalPages s <=? page s)
  | ClickPage item =>
      pagination_shown s && bool_decide (PageNumber item ∈ pageItems s)
  end.

Definition handle (ev : Event) (s : State) : State :=
  match ev with
  | Input value => setSearch value s
  | Props models => setModels models s
  | SelectPageSize size => setPageSize size s
  | ClickPrev => setPage (fun _ => Z.max 1 (page s - 1)) s
  | ClickNext => setPage (fun _ => Z.min (totalPages s) (page s + 1)) s
  | ClickPage item => setPage (fun _ => item) s
  end.

(** An event the rendered view can deliver, its handler, and the
    render and effects that follow. *)
Definition dispatch (ev : Event) (s : State) : option State :=
  if enabled ev s then Some (commit (handle ev s)) else None.

Fixpoint run (evs : list Event) (s : State) : option State :=
  match evs with
  | [] => Some s
  | ev :: rest =>
      match dispatch ev s with
      | Some s' => run rest s'
      | None => None
      end
  end.

End Events.

End Catalog.

(** ** The events of the application *)

Module RootEvents.

Import Root.

(** [history.replaceState(null, "", t); setPath(t);], the redirect of a
    render pass. *)
Definition redirect (t : string) : Act unit :=
  history_replaceState t ;; setPath t.

(** The browser moves one entry back, or forward, in the session history;
    without such an entry it stays where it is. *)
Definition browser_back : Act unit :=
  modify_browser (fun b =>
    match history_back b with
    | [] => b
    | e :: rest =>
        mkBrowser e rest (pathname b :: history_forward b) (localStorage b)
    end).

Definition browser_forward : Act unit :=
  modify_browser (fun b =>
    match history_forward b with
    | [] => b
    | e :: rest =>
        mkBrowser e (pathname b :: history_back b) rest (localStorage b)
    end).

(** What can happen to [App]: a render pass, the callbacks it hands to the
    views below it, the [popstate] listener after the browser moved, and
    the completions of its three requests. *)
Inductive Event :=
| Render
| Navigate (target : string)
| Back
| Forward
| UserLogin (token : string)
| UserLogout
| UpdateUserToken (next : option string)
| UpdateAdminToken (next : option string)
| AdminLogin (result : string + string)
| SiteInfo (result : option SiteMode)
| ProfileLoaded (user : User)
| ProfileFailed.

Definition perform (ev : Event) : Act unit :=
  match ev with
  | Render => App ;; mret tt
  | Navigate target => navigateTo target
  | Back => browser_back ;; handlePopState
  | Forward => browser_forward ;; handlePopState
  | UserLogin token => handleUserLogin token
  | UserLogout => handleUserLogout
  | UpdateUserToken next => updateUserToken next
  | UpdateAdminToken next => updateAdminToken next
  | AdminLogin result => handleAdminLogin result
  | SiteInfo result => onSiteInfo result
  | ProfileLoaded user => onProfileLoaded user
  | ProfileFailed => onProfileFailed
  end.

(** What [localStorage.getItem] gives after a token was set to [next]: a
    falsy token is removed, not stored. *)
Definition stored (next : option string) : option string :=
  if token_truthy next then next else None.

(** The stored path and the address bar agree. *)
Definition in_sync (w : World) : Prop :=
  path (hooks w) = normalizePath (pathname (browser w)).

(** The events that hand [App] a user token. *)
Definition sets_user_token (ev : Event) : bool :=
  match ev with
  | UserLogin _ | UpdateUserToken (Some _) => true
  | _ => false
  end.

(** The targets for which the pathname after [pushState] is the target
    itself: absolute paths made of letters, digits, "-", "_" and "/" that
    do not start with "//".  They hold no query, fragment, dot segment or
    escape for the browser to resolve, and name no host. *)
Definition plain_unit (c : ascii) : bool :=
  let n := nat_of_ascii c in
  ((97 <=? n) && (n <=? 122) || (65 <=? n) && (n <=? 90)
   || (48 <=? n) && (n <=? 57)
   || (n =? 45) || (n =? 95) || (n =? 47))%nat.

Fixpoint all_plain (s : string) : bool :=
  match s with
  | EmptyString => true
  | String c rest => plain_unit c && all_plain rest
  end.

Definition plain_target (t : string) : bool :=
  JsString.startsWith t "/" && negb (JsString.startsWith t "//")
  && all_plain t.

Definition plain_event (ev : Event) : bool :=
  match ev with
  | Navigate target => plain_target target
  | _ => true
  end.

(** The events that leave a visitor of the login or register page where
    they are: render passes and a site-info answer other than
    "personal". *)
Definition stays_public (ev : Event) : bool :=
  match ev with
  | Render => true
  | SiteInfo (Some m) => negb (String.eqb m "personal")
  | _ => false
  end.

Fixpoint perform_all (evs : list Event) (w : World) : World :=
  match evs with
  | [] => w
  | ev :: rest => perform_all rest (exec (perform ev) w)
  end.

End RootEvents.

(** ** Monitoring view: what is rendered *)

Module MonitoringRender.

(** The rows of [monitoring.channels] and of [monitoring.dailyTrends]
    (core/types), with the fields the view reads. *)
Record ChannelStat := mkChannelStat {
  channel_id : string;
  channel_name : string;
  api_format : string;
  channel_status : string;
  success_rate : option float;
  total_requests : float;
  avg_latency_ms : option float;
  last_seen : option string
}.

Record TrendRow := mkTrendRow {
  day : string;
  row_channel_id : option string;
  requests : float;
  success : float;
  errors : float;
  row_success_rate : option float;
  row_avg_latency_ms : option float
}.

(** [s.slice(0, n)] *)
Definition take (n : nat) (s : string) : string := String.substring 0 n s.

(** [s.replace("T", " ")]: the first T, if there is one. *)
Fixpoint replace_first_T (s : string) : string :=
  match s with
  | EmptyString => EmptyString
  | String c rest =>
      if Ascii.eqb c "T" then String " " rest
      else String c (replace_first_T rest)
  end.

(** Does a T occur in [s]? *)
Fixpoint has_T (s : string) : bool :=
  match s with
  | EmptyString => false
  | String c rest => Ascii.eqb c "T" || has_T rest
  end.

(** ch.last_seen ? ch.last_seen.slice(0, 16).replace("T", " ") : "-" *)
Definition lastSeenCell (ch : ChannelStat) : string :=
  match last_seen ch with
  | Some s =>
      if JsString.truthy s then replace_first_T (take 16 s) else "-"
  | None => "-"
  end.

(** channels.find((ch) => ch.channel_id === row.channel_id)?.channel_name
      ?? row.channel_id ?? "-" *)
Definition chName (channels : list ChannelStat) (row : TrendRow) : string :=
  match
    List.find (fun ch =>
                 match row_channel_id row with
                 | Some id => String.eqb (channel_id ch) id
                 | None => false
                 end) channels
  with
  | Some ch => channel_name ch
  | None =>
      match row_channel_id row with
      | Some id => id
      | None => "-"
      end
  end.

(** The texts of the three window buttons: "1 day", "7 days" and
    "30 days". *)
Inductive WindowLabel := OneDay | SevenDays | ThirtyDays.

Record WindowButton := mkWindowButton {
  key : Z;
  label : WindowLabel;
  active : bool;
  disabled : bool
}.

(** [1, 7, 30].map((d) => <button ... />) *)
Definition windowButtons (days : Z) (loading : bool) : list WindowButton :=
  map (fun d =>
         mkWindowButton d
           (if d =? 1 then OneDay else if d =? 7 then SevenDays
            else ThirtyDays)
           (days =? d) loading)
      [1; 7; 30].

(** What [MonitoringView] returns: the placeholder while [monitoring] is
    null, otherwise the panel, of which the window buttons are kept
    here. *)
Inductive Rendered :=
| NoData
| Panel (buttons : list WindowButton).

Section Clicks.

Variable MonitoringData : Type.
Variable apiBase : string.
Variable Parent : Type.
Variable onLoaded : MonitoringData -> Parent -> Parent.
Variable fetch : Monitoring.Request -> Monitoring.Fetched MonitoringData.
(** The [monitoring] prop, which the parent passes down from its own
    state. *)
Variable monitoring : Parent -> option MonitoringData.

Definition MonitoringView (s : Monitoring.State MonitoringData Parent) :
    Rendered :=
  match monitoring (Monitoring.parent s) with
  | None => NoData
  | Some _ => Panel (windowButtons (Monitoring.days s) (Monitoring.loading s))
  end.

(** The component after [setDays(d)] and [setLoading(true)], while the
    request of [fetchData] is awaited. *)
Definition pending (d : Z) (s : Monitoring.State MonitoringData Parent) :
    Monitoring.State MonitoringData Parent :=
  Monitoring.mkState d true (Monitoring.parent s)
                     (Monitoring.onLoaded_calls s).

(** A click on the button of window [d]: a button that is not rendered or
    is disabled delivers nothing. *)
Definition click (token : string) (d : Z)
    (s : Monitoring.State MonitoringData Parent) :
    option (Monitoring.State MonitoringData Parent) :=
  match MonitoringView s with
  | NoData => None
  | Panel buttons =>
      match List.find (fun b => key b =? d) buttons with
      | Some b =>
          if disabled b then None
          else Some (snd (Monitoring.handleDaysChange MonitoringData apiBase
                            Parent onLoaded fetch token d s))
      | None => None
      end
  end.

End Clicks.

End MonitoringRender.

(** * Properties *)

(** ** The definitions on concrete inputs *)

Example normalizePath_examples :
  normalizePath "/admin/users///" = "/admin/users"
  /\ normalizePath "/a//b//" = "/a//b"
  /\ normalizePath "a/" = "a"
  /\ normalizePath "a" = "/".
Proof. repeat split. Qed.

Example toFixed_examples (Number_toString : float -> string) :
  JsNumber.toFixed Number_toString 1.005 2 = "1.00"
  /\ JsNumber.toFixed Number_toString 2.5 0 = "3"
  /\ JsNumber.toFixed Number_toString (-2.5) 0 = "-3"
  /\ JsNumber.toFixed Number_toString 1.45 1 = "1.4"
  /\ JsNumber.toFixed Number_toString 8.345 2 = "8.35"
  /\ JsNumber.toFixed Number_toString (-0.0001) 2 = "-0.00"
  /\ JsNumber.toFixed Number_toString 0 2 = "0.00"
  /\ JsNumber.toFixed Number_toString 1e20 2 = "100000000000000000000.00"
  /\ JsNumber.toFixed Number_toString nan 2 = "NaN".
Proof. vm_compute. repeat split. Qed.

Example Math_max_examples :
  JsNumber.Math_max [3; 7; 1]%float = 7%float
  /\ JsNumber.Math_max [] = neg_infinity
  /\ JsNumber.is_nan (JsNumber.Math_max [3; nan; 1]%float) = true
  /\ (1 / JsNumber.Math_max [-0; 0]%float)%float = infinity.
Proof. vm_compute. repeat split. Qed.

Example includes_examples :
  JsString.includes (JsString.toLowerCase "GPT-4o") (JsString.toLowerCase "pt-4") = true
  /\ JsString.includes "gpt" "" = true
  /\ JsString.includes "gpt" "claude" = false.
Proof. repeat split. Qed.

(** A pending login on /user while the site mode is still unknown: the
    record has not arrived, the pass moves to /login. *)
Example App_user_without_record :
  Root.path_after
    (Root.mkWorld (Root.mkHooks None (Some "tok") None None "" "/user")
                  (Root.mkBrowser "/user" [] [] ∅)) = "/login".
Proof. reflexivity. Qed.

(** The third page of three, then a search without matches, then the
    search cleared: the page is back on the first of three. *)
Example ModelsView_search_and_back :
  let items (_ totalPages : Z) :=
    map Catalog.PageNumber (map Z.of_nat (seq 1 (Z.to_nat totalPages))) in
  let models := repeat (Catalog.mkModel "gpt-4o" [] 0 0 0 None []) 30 in
  option_map (fun s => (Catalog.page s, Catalog.totalPages s))
    (Catalog.run items [Catalog.ClickPage 3] (Catalog.mount models))
  = Some (3, 3)
  /\ option_map (fun s => (Catalog.page s, Catalog.totalPages s))
       (Catalog.run items [Catalog.ClickPage 3; Catalog.Input "zzz"]
          (Catalog.mount models))
     = Some (1, 1)
  /\ option_map (fun s => (Catalog.page s, Catalog.totalPages s))
       (Catalog.run items
          [Catalog.ClickPage 3; Catalog.Input "zzz"; Catalog.Input ""]
          (Catalog.mount models))
     = Some (1, 3).
Proof. vm_compute. repeat split. Qed.

(** The parent hands down a shorter list while the third page is shown:
    the render that follows still has page 3 of 1, its effects clamp the
    page. *)
Example ModelsView_clamp_after_render :
  let items (_ totalPages : Z) :=
    map Catalog.PageNumber (map Z.of_nat (seq 1 (Z.to_nat totalPages))) in
  let models := repeat (Catalog.mkModel "gpt-4o" [] 0 0 0 None []) 30 in
  match Catalog.run items [Catalog.ClickPage 3] (Catalog.mount models) with
  | Some s =>
      let rendered := Catalog.handle (Catalog.Props (firstn 5 models)) s in
      (Catalog.page rendered, Catalog.totalPages rendered) = (3, 1)
      /\ Catalog.page (Catalog.commit rendered) = 1
  | None => False
  end.
Proof. vm_compute. repeat split. Qed.

(** ** Path normalization *)

Section NormalizePath.

Import JsString.

Lemma length_le_1 (p : string) :
  (JsString.length p <=? 1) =
  match p with
  | EmptyString | String _ EmptyString => true
  | _ => false
  end.
Proof.
  destruct p as [|c [|c' r]]; try reflexivity.
  unfold JsString.length. cbn [String.length].
  apply Z.leb_gt. lia.
Qed.

Lemma replace_unfold (c : ascii) (rest : string) :
  replace_trailing_slashes (String c rest) =
  if is_slash c && all_slashes rest then EmptyString
  else String c (replace_trailing_slashes rest).
Proof. reflexivity. Qed.

(** Nothing is left exactly when the input is empty or only slashes. *)
Lemma replace_empty_iff (s : string) :
  replace_trailing_slashes s = EmptyString <-> all_slashes s = true.
Proof.
  destruct s as [|c rest]; [easy|].
  rewrite replace_unfold. cbn [all_slashes].
  destruct (is_slash c && all_slashes rest); easy.
Qed.

(** What is left does not end in a slash. *)
Lemma replace_all_slashes (s : string) :
  all_slashes (replace_trailing_slashes s) = true ->
  replace_trailing_slashes s = EmptyString.
Proof.
  induction s as [|c rest IH]; [easy|].
  rewrite replace_unfold.
  destruct (is_slash c && all_slashes rest) eqn:E; [easy|].
  cbn [all_slashes]. intros [Hc Hr]%andb_prop.
  apply IH, replace_empty_iff in Hr. rewrite Hc, Hr in E. discriminate.
Qed.

Lemma replace_idempotent (s : string) :
  replace_trailing_slashes (replace_trailing_slashes s) =
  replace_trailing_slashes s.
Proof.
  induction s as [|c rest IH]; [easy|].
  rewrite replace_unfold.
  destruct (is_slash c && all_slashes rest) eqn:E; [easy|].
  rewrite replace_unfold, IH.
  destruct (is_slash c && all_slashes (replace_trailing_slashes rest)) eqn:E';
    [|easy].
  apply andb_prop in E' as [Hc Hr].
  apply replace_all_slashes, replace_empty_iff in Hr.
  rewrite Hc, Hr in E. discriminate.
Qed.

Lemma normalizePath_twice (p : string) :
  normalizePath (normalizePath p) = normalizePath p <->
  unit_then_slashes p = false.
Proof.
  unfold normalizePath at 2 3. rewrite length_le_1.
  destruct p as [|c [|c' r]]; [easy| |].
  - cbn. rewrite andb_false_r. easy.
  - set (rest := String c' r).
    rewrite replace_unfold. cbn [unit_then_slashes].
    replace (truthy rest) with true by reflexivity. rewrite andb_true_r.
    destruct (is_slash c) eqn:Hc; cbn [andb negb].
    + destruct (all_slashes rest) eqn:Hr; [easy|].
      cbn [truthy]. split; [easy|intros _].
      destruct (replace_trailing_slashes rest) as [|d t] eqn:Hrest.
      { apply replace_empty_iff in Hrest. congruence. }
      unfold normalizePath. rewrite length_le_1.
      rewrite <- Hrest.
      assert (Hid := replace_idempotent (String c rest)).
      rewrite replace_unfold, Hc, Hr in Hid. cbn [andb] in Hid.
      rewrite Hid, Hrest. reflexivity.
    + cbn [truthy].
      destruct (all_slashes rest) eqn:Hr.
      * apply replace_empty_iff in Hr. rewrite Hr.
        split; [|easy]. unfold normalizePath. rewrite length_le_1.
        intros [= <-]. discriminate.
      * split; [easy|intros _].
        destruct (replace_trailing_slashes rest) as [|d t] eqn:Hrest.
        { apply replace_empty_iff in Hrest. congruence. }
        unfold normalizePath. rewrite length_le_1.
        rewrite <- Hrest.
        assert (Hid := replace_idempotent (String c rest)).
        rewrite replace_unfold, Hc in Hid. cbn [andb] in Hid.
        rewrite Hid, Hrest. reflexivity.
Qed.

Lemma normalizePath_only_slashes (p : string) :
  all_slashes p = true -> normalizePath p = "/".
Proof.
  intros H. unfold normalizePath.
  apply replace_empty_iff in H. rewrite H.
  destruct (JsString.length p <=? 1); reflexivity.
Qed.

Lemma absolute_not_unit_then_slashes (p : string) :
  startsWith p "/" = true -> unit_then_slashes p = false.
Proof.
  destruct p as [|c rest]; [easy|].
  unfold startsWith, String.prefix, unit_then_slashes, is_slash.
  destruct (ascii_dec "/" c) as [<-|]; [reflexivity|discriminate].
Qed.

End NormalizePath.

(** C4, as stated: normalization is idempotent on every string.  It is
    not: "a/" normalizes to "a", and "a" (one code unit) to "/". *)
Lemma normalizePath_not_idempotent :
  ~ (forall p : string, normalizePath (normalizePath p) = normalizePath p).
Proof. intros H. specialize (H "a/"). discriminate H. Qed.

(** C4, amended: [normalizePath (normalizePath p) = normalizePath p] holds
    exactly for the strings [p] that are not a single non-slash code unit
    followed by one or more slashes; so it holds for every path that starts
    with a slash.  The empty path and "/" normalize to "/", "/admin/" to
    "/admin", and every path made of slashes only, such as "//", to "/". *)
Theorem normalizePath_idempotent_spec :
  (forall p : string,
     normalizePath (normalizePath p) = normalizePath p <->
     unit_then_slashes p = false) /\
  (forall p : string,
     JsString.startsWith p "/" = true ->
     normalizePath (normalizePath p) = normalizePath p) /\
  normalizePath "" = "/" /\
  normalizePath "/" = "/" /\
  normalizePath "/admin/" = "/admin" /\
  normalizePath "//" = "/" /\
  (forall p : string, JsString.all_slashes p = true -> normalizePath p = "/").
Proof.
  split; [exact normalizePath_twice|].
  split.
  { intros p Hp. apply normalizePath_twice.
    now apply absolute_not_unit_then_slashes. }
  repeat split. exact normalizePath_only_slashes.
Qed.


(** ** Root view-state machine *)

Section RootFacts.

Import Root.

Ltac run_act :=
  unfold path_after, pathname_after, rendered, exec, eval, App,
    authenticated, handleUserLogout, handleUserLogin, navigateTo, updateUserToken,
    updateAdminToken, loadUserRecord, when,
    history_replaceState, history_pushState, localStorage_removeItem,
    localStorage_setItem, setPath, setUserToken, setUserRecord,
    setAdminToken, modify_hooks, modify_browser, get_hooks, get_browser,
    mbind, mret, act_bind, act_ret;
  cbn.

Ltac split_ifs :=
  repeat (cbn;
          match goal with
          | |- context [if ?b then _ else _] => destruct b eqn:?
          | |- context [match ?o with Some _ => _ | None => _ end] =>
              destruct o eqn:?
          end);
  cbn.

#[local] Opaque JsString.startsWith String.eqb.

(** The stored path after a pass is decided by the five inputs alone:
    neither the notice nor the browser's history or storage matter. *)
Lemma path_after_inputs (w1 w2 : World) :
  path (hooks w1) = path (hooks w2) ->
  adminToken (hooks w1) = adminToken (hooks w2) ->
  userToken (hooks w1) = userToken (hooks w2) ->
  userRecord (hooks w1) = userRecord (hooks w2) ->
  siteMode (hooks w1) = siteMode (hooks w2) ->
  path_after w1 = path_after w2.
Proof.
  destruct w1 as [[a1 u1 r1 m1 n1 p1] b1], w2 as [[a2 u2 r2 m2 n2 p2] b2].
  cbn. intros -> -> -> -> ->. run_act. split_ifs; reflexivity.
Qed.

(** A pass keeps the address bar and the stored path in step: whenever
    it stores a path it has just replaced the current history entry by
    the same path. *)
Lemma pass_pathname (w : World) :
  pathname (browser w) = path (hooks w) ->
  pathname_after w = path_after w.
Proof.
  destruct w as [[a u r m n p] [l hb hf ls]]. cbn. intros ->.
  run_act. split_ifs; reflexivity.
Qed.

Lemma root_personal (w : World) :
  path (hooks w) = "/" -> siteMode (hooks w) = Some "personal" ->
  path_after w = "/admin" /\ pathname_after w = "/admin".
Proof.
  destruct w as [[a u r m n p] b]. cbn. intros -> ->.
  run_act. vm_compute. split; reflexivity.
Qed.

Lemma root_authenticated (w : World) (m : SiteMode) :
  path (hooks w) = "/" -> siteMode (hooks w) = Some m -> m <> "personal" ->
  token_truthy (userToken (hooks w)) = true ->
  record_truthy (userRecord (hooks w)) = true ->
  path_after w = "/user" /\ pathname_after w = "/user".
Proof.
  destruct w as [[a u r m' n p] b]. cbn.
  intros -> -> Hm%String.eqb_neq Hu Hr.
  run_act. rewrite Hm, Hu, Hr. vm_compute. split; reflexivity.
Qed.

Lemma root_anonymous (w : World) (m : SiteMode) :
  path (hooks w) = "/" -> siteMode (hooks w) = Some m -> m <> "personal" ->
  token_truthy (userToken (hooks w)) = false ->
  path_after w = "/login" /\ pathname_after w = "/login".
Proof.
  destruct w as [[a u r m' n p] b]. cbn.
  intros -> -> Hm%String.eqb_neq Hu.
  run_act. rewrite Hm, Hu. vm_compute. split; reflexivity.
Qed.

(** *** Personal mode *)

Lemma personal_redirect (w : World) :
  siteMode (hooks w) = Some "personal" ->
  JsString.startsWith (path (hooks w)) "/admin" = false ->
  JsString.startsWith (path (hooks w)) "/user" = false
    \/ authenticated (hooks w) = true ->
  path_after w = "/admin".
Proof.
  destruct w as [[a u r m n p] b]. unfold authenticated. cbn.
  intros -> Ha Hu. run_act. rewrite Ha.
  change (String.eqb "personal" "personal") with true.
  destruct Hu as [-> | [Ht Hr]%andb_prop].
  - split_ifs; reflexivity.
  - destruct u as [t|], r as [u'|]; try discriminate.
    cbn in Ht. rewrite Ht. split_ifs; reflexivity.
Qed.

(** The user routes' own guard runs later in the same pass, on the path
    the pass started with, and has the last word. *)
Lemma personal_user_anonymous (w : World) :
  siteMode (hooks w) = Some "personal" ->
  JsString.startsWith (path (hooks w)) "/admin" = false ->
  JsString.startsWith (path (hooks w)) "/user" = true ->
  authenticated (hooks w) = false ->
  path_after w = "/login" /\ rendered w = Some PublicAppView.
Proof.
  destruct w as [[a u r m n p] b]. unfold authenticated. cbn.
  intros -> Ha Hu Hauth. run_act. rewrite Ha, Hu.
  assert (Hp : String.eqb p "/login" = false).
  { apply String.eqb_neq. intros ->. vm_compute in Hu. discriminate. }
  rewrite Hp.
  destruct u as [t|], r as [u'|]; cbn in Hauth |- *;
    rewrite ?andb_true_r, ?andb_false_r in Hauth; rewrite ?Hauth;
    split_ifs; split; reflexivity.
Qed.

(** Under /admin a pass changes neither the path nor the browser. *)
Lemma admin_path_stable (w : World) :
  JsString.startsWith (path (hooks w)) "/admin" = true ->
  exec App w = w.
Proof.
  destruct w as [[a u r m n p] b]. cbn. intros Ha.
  assert (Hp : String.eqb p "/" = false).
  { apply String.eqb_neq. intros ->. vm_compute in Ha. discriminate. }
  run_act. rewrite Ha, Hp, andb_false_r. split_ifs; reflexivity.
Qed.

Lemma personal_settles (w : World) :
  siteMode (hooks w) = Some "personal" ->
  JsString.startsWith (path (hooks w)) "/admin" = false ->
  path (hooks (passes 2 w)) = "/admin".
Proof.
  intros Hm Ha. cbn [passes]. fold (path_after (exec App w)).
  assert (Hm' : siteMode (hooks (exec App w)) = Some "personal").
  { destruct w as [[a u r m n p] b]. cbn in Hm. subst m.
    run_act. split_ifs; reflexivity. }
  destruct (JsString.startsWith (path (hooks w)) "/user") eqn:Hu;
    [destruct (authenticated (hooks w)) eqn:Hauth|].
  2:{ destruct (personal_user_anonymous w Hm Ha Hu Hauth) as [Hp _].
      unfold path_after in Hp.
      apply personal_redirect; rewrite ?Hp; auto. }
  all: assert (Hp : path_after w = "/admin")
         by (apply personal_redirect; auto);
       unfold path_after in *;
       rewrite admin_path_stable; [exact Hp|now rewrite Hp].
Qed.

(** A pass in personal mode off /admin changes the stored path and the
    current history entry, to the same value, and nothing else. *)
Lemma personal_first_pass (w : World) :
  siteMode (hooks w) = Some "personal" ->
  JsString.startsWith (path (hooks w)) "/admin" = false ->
  exec App w
  = mkWorld
      (mkHooks (adminToken (hooks w)) (userToken (hooks w))
               (userRecord (hooks w)) (siteMode (hooks w))
               (notice (hooks w)) (path_after w))
      (mkBrowser (path_after w) (history_back (browser w))
                 (history_forward (browser w)) (localStorage (browser w))).
Proof.
  destruct w as [[a u r m n p] [l hb hf ls]]. cbn. intros -> Ha.
  run_act. rewrite Ha.
  change (String.eqb "personal" "personal") with true.
  split_ifs; reflexivity.
Qed.

(** What is rendered under /admin. *)
Lemma admin_rendered (w : World) :
  JsString.startsWith (path (hooks w)) "/admin" = true ->
  rendered w
  = Some match adminToken (hooks w) with
         | Some t =>
             if JsString.truthy t then AdminAppView t
             else AdminLoginView (notice (hooks w))
         | None => AdminLoginView (notice (hooks w))
         end.
Proof.
  destruct w as [[a u r m n p] b]. cbn. intros Ha.
  run_act. rewrite Ha. split_ifs; reflexivity.
Qed.

Lemma passes_fixed (n : nat) (w : World) :
  exec App w = w -> passes n w = w.
Proof.
  intros Hw. induction n as [|n IH]; [reflexivity|].
  cbn [passes]. now rewrite Hw.
Qed.

(** In personal mode off /admin the second pass ends on /admin, in the
    stored path and in the address bar, without a new history entry. *)
Lemma personal_two_passes (w : World) :
  siteMode (hooks w) = Some "personal" ->
  JsString.startsWith (path (hooks w)) "/admin" = false ->
  passes 2 w
  = mkWorld
      (mkHooks (adminToken (hooks w)) (userToken (hooks w))
               (userRecord (hooks w)) (siteMode (hooks w))
               (notice (hooks w)) "/admin")
      (mkBrowser "/admin" (history_back (browser w))
                 (history_forward (browser w)) (localStorage (browser w))).
Proof.
  intros Hm Ha. cbn [passes].
  rewrite (personal_first_pass w Hm Ha).
  destruct (JsString.startsWith (path (hooks w)) "/user") eqn:Hu;
    [destruct (authenticated (hooks w)) eqn:Hauth|].
  2:{ destruct (personal_user_anonymous w Hm Ha Hu Hauth) as [-> _].
      rewrite personal_first_pass; [|exact Hm|reflexivity].
      rewrite personal_redirect; [reflexivity|exact Hm|reflexivity|].
      left. reflexivity. }
  all: rewrite (personal_redirect w Hm Ha) by auto;
       now rewrite admin_path_stable.
Qed.

(** *** Site mode unknown *)

Lemma render_never_blank (w : World) : rendered w <> None.
Proof.
  destruct w as [[a u r m n p] b].
  run_act. split_ifs; discriminate.
Qed.

Lemma unknown_admin_login (w : World) :
  siteMode (hooks w) = None ->
  JsString.startsWith (path (hooks w)) "/admin" = true ->
  token_truthy (adminToken (hooks w)) = false ->
  rendered w = Some (AdminLoginView (notice (hooks w))) /\ exec App w = w.
Proof.
  destruct w as [[a u r m n p] b]. cbn. intros -> Ha Ht.
  run_act. rewrite Ha, andb_false_r. cbn.
  destruct a as [t|]; cbn in Ht; rewrite ?Ht; split; reflexivity.
Qed.

Lemma unknown_admin_console (w : World) (t : string) :
  siteMode (hooks w) = None ->
  JsString.startsWith (path (hooks w)) "/admin" = true ->
  adminToken (hooks w) = Some t -> JsString.truthy t = true ->
  rendered w = Some (AdminAppView t) /\ exec App w = w.
Proof.
  destruct w as [[a u r m n p] b]. cbn. intros -> Ha -> Ht.
  run_act. rewrite Ha, andb_false_r, Ht. split; reflexivity.
Qed.

Lemma unknown_user_console (w : World) (t : string) (u : User) :
  siteMode (hooks w) = None ->
  JsString.startsWith (path (hooks w)) "/admin" = false ->
  JsString.startsWith (path (hooks w)) "/user" = true ->
  userToken (hooks w) = Some t -> JsString.truthy t = true ->
  userRecord (hooks w) = Some u ->
  rendered w = Some (UserAppView t u) /\ exec App w = w.
Proof.
  destruct w as [[a u' r m n p] b]. cbn. intros -> Ha Hu -> Ht ->.
  run_act. rewrite Ha, Hu, andb_false_r, Ht. split; reflexivity.
Qed.

Lemma unknown_user_anonymous (w : World) :
  siteMode (hooks w) = None ->
  JsString.startsWith (path (hooks w)) "/admin" = false ->
  JsString.startsWith (path (hooks w)) "/user" = true ->
  authenticated (hooks w) = false ->
  rendered w = Some PublicAppView /\ path_after w = "/login"
  /\ pathname_after w = "/login".
Proof.
  destruct w as [[a u r m n p] b]. unfold authenticated. cbn.
  intros -> Ha Hu Hauth. run_act. rewrite Ha, Hu, andb_false_r.
  assert (Hp : String.eqb p "/login" = false).
  { apply String.eqb_neq. intros ->. vm_compute in Hu. discriminate. }
  rewrite Hp.
  destruct u as [t|], r as [u'|]; cbn in Hauth |- *;
    rewrite ?andb_true_r, ?andb_false_r in Hauth; rewrite ?Hauth;
    repeat split; reflexivity.
Qed.

Lemma unknown_public (w : World) :
  siteMode (hooks w) = None ->
  JsString.startsWith (path (hooks w)) "/admin" = false ->
  JsString.startsWith (path (hooks w)) "/user" = false ->
  rendered w = Some PublicAppView /\ exec App w = w.
Proof.
  destruct w as [[a u r m n p] b]. cbn. intros -> Ha Hu.
  run_act. rewrite Ha, Hu, andb_false_r. split; reflexivity.
Qed.

(** *** Logout *)

Lemma updateUserToken_null (w : World) :
  let w' := exec (updateUserToken None) w in
  userToken (hooks w') = None
  /\ userRecord (hooks w') = None
  /\ localStorage (browser w') !! "user_token" = None
  /\ adminToken (hooks w') = adminToken (hooks w)
  /\ localStorage (browser w') !! "admin_token"
     = localStorage (browser w) !! "admin_token".
Proof.
  destruct w as [[a u r m n p] [l hb hf ls]]. run_act.
  repeat split.
  - apply lookup_delete_eq.
  - now apply lookup_delete_ne.
Qed.

Lemma logout_state (w : World) :
  let w' := exec handleUserLogout w in
  userToken (hooks w') = None
  /\ userRecord (hooks w') = None
  /\ localStorage (browser w') !! "user_token" = None
  /\ path (hooks w') = "/login"
  /\ pathname (browser w') = "/login".
Proof.
  destruct w as [[a u r m n p] [l hb hf ls]]. run_act.
  repeat split. apply lookup_delete_eq.
Qed.

(** Without a token the profile effect sends no request and leaves the
    record absent. *)
Lemma loadUserRecord_anonymous (w : World) :
  userToken (hooks w) = None ->
  eval loadUserRecord w = None
  /\ userToken (hooks (exec loadUserRecord w)) = None
  /\ userRecord (hooks (exec loadUserRecord w)) = None.
Proof.
  destruct w as [[a u r m n p] b]. cbn. intros ->. run_act.
  repeat split.
Qed.

(** Without a token no pass renders the user console. *)
Lemma anonymous_no_user_console (w : World) (t : string) (u : User) :
  userToken (hooks w) = None -> rendered w <> Some (UserAppView t u).
Proof.
  destruct w as [[a u' r m n p] b]. cbn. intros ->.
  run_act. split_ifs; discriminate.
Qed.

End RootFacts.

(** C1: at the root path the path stored by a render pass is a function of
    (path, adminToken, userToken, userRecord, siteMode) alone; in personal
    mode it is "/admin"; in another mode with a user token (a non-empty
    string) and a user record it is "/user"; in another mode without a user
    token it is "/login". *)
Theorem root_redirect_deterministic :
  (forall w1 w2 : Root.World,
     Root.path (Root.hooks w1) = Root.path (Root.hooks w2) ->
     Root.adminToken (Root.hooks w1) = Root.adminToken (Root.hooks w2) ->
     Root.userToken (Root.hooks w1) = Root.userToken (Root.hooks w2) ->
     Root.userRecord (Root.hooks w1) = Root.userRecord (Root.hooks w2) ->
     Root.siteMode (Root.hooks w1) = Root.siteMode (Root.hooks w2) ->
     Root.path_after w1 = Root.path_after w2) /\
  (forall w : Root.World,
     Root.path (Root.hooks w) = "/" ->
     Root.siteMode (Root.hooks w) = Some "personal" ->
     Root.path_after w = "/admin") /\
  (forall (w : Root.World) (m : Root.SiteMode) (t : string) (u : Root.User),
     Root.path (Root.hooks w) = "/" ->
     Root.siteMode (Root.hooks w) = Some m -> m <> "personal" ->
     Root.userToken (Root.hooks w) = Some t -> t <> "" ->
     Root.userRecord (Root.hooks w) = Some u ->
     Root.path_after w = "/user") /\
  (forall (w : Root.World) (m : Root.SiteMode),
     Root.path (Root.hooks w) = "/" ->
     Root.siteMode (Root.hooks w) = Some m -> m <> "personal" ->
     Root.userToken (Root.hooks w) = None ->
     Root.path_after w = "/login").
Proof.
  split; [exact path_after_inputs|].
  split; [intros w Hp Hm; now apply root_personal|].
  split.
  - intros w m t u Hp Hm Hne Ht Hnonempty Hu.
    apply (root_authenticated w m); auto.
    + rewrite Ht. destruct t; [congruence|reflexivity].
    + now rewrite Hu.
  - intros w m Hp Hm Hne Ht.
    apply (root_anonymous w m); auto. now rewrite Ht.
Qed.

Lemma root_redirect_witness :
  Root.path_after
    (Root.mkWorld
       (Root.mkHooks None None None (Some "personal") "" "/")
       (Root.mkBrowser "/" [] [] ∅)) = "/admin"
  /\ Root.path_after
       (Root.mkWorld
          (Root.mkHooks None (Some "tok") (Some (Root.mkUser "u1"))
                        (Some "multi") "" "/")
          (Root.mkBrowser "/" [] [] ∅)) = "/user"
  /\ Root.path_after
       (Root.mkWorld
          (Root.mkHooks None None None (Some "multi") "" "/")
          (Root.mkBrowser "/" [] [] ∅)) = "/login".
Proof.
  destruct root_redirect_deterministic as (_ & Hpersonal & Huser & Hlogin).
  split; [|split].
  - apply Hpersonal; reflexivity.
  - apply (Huser _ "multi" "tok" (Root.mkUser "u1"));
      try reflexivity; discriminate.
  - apply (Hlogin _ "multi"); try reflexivity; discriminate.
Defined.

(** The redirecting pass itself at "/user" in personal mode without a
    user token: it replaces the path by "/admin" and then, in the user
    routes, by "/login", and renders the public view; the pass after it
    stores "/admin". *)
Example personal_user_ends_on_login :
  let w := Root.mkWorld
             (Root.mkHooks None None None (Some "personal") "" "/user")
             (Root.mkBrowser "/user" [] [] ∅) in
  JsString.startsWith (Root.path (Root.hooks w)) "/admin" = false
  /\ Root.path_after w = "/login"
  /\ Root.pathname_after w = "/login"
  /\ Root.rendered w = Some Root.PublicAppView
  /\ Root.path (Root.hooks (Root.passes 2 w)) = "/admin".
Proof. vm_compute. repeat split. Qed.

(** C2: in personal mode the render passes end under /admin, on a state
    that further passes leave alone and that shows the admin console (with
    an admin token) or the admin login form (without).  From a path that
    does not start with "/admin" they end on "/admin" itself, in the
    stored path and in the address bar, by replacing the current history
    entry: the entries behind and ahead stay, and so do tokens, record,
    notice and storage.  The first pass already stores "/admin", except
    under /user without a session, where the guard of the user routes
    stores "/login" in that pass and the pass that follows at once stores
    "/admin". *)
Theorem personal_mode_ends_on_admin (w : Root.World) :
  Root.siteMode (Root.hooks w) = Some "personal" ->
  let w' := Root.passes 2 w in
  (JsString.startsWith (Root.path (Root.hooks w')) "/admin" = true
   /\ Root.exec Root.App w' = w'
   /\ (forall n : nat, Root.passes n w' = w')
   /\ Root.rendered w'
      = Some match Root.adminToken (Root.hooks w') with
             | Some t =>
                 if JsString.truthy t then Root.AdminAppView t
                 else Root.AdminLoginView (Root.notice (Root.hooks w'))
             | None => Root.AdminLoginView (Root.notice (Root.hooks w'))
             end)
  /\ (JsString.startsWith (Root.path (Root.hooks w)) "/admin" = false ->
      w' = Root.mkWorld
             (Root.mkHooks (Root.adminToken (Root.hooks w))
                           (Root.userToken (Root.hooks w))
                           (Root.userRecord (Root.hooks w))
                           (Some "personal")
                           (Root.notice (Root.hooks w)) "/admin")
             (Root.mkBrowser "/admin"
                             (Root.history_back (Root.browser w))
                             (Root.history_forward (Root.browser w))
                             (Root.localStorage (Root.browser w)))
      /\ (Root.path_after w = "/admin"
          \/ (JsString.startsWith (Root.path (Root.hooks w)) "/user" = true
              /\ Root.authenticated (Root.hooks w) = false
              /\ Root.path_after w = "/login"))).
Proof.
  intros Hm. cbv zeta.
  assert (Hadmin : JsString.startsWith
                     (Root.path (Root.hooks (Root.passes 2 w))) "/admin"
                   = true).
  { destruct (JsString.startsWith (Root.path (Root.hooks w)) "/admin") eqn:Ha.
    - now rewrite (passes_fixed 2 w (admin_path_stable w Ha)).
    - now rewrite (personal_two_passes w Hm Ha). }
  pose proof (admin_path_stable _ Hadmin) as Hfix.
  split.
  - split; [exact Hadmin|]. split; [exact Hfix|].
    split; [intros n; now apply passes_fixed|now apply admin_rendered].
  - intros Ha. split.
    + rewrite (personal_two_passes w Hm Ha). now rewrite Hm.
    + destruct (JsString.startsWith (Root.path (Root.hooks w)) "/user") eqn:Hu;
        [destruct (Root.authenticated (Root.hooks w)) eqn:Hauth|].
      * left. apply personal_redirect; auto.
      * right. split; [reflexivity|]. split; [reflexivity|].
        now apply personal_user_anonymous.
      * left. apply personal_redirect; auto.
Qed.

Lemma personal_mode_witness :
  let w := Root.mkWorld
             (Root.mkHooks None (Some "tok") None (Some "personal") "" "/user")
             (Root.mkBrowser "/user" ["/login"] [] {["user_token" := "tok"]}) in
  Root.passes 2 w
  = Root.mkWorld
      (Root.mkHooks None (Some "tok") None (Some "personal") "" "/admin")
      (Root.mkBrowser "/admin" ["/login"] [] {["user_token" := "tok"]})
  /\ Root.rendered (Root.passes 2 w) = Some (Root.AdminLoginView "").
Proof.
  cbv zeta.
  destruct (personal_mode_ends_on_admin
              (Root.mkWorld
                 (Root.mkHooks None (Some "tok") None (Some "personal") ""
                               "/user")
                 (Root.mkBrowser "/user" ["/login"] []
                                 {["user_token" := "tok"]}))
              eq_refl) as [(_ & _ & _ & Hview) [Hw _]]; [reflexivity|].
  split; [exact Hw|]. rewrite Hview, Hw. reflexivity.
Defined.

(** C3, as stated: with the site mode unknown the pass renders nothing.
    It renders the admin console for an admin on /admin. *)
Lemma unknown_mode_renders_console :
  ~ (forall w : Root.World,
       Root.siteMode (Root.hooks w) = None -> Root.rendered w = None).
Proof.
  intros H.
  specialize (H (Root.mkWorld
                   (Root.mkHooks (Some "tok") None None None "" "/admin")
                   (Root.mkBrowser "/admin" [] [] ∅)) eq_refl).
  vm_compute in H. discriminate H.
Qed.

(** C3, amended: while the site mode is unknown a render pass never
    returns a blank root and makes no redirect that depends on the site
    mode.  Under /admin it renders the admin login form without an admin
    token and the admin console with one; under /user it renders the user
    console when token and record are there, and otherwise the public view
    after replacing the path by "/login"; on every other path, the root
    path included, it renders the public view.  Except for that one
    replacement the pass leaves path and browser as they were. *)
Theorem unknown_mode_render :
  (forall w : Root.World, Root.rendered w <> None) /\
  (forall w : Root.World,
     Root.siteMode (Root.hooks w) = None ->
     JsString.startsWith (Root.path (Root.hooks w)) "/admin" = true ->
     Root.token_truthy (Root.adminToken (Root.hooks w)) = false ->
     Root.rendered w = Some (Root.AdminLoginView (Root.notice (Root.hooks w)))
     /\ Root.exec Root.App w = w) /\
  (forall (w : Root.World) (t : string),
     Root.siteMode (Root.hooks w) = None ->
     JsString.startsWith (Root.path (Root.hooks w)) "/admin" = true ->
     Root.adminToken (Root.hooks w) = Some t -> JsString.truthy t = true ->
     Root.rendered w = Some (Root.AdminAppView t)
     /\ Root.exec Root.App w = w) /\
  (forall (w : Root.World) (t : string) (u : Root.User),
     Root.siteMode (Root.hooks w) = None ->
     JsString.startsWith (Root.path (Root.hooks w)) "/admin" = false ->
     JsString.startsWith (Root.path (Root.hooks w)) "/user" = true ->
     Root.userToken (Root.hooks w) = Some t -> JsString.truthy t = true ->
     Root.userRecord (Root.hooks w) = Some u ->
     Root.rendered w = Some (Root.UserAppView t u)
     /\ Root.exec Root.App w = w) /\
  (forall w : Root.World,
     Root.siteMode (Root.hooks w) = None ->
     JsString.startsWith (Root.path (Root.hooks w)) "/admin" = false ->
     JsString.startsWith (Root.path (Root.hooks w)) "/user" = true ->
     Root.authenticated (Root.hooks w) = false ->
     Root.rendered w = Some Root.PublicAppView
     /\ Root.path_after w = "/login"
     /\ Root.pathname_after w = "/login") /\
  (forall w : Root.World,
     Root.siteMode (Root.hooks w) = None ->
     JsString.startsWith (Root.path (Root.hooks w)) "/admin" = false ->
     JsString.startsWith (Root.path (Root.hooks w)) "/user" = false ->
     Root.rendered w = Some Root.PublicAppView
     /\ Root.exec Root.App w = w).
Proof.
  split; [exact render_never_blank|].
  split; [exact unknown_admin_login|].
  split; [exact unknown_admin_console|].
  split; [exact unknown_user_console|].
  split; [exact unknown_user_anonymous|exact unknown_public].
Qed.

Lemma unknown_mode_render_witness :
  let w := Root.mkWorld (Root.mkHooks None None None None "" "/")
                        (Root.mkBrowser "/" [] [] ∅) in
  Root.rendered w = Some Root.PublicAppView /\ Root.exec Root.App w = w.
Proof.
  destruct unknown_mode_render as (_ & _ & _ & _ & _ & Hpublic).
  apply Hpublic; reflexivity.
Defined.

(** C6: setting the user token to null removes the stored token and sets
    the cached user record to absent, and leaves the admin session alone.
    After logout the user token, the user record and the stored token are
    absent and the path is "/login"; the profile effect that follows sends
    no request and leaves token and record absent; the next render pass
    shows the public view; and a reload starts without a user token. *)
Theorem logout_clears_session (w : Root.World) :
  (let w' := Root.exec (Root.updateUserToken None) w in
   Root.userToken (Root.hooks w') = None
   /\ Root.userRecord (Root.hooks w') = None
   /\ Root.localStorage (Root.browser w') !! "user_token" = None
   /\ Root.adminToken (Root.hooks w') = Root.adminToken (Root.hooks w)
   /\ Root.localStorage (Root.browser w') !! "admin_token"
      = Root.localStorage (Root.browser w) !! "admin_token") /\
  (let w' := Root.exec Root.handleUserLogout w in
   Root.userToken (Root.hooks w') = None
   /\ Root.userRecord (Root.hooks w') = None
   /\ Root.localStorage (Root.browser w') !! "user_token" = None
   /\ Root.path (Root.hooks w') = "/login"
   /\ Root.eval Root.loadUserRecord w' = None
   /\ Root.userToken (Root.hooks (Root.exec Root.loadUserRecord w')) = None
   /\ Root.userRecord (Root.hooks (Root.exec Root.loadUserRecord w')) = None
   /\ Root.rendered w' = Some Root.PublicAppView
   /\ Root.userToken (Root.hooks (Root.initial (Root.browser w'))) = None).
Proof.
  split; [exact (updateUserToken_null w)|].
  destruct (logout_state w) as (Ht & Hr & Hs & Hp & Hl).
  cbv zeta.
  destruct (loadUserRecord_anonymous _ Ht) as (Hreq & Ht' & Hr').
  repeat split; auto.
  destruct (Root.exec Root.handleUserLogout w) as [[a u r m n p] b].
  cbn in Hp. subst p.
  unfold Root.rendered, Root.eval, Root.App, Root.when, mbind, mret,
    Root.act_bind, Root.act_ret, Root.get_hooks.
  cbn. destruct (Root.is_personal m), (Root.known m); reflexivity.
Qed.

(** ** Monitoring view: fetching *)

Section MonitoringFacts.

Import Monitoring.

Context {MonitoringData Parent : Type}.
Variable apiBase : string.
Variable onLoaded : MonitoringData -> Parent -> Parent.
Variable fetch : Request -> Fetched MonitoringData.

#[local] Abbreviation State := (Monitoring.State MonitoringData Parent).
#[local] Abbreviation fetchData :=
  (Monitoring.fetchData MonitoringData apiBase Parent onLoaded fetch).
#[local] Abbreviation handleDaysChange :=
  (Monitoring.handleDaysChange MonitoringData apiBase Parent onLoaded fetch).
#[local] Abbreviation fetch_failed :=
  (Monitoring.fetch_failed MonitoringData apiBase fetch).

Ltac run_m :=
  unfold Monitoring.handleDaysChange, Monitoring.fetchData,
    try_catch_finally, await_fetch, await_json, call_onLoaded, setLoading,
    setDays, throw, mbind, mret, m_bind, m_ret;
  cbn.

(** A failed request: [fetchData] completes normally, with the loading
    flag down, the parent untouched and no call of [onLoaded]. *)
Lemma fetchData_failure (token : string) (d : Z) (s : State) :
  fetch_failed token d ->
  fetchData token d s =
    (Normal tt, mkState (days s) false (parent s) (onLoaded_calls s)).
Proof.
  unfold Monitoring.fetch_failed. intros Hfail. run_m.
  destruct (fetch (request apiBase token d)) as [res|e]; cbn; [|reflexivity].
  destruct Hfail as [Hok | [e He]].
  - rewrite Hok. reflexivity.
  - destruct (ok res); cbn; [|reflexivity]. rewrite He. reflexivity.
Qed.

(** A 2xx response with a body that parses: one call of [onLoaded]. *)
Lemma fetchData_success (token : string) (d : Z) (s : State)
    (res : Response MonitoringData) (data : MonitoringData) :
  fetch (request apiBase token d) = Resolved res ->
  ok res = true -> body res = Parsed data ->
  fetchData token d s =
    (Normal tt,
     mkState (days s) false (onLoaded data (parent s))
             (data :: onLoaded_calls s)).
Proof.
  intros Hres Hok Hbody. run_m. rewrite Hres. cbn.
  rewrite Hok. cbn. rewrite Hbody. reflexivity.
Qed.

Lemma handleDaysChange_failure (token : string) (d : Z) (s : State) :
  fetch_failed token d ->
  handleDaysChange token d s =
    (Normal tt, mkState d false (parent s) (onLoaded_calls s)).
Proof.
  intros Hfail.
  assert (H := fetchData_failure token d
                 (mkState d (loading s) (parent s) (onLoaded_calls s)) Hfail).
  revert H. run_m. auto.
Qed.

(** [fetchData] never throws, whatever the network does. *)
Lemma fetchData_total (token : string) (d : Z) (s : State) :
  exists s', fetchData token d s = (Normal tt, s') /\ loading s' = false.
Proof.
  run_m.
  destruct (fetch (request apiBase token d)) as [res|e]; cbn; [|eauto].
  destruct (ok res); cbn; [|eauto].
  destruct (body res); cbn; eauto.
Qed.

End MonitoringFacts.

(** C7: when the request started by a change of the time window fails (a
    network error, a status outside 200-299, or a body that does not
    parse), the handler completes normally: the selected window is the new
    one, the loading flag is down again, no call of [onLoaded] was made
    and the parent's state, which holds the displayed data, is as
    before. *)
Theorem monitoring_failure_swallowed
    (MonitoringData Parent : Type) (apiBase : string)
    (onLoaded : MonitoringData -> Parent -> Parent)
    (fetch : Monitoring.Request -> Monitoring.Fetched MonitoringData)
    (token : string) (d : Z) (s : Monitoring.State MonitoringData Parent) :
  Monitoring.fetch_failed MonitoringData apiBase fetch token d ->
  exists s',
    Monitoring.handleDaysChange MonitoringData apiBase Parent onLoaded fetch
      token d s = (Monitoring.Normal tt, s')
    /\ Monitoring.parent s' = Monitoring.parent s
    /\ Monitoring.onLoaded_calls s' = Monitoring.onLoaded_calls s
    /\ Monitoring.loading s' = false
    /\ Monitoring.days s' = d.
Proof.
  intros Hfail. eexists. split.
  - apply handleDaysChange_failure. exact Hfail.
  - repeat split.
Qed.

Lemma monitoring_failure_witness :
  let fetch (_ : Monitoring.Request) : Monitoring.Fetched nat :=
    Monitoring.Resolved
      (Monitoring.mkResponse 503 (Monitoring.SyntaxError "Unexpected token")) in
  let s := Monitoring.mkState 7 false (Some 41%nat) [41%nat] in
  exists s',
    Monitoring.handleDaysChange nat "" (option nat) (fun data _ => Some data)
      fetch "tok" 30 s = (Monitoring.Normal tt, s')
    /\ Monitoring.parent s' = Some 41%nat
    /\ Monitoring.onLoaded_calls s' = [41%nat]
    /\ Monitoring.loading s' = false
    /\ Monitoring.days s' = 30.
Proof.
  cbv zeta.
  apply (monitoring_failure_swallowed nat (option nat) ""
           (fun data _ => Some data)).
  cbn. left. reflexivity.
Defined.

(** ** Comparison of numbers *)

Section FloatOrder.

#[local] Open Scope float_scope.

Lemma SFcompare_antisym (a b : spec_float) :
  SFcompare b a = option_map CompOpp (SFcompare a b).
Proof.
  destruct a as [sa|sa| |sa ma ea], b as [sb|sb| |sb mb eb]; cbn;
    try destruct sa; try destruct sb; try reflexivity;
    rewrite (Z.compare_antisym ea eb);
    destruct (ea ?= eb)%Z; cbn; try reflexivity;
    change (Pos.compare_cont Eq) with Pos.compare;
    rewrite (Pos.compare_antisym ma mb);
    destruct (ma ?= mb)%positive; reflexivity.
Qed.

Lemma SFcompare_lt_trans (a b c : spec_float) :
  SFcompare a b = Some Lt -> SFcompare b c = Some Lt ->
  SFcompare a c = Some Lt.
Proof.
  destruct a as [sa|sa| |sa ma ea], b as [sb|sb| |sb mb eb],
           c as [sc|sc| |sc mc ec]; cbn;
    try destruct sa; try destruct sb; try destruct sc;
    try discriminate; try reflexivity.
  all: change (Pos.compare_cont Eq) with Pos.compare.
  all: destruct (Z.compare_spec ea eb), (Z.compare_spec eb ec),
         (Z.compare_spec ea ec);
       try discriminate; try reflexivity; try lia; subst.
  all: destruct (Pos.compare_spec ma mb), (Pos.compare_spec mb mc),
         (Pos.compare_spec ma mc);
       cbn; try discriminate; try reflexivity; try lia.
Qed.

Lemma SFcompare_lt_le_trans (a b c : spec_float) :
  SFcompare a b = Some Lt -> SFleb b c = true -> SFcompare a c = Some Lt.
Proof.
  unfold SFleb.
  destruct a as [sa|sa| |sa ma ea], b as [sb|sb| |sb mb eb],
           c as [sc|sc| |sc mc ec]; cbn;
    try destruct sa; try destruct sb; try destruct sc;
    try discriminate; try reflexivity.
  all: change (Pos.compare_cont Eq) with Pos.compare.
  all: destruct (Z.compare_spec ea eb), (Z.compare_spec eb ec),
         (Z.compare_spec ea ec);
       try discriminate; try reflexivity; try lia; subst.
  all: destruct (Pos.compare_spec ma mb), (Pos.compare_spec mb mc),
         (Pos.compare_spec ma mc);
       cbn; try discriminate; try reflexivity; try lia.
Qed.

(** [x < y] excludes [y <= x]. *)
Lemma ltb_not_leb (x y : float) : (x <? y) = true -> (y <=? x) = false.
Proof.
  rewrite ltb_spec, leb_spec. unfold SFltb, SFleb.
  rewrite (SFcompare_antisym (Prim2SF x) (Prim2SF y)).
  destruct (SFcompare (Prim2SF x) (Prim2SF y)) as [[]|]; cbn; congruence.
Qed.

Lemma ltb_trans (x y z : float) :
  (x <? y) = true -> (y <? z) = true -> (x <? z) = true.
Proof.
  rewrite !ltb_spec. unfold SFltb. intros Hxy Hyz.
  rewrite (SFcompare_lt_trans (Prim2SF x) (Prim2SF y) (Prim2SF z)).
  - reflexivity.
  - destruct (SFcompare (Prim2SF x) (Prim2SF y)) as [[]|]; congruence.
  - destruct (SFcompare (Prim2SF y) (Prim2SF z)) as [[]|]; congruence.
Qed.

Lemma ltb_leb_trans (x y z : float) :
  (x <? y) = true -> (y <=? z) = true -> (x <? z) = true.
Proof.
  rewrite !ltb_spec, leb_spec. unfold SFltb. intros Hxy Hyz.
  rewrite (SFcompare_lt_le_trans (Prim2SF x) (Prim2SF y) (Prim2SF z)).
  - reflexivity.
  - destruct (SFcompare (Prim2SF x) (Prim2SF y)) as [[]|]; congruence.
  - exact Hyz.
Qed.

Lemma leb_not_ltb (x y : float) : (x <=? y) = true -> (y <? x) = false.
Proof.
  intros H. destruct (y <? x) eqn:E; [|reflexivity].
  apply ltb_not_leb in E. congruence.
Qed.

Lemma SFleb_trans (a b c : spec_float) :
  SFleb a b = true -> SFleb b c = true -> SFleb a c = true.
Proof.
  unfold SFleb.
  destruct a as [sa|sa| |sa ma ea], b as [sb|sb| |sb mb eb],
           c as [sc|sc| |sc mc ec]; cbn;
    try destruct sa; try destruct sb; try destruct sc;
    try discriminate; try reflexivity.
  all: change (Pos.compare_cont Eq) with Pos.compare.
  all: destruct (Z.compare_spec ea eb), (Z.compare_spec eb ec),
         (Z.compare_spec ea ec);
       try discriminate; try reflexivity; try lia; subst.
  all: destruct (Pos.compare_spec ma mb), (Pos.compare_spec mb mc),
         (Pos.compare_spec ma mc);
       cbn; try discriminate; try reflexivity; try lia.
Qed.

Lemma leb_trans (x y z : float) :
  (x <=? y) = true -> (y <=? z) = true -> (x <=? z) = true.
Proof. rewrite !leb_spec. apply SFleb_trans. Qed.

Lemma ltb_leb (x y : float) : (x <? y) = true -> (x <=? y) = true.
Proof.
  rewrite ltb_spec, leb_spec. unfold SFltb, SFleb.
  destruct (SFcompare (Prim2SF x) (Prim2SF y)) as [[]|]; congruence.
Qed.

Lemma is_nan_spec (x : float) :
  JsNumber.is_nan x = false <-> Prim2SF x <> S754_nan.
Proof.
  unfold JsNumber.is_nan. rewrite FloatAxioms.eqb_spec. unfold SFeqb.
  destruct (Prim2SF x) as [[]|[]| |[] m e]; cbn;
    rewrite ?Z.compare_refl, ?Pos.compare_cont_refl; cbn;
    split; congruence.
Qed.

Lemma leb_refl (x : float) : JsNumber.is_nan x = false -> (x <=? x) = true.
Proof.
  unfold JsNumber.is_nan. rewrite FloatAxioms.eqb_spec, leb_spec.
  unfold SFeqb, SFleb.
  destruct (SFcompare (Prim2SF x) (Prim2SF x)) as [[]|]; cbn; congruence.
Qed.

(** Two numbers, neither of them NaN, are comparable. *)
Lemma leb_total (x y : float) :
  JsNumber.is_nan x = false -> JsNumber.is_nan y = false ->
  (x <? y) = false -> (y <=? x) = true.
Proof.
  intros Hx%is_nan_spec Hy%is_nan_spec.
  rewrite ltb_spec, leb_spec. unfold SFltb, SFleb.
  rewrite (SFcompare_antisym (Prim2SF x) (Prim2SF y)).
  destruct (Prim2SF x) as [[]|[]| |[] mx ex], (Prim2SF y) as [[]|[]| |[] my ey];
    try congruence; cbn; try congruence.
  all: destruct (ex ?= ey)%Z; cbn; try congruence;
       destruct (Pos.compare_cont Eq mx my); cbn; congruence.
Qed.

Lemma leb_not_nan (x y : float) :
  (x <=? y) = true -> JsNumber.is_nan x = false /\ JsNumber.is_nan y = false.
Proof.
  rewrite !is_nan_spec, leb_spec. unfold SFleb.
  destruct (Prim2SF x), (Prim2SF y); cbn; split; congruence.
Qed.

(** ** Division of a number by itself *)

Lemma div_eucl_mul (a b : Z) : (b <> 0 -> Z.div_eucl (a * b) b = (a, 0))%Z.
Proof.
  intros Hb.
  pose proof (Z.div_mul a b Hb) as Hq. pose proof (Z.mod_mul a b Hb) as Hr.
  unfold Z.div, Z.modulo in Hq, Hr.
  destruct (Z.div_eucl (a * b) b) as [q r]. cbn in *. congruence.
Qed.

(** The quotient of a mantissa by itself is exact, whatever the mantissa:
    the rounded result is the number one. *)
Lemma SFdiv_self (s : bool) (m : positive) (e : Z) :
  SFdiv prec emax (S754_finite s m e) (S754_finite s m e)
  = S754_finite false 4503599627370496 (-52).
Proof.
  unfold SFdiv, SFdiv_core_binary.
  rewrite !Z.sub_diag, xorb_nilpotent.
  change (Z.min (fexp prec emax 0) 0) with (-53)%Z.
  change (0 - -53)%Z with 53%Z.
  cbv beta iota zeta.
  rewrite Z.shiftl_mul_pow2 by lia.
  rewrite (Z.mul_comm (Zpos m)), div_eucl_mul by lia.
  assert (Hloc : new_location (Zpos m) 0 = loc_Exact).
  { unfold new_location. destruct (Z.even (Zpos m)); reflexivity. }
  rewrite Hloc. vm_compute. reflexivity.
Qed.

Lemma div_self (x : float) (s : bool) (m : positive) (e : Z) :
  Prim2SF x = S754_finite s m e -> x / x = 1.
Proof.
  intros Hx. apply Prim2SF_inj. rewrite div_spec, Hx.
  unfold SF64div. rewrite SFdiv_self. reflexivity.
Qed.

(** A finite number that is at least one is positive and not zero. *)
Lemma ge_1_finite (x : float) :
  (1 <=? x) = true -> JsNumber.is_finite x = true ->
  exists m e, Prim2SF x = S754_finite false m e.
Proof.
  rewrite leb_spec. unfold SFleb, JsNumber.is_finite.
  destruct (Prim2SF x) as [[]|[]| |[] m e]; cbn; try discriminate; eauto.
Qed.

(** The two zeros are the only numbers equal to zero. *)
Lemma eqb_zero (x : float) : (x =? 0) = true -> x = 0 \/ x = (-0).
Proof.
  rewrite FloatAxioms.eqb_spec. intros H.
  rewrite <- (SF2Prim_Prim2SF x).
  destruct (Prim2SF x) as [[]|[]| |[] m e]; cbn in H; try discriminate.
  - right. reflexivity.
  - left. reflexivity.
Qed.

End FloatOrder.

(** ** Monitoring view: colours *)

Lemma rateColor_good (r : float) :
  (99 <=? r)%float = true -> Monitoring.rateColor (Some r) = "text-green-600".
Proof. unfold Monitoring.rateColor. now intros ->. Qed.

Lemma rateColor_warning (r : float) :
  (95 <=? r)%float = true -> (r <? 99)%float = true ->
  Monitoring.rateColor (Some r) = "text-yellow-600".
Proof.
  unfold Monitoring.rateColor. intros H95 H99%ltb_not_leb.
  now rewrite H99, H95.
Qed.

Lemma rateColor_critical (r : float) :
  (r <? 95)%float = true -> Monitoring.rateColor (Some r) = "text-red-600".
Proof.
  unfold Monitoring.rateColor. intros H95.
  assert (H99 : (r <? 99)%float = true) by (now apply (ltb_trans r 95 99)).
  apply ltb_not_leb in H95, H99. now rewrite H99, H95.
Qed.

(** C8: a null rate gets the neutral colour; a rate of at least 99 the
    "good" one, a rate of at least 95 and below 99 the "warning" one, and a
    rate below 95 the "critical" one; so rateColor(99) is good,
    rateColor(95) is warning, rateColor(94.9) is critical and
    rateColor(null) is neutral.  The colours are the text classes
    stone-400 (neutral), green-600 (good), yellow-600 (warning) and
    red-600 (critical). *)
Theorem rateColor_thresholds :
  Monitoring.tone_of (Monitoring.rateColor None) = Some Monitoring.neutral /\
  (forall r : float,
     (99 <=? r)%float = true ->
     Monitoring.tone_of (Monitoring.rateColor (Some r)) = Some Monitoring.good) /\
  (forall r : float,
     (95 <=? r)%float = true -> (r <? 99)%float = true ->
     Monitoring.tone_of (Monitoring.rateColor (Some r))
     = Some Monitoring.warning) /\
  (forall r : float,
     (r <? 95)%float = true ->
     Monitoring.tone_of (Monitoring.rateColor (Some r))
     = Some Monitoring.critical) /\
  Monitoring.rateColor (Some 99%float) = "text-green-600" /\
  Monitoring.rateColor (Some 95%float) = "text-yellow-600" /\
  Monitoring.rateColor (Some 94.9%float) = "text-red-600" /\
  Monitoring.rateColor None = "text-stone-400".
Proof.
  split; [reflexivity|].
  split; [intros r H; now rewrite rateColor_good|].
  split; [intros r H1 H2; now rewrite rateColor_warning|].
  split; [intros r H; now rewrite rateColor_critical|].
  vm_compute. repeat split.
Qed.

Lemma rateColor_thresholds_witness :
  Monitoring.tone_of (Monitoring.rateColor (Some 100%float))
  = Some Monitoring.good
  /\ Monitoring.tone_of (Monitoring.rateColor (Some 97.5%float))
     = Some Monitoring.warning
  /\ Monitoring.tone_of (Monitoring.rateColor (Some 0%float))
     = Some Monitoring.critical.
Proof.
  destruct rateColor_thresholds as (_ & Hgood & Hwarn & Hcrit & _).
  split; [|split].
  - apply Hgood. reflexivity.
  - apply Hwarn; reflexivity.
  - apply Hcrit. reflexivity.
Defined.

(** ** Formatting *)

Section ToFixedFacts.

#[local] Open Scope nat_scope.

Lemma length_substring (s : string) (n m : nat) :
  n + m <= String.length s -> String.length (String.substring n m s) = m.
Proof.
  revert n m. induction s as [|c s IH]; intros [|n] [|m]; cbn; intros H;
    try reflexivity; try lia.
  - f_equal. apply (IH 0 m). lia.
  - apply (IH n 0). lia.
  - apply (IH n (S m)). lia.
Qed.

Lemma length_zeros (k : nat) : String.length (JsNumber.zeros k) = k.
Proof. induction k; cbn; congruence. Qed.

Lemma length_append (s t : string) :
  String.length (s ++ t) = String.length s + String.length t.
Proof.
  induction s as [|c s IH]; [reflexivity|].
  change (String c s ++ t)%string with (String c (s ++ t)).
  cbn [String.length]. rewrite IH. reflexivity.
Qed.

(** With a positive number of fraction digits the rendering is an integer
    part, a point, and exactly that many digits. *)
Lemma fixed_digits_shape (n : Z) (f : nat) :
  0 < f ->
  exists a b : string,
    JsNumber.fixed_digits n f = (a ++ "." ++ b)%string
    /\ 0 < String.length a /\ String.length b = f.
Proof.
  intros Hf. destruct f as [|f]; [lia|].
  unfold JsNumber.fixed_digits.
  set (m := (JsNumber.zeros _ ++ _)%string).
  assert (Hlen : S (S f) <= String.length m).
  { subst m. rewrite length_append, length_zeros. lia. }
  eexists _, _. split; [reflexivity|]. split.
  - rewrite length_substring; lia.
  - rewrite length_substring; lia.
Qed.

End ToFixedFacts.

Section FormatFacts.

#[local] Open Scope float_scope.

Variable Number_toString : float -> string.

#[local] Abbreviation toFixed := (JsNumber.toFixed Number_toString).
#[local] Abbreviation formatCost := (Catalog.formatCost Number_toString).
#[local] Abbreviation formatNumber := (Catalog.formatNumber Number_toString).

(** A number strictly between zero and 1e21 is finite and positive. *)
Lemma positive_finite (x : float) :
  (0 <? x) = true -> (x <? 1e21) = true ->
  exists m e, Prim2SF x = S754_finite false m e.
Proof.
  rewrite !ltb_spec. unfold SFltb.
  destruct (Prim2SF x) as [[]|[]| |[] m e]; cbn; try discriminate.
  intros _ _. eauto.
Qed.

Lemma toFixed_shape (x : float) (f : nat) :
  (0 <? x) = true -> (x <? 1e21) = true -> (0 < f)%nat ->
  exists a b : string,
    toFixed x f = (a ++ "." ++ b)%string
    /\ (0 < String.length a)%nat /\ String.length b = f.
Proof.
  intros H0 H21 Hf.
  destruct (positive_finite x H0 H21) as (m & e & Hx).
  assert (Habs : abs x = x).
  { apply Prim2SF_inj. rewrite abs_spec, Hx. reflexivity. }
  unfold JsNumber.toFixed. rewrite Hx, Habs, (ltb_not_leb _ _ H21).
  cbn [String.append]. now apply fixed_digits_shape.
Qed.

Lemma formatCost_zero (n : float) : (n =? 0) = true -> formatCost n = "$0".
Proof. unfold Catalog.formatCost. now intros ->. Qed.

Lemma formatCost_small (n : float) :
  (n =? 0) = false -> (n <? 0.01) = true ->
  formatCost n = ("$" ++ toFixed n 4)%string.
Proof. unfold Catalog.formatCost. now intros -> ->. Qed.

Lemma formatCost_large (n : float) :
  (n =? 0) = false -> (n <? 0.01) = false ->
  formatCost n = ("$" ++ toFixed n 2)%string.
Proof. unfold Catalog.formatCost. now intros -> ->. Qed.

Lemma positive_not_zero (n : float) : (0 <? n) = true -> (n =? 0) = false.
Proof.
  rewrite ltb_spec, FloatAxioms.eqb_spec. unfold SFltb, SFeqb.
  rewrite (SFcompare_antisym (Prim2SF 0) (Prim2SF n)).
  destruct (SFcompare (Prim2SF 0) (Prim2SF n)) as [[]|]; cbn; congruence.
Qed.

Lemma formatCost_four_decimals (n : float) :
  (0 <? n) = true -> (n <? 0.01) = true ->
  exists a b : string,
    formatCost n = ("$" ++ a ++ "." ++ b)%string /\ String.length b = 4%nat.
Proof.
  intros H0 H1.
  rewrite formatCost_small by auto using positive_not_zero.
  assert (H21 : (n <? 1e21) = true) by (now apply (ltb_trans n 0.01 1e21)).
  destruct (toFixed_shape n 4 H0 H21) as (a & b & -> & _ & Hb); [lia|].
  eauto.
Qed.

Lemma formatCost_two_decimals (n : float) :
  (0.01 <=? n) = true -> (n <? 1e21) = true ->
  exists a b : string,
    formatCost n = ("$" ++ a ++ "." ++ b)%string /\ String.length b = 2%nat.
Proof.
  intros H1 H21.
  assert (H0 : (0 <? n) = true) by (now apply (ltb_leb_trans 0 0.01 n)).
  rewrite formatCost_large by auto using positive_not_zero, leb_not_ltb.
  destruct (toFixed_shape n 2 H0 H21) as (a & b & -> & _ & Hb); [lia|].
  eauto.
Qed.

Lemma formatNumber_millions (n : float) :
  (1000000 <=? n) = true ->
  formatNumber n = (toFixed (n / 1000000) 1 ++ "M")%string.
Proof. unfold Catalog.formatNumber. now intros ->. Qed.

Lemma formatNumber_thousands (n : float) :
  (1000 <=? n) = true -> (n <? 1000000) = true ->
  formatNumber n = (toFixed (n / 1000) 1 ++ "K")%string.
Proof.
  unfold Catalog.formatNumber. intros H1 H2%ltb_not_leb. now rewrite H2, H1.
Qed.

Lemma formatNumber_plain (n : float) :
  (n <? 1000) = true -> formatNumber n = Number_toString n.
Proof.
  unfold Catalog.formatNumber. intros H1.
  assert (H2 : (n <? 1000000) = true) by (now apply (ltb_trans n 1000 1000000)).
  apply ltb_not_leb in H1, H2. now rewrite H2, H1.
Qed.

End FormatFacts.

(** C9: formatNumber(1500) is "1.5K", formatCost(0) is "$0",
    formatCost(0.005) is "$0.0050" and formatCost(1.2) is "$1.20".  A count
    of at least a million is shown in millions with one decimal and "M", one
    of at least a thousand in thousands with one decimal and "K", a smaller
    one as it is; a positive cost below one cent is shown with four decimal
    places, and a cost of at least one cent (below 1e21, from where toFixed
    gives up fixed notation) with two. *)
Theorem formatting_spec (Number_toString : float -> string) :
  Catalog.formatNumber Number_toString 1500 = "1.5K" /\
  Catalog.formatCost Number_toString 0 = "$0" /\
  Catalog.formatCost Number_toString 0.005 = "$0.0050" /\
  Catalog.formatCost Number_toString 1.2 = "$1.20" /\
  (forall n : float,
     (1000000 <=? n)%float = true ->
     Catalog.formatNumber Number_toString n
     = JsNumber.toFixed Number_toString (n / 1000000)%float 1 ++ "M") /\
  (forall n : float,
     (1000 <=? n)%float = true -> (n <? 1000000)%float = true ->
     Catalog.formatNumber Number_toString n
     = JsNumber.toFixed Number_toString (n / 1000)%float 1 ++ "K") /\
  (forall n : float,
     (n <? 1000)%float = true ->
     Catalog.formatNumber Number_toString n = Number_toString n) /\
  (forall n : float,
     (0 <? n)%float = true -> (n <? 0.01)%float = true ->
     exists a b : string,
       Catalog.formatCost Number_toString n = "$" ++ a ++ "." ++ b
       /\ String.length b = 4%nat) /\
  (forall n : float,
     (0.01 <=? n)%float = true -> (n <? 1e21)%float = true ->
     exists a b : string,
       Catalog.formatCost Number_toString n = "$" ++ a ++ "." ++ b
       /\ String.length b = 2%nat).
Proof.
  split; [vm_compute; reflexivity|].
  split; [vm_compute; reflexivity|].
  split; [vm_compute; reflexivity|].
  split; [vm_compute; reflexivity|].
  split; [apply formatNumber_millions|].
  split; [apply formatNumber_thousands|].
  split; [apply formatNumber_plain|].
  split; [apply formatCost_four_decimals|apply formatCost_two_decimals].
Qed.

Lemma formatting_witness :
  Catalog.formatNumber (fun _ => "?") 2500000 = "2.5M"
  /\ Catalog.formatNumber (fun _ => "?") 999 = "?"
  /\ exists a b : string,
       Catalog.formatCost (fun _ => "?") 0.00125 = "$" ++ a ++ "." ++ b
       /\ String.length b = 4%nat.
Proof.
  destruct (formatting_spec (fun _ => "?"))
    as (_ & _ & _ & _ & Hm & _ & Hp & H4 & _).
  split; [|split].
  - rewrite Hm by reflexivity. vm_compute. reflexivity.
  - apply Hp. reflexivity.
  - apply H4; reflexivity.
Defined.

(** ** Model catalog: pagination *)

Section PaginationFacts.

Import Catalog.

Lemma totalPages_ge_1 (s : State) : 1 <= totalPages s.
Proof. unfold totalPages. lia. Qed.

(** [ceil_div a b] is the least [k] with [a <= k * b]. *)
Lemma ceil_div_spec (a b : Z) :
  0 < b -> (ceil_div a b - 1) * b < a <= ceil_div a b * b.
Proof.
  intros Hb. unfold ceil_div.
  pose proof (Z.div_mod (- a) b ltac:(lia)) as Hdm.
  pose proof (Z.mod_pos_bound (- a) b Hb) as Hm. nia.
Qed.

(** What a render with its effects leaves: props and inputs as they were,
    both effects up to date, and the page reset or clamped where an effect
    ran. *)
Lemma commit_spec (s : State) :
  let c := commit s in
  models c = models s /\ search c = search s /\ pageSize c = pageSize s
  /\ reset_deps c = Some (search s, pageSize s)
  /\ clamp_deps c = Some (totalPages s)
  /\ page c =
       (let p := if bool_decide (reset_deps s = Some (search s, pageSize s))
                 then page s else 1 in
        if bool_decide (clamp_deps s = Some (totalPages s))
        then p else Z.min p (totalPages s)).
Proof.
  destruct s as [ms q sz pg rd cd].
  unfold commit, reset_effect, clamp_effect, setPage.
  set (tp := totalPages _). cbn.
  repeat (case_bool_decide; cbn in * ); repeat split; congruence.
Qed.

Lemma totalPages_ext (s s' : State) :
  models s' = models s -> search s' = search s -> pageSize s' = pageSize s ->
  totalPages s' = totalPages s.
Proof.
  unfold totalPages, total, filtered. now intros -> -> ->.
Qed.

Lemma commit_totalPages (s : State) : totalPages (commit s) = totalPages s.
Proof.
  destruct (commit_spec s) as (Hm & Hq & Hsz & _). now apply totalPages_ext.
Qed.

(** With both effects up to date a render changes nothing. *)
Lemma commit_fixed (s : State) :
  reset_deps s = Some (search s, pageSize s) ->
  clamp_deps s = Some (totalPages s) ->
  commit s = s.
Proof.
  intros Hrd Hcd. unfold commit, reset_effect.
  rewrite bool_decide_eq_true_2 by exact Hrd.
  unfold clamp_effect. rewrite bool_decide_eq_true_2 by exact Hcd.
  reflexivity.
Qed.

(** A second render finds nothing to do. *)
Lemma commit_idempotent (s : State) : commit (commit s) = commit s.
Proof.
  destruct (commit_spec s) as (Hm & Hq & Hsz & Hrd & Hcd & _).
  apply commit_fixed.
  - now rewrite Hrd, Hq, Hsz.
  - now rewrite Hcd, commit_totalPages.
Qed.

Lemma mount_settled (ms : list ModelItem) : settled (mount ms).
Proof.
  unfold mount, settled.
  set (s0 := mkState ms "" 12 1 None None).
  rewrite commit_totalPages.
  destruct (commit_spec s0) as (Hm & Hq & Hsz & Hrd & Hcd & Hpg).
  pose proof (totalPages_ge_1 s0).
  rewrite Hrd, Hcd, Hpg, Hq, Hsz. cbn.
  split; [reflexivity|]. split; [reflexivity|].
  split; [unfold pageSizeOptions; set_solver|].
  repeat case_bool_decide; lia.
Qed.

Section WithPageItems.

Variable buildPageItems : Z -> Z -> list PageItem.
Hypothesis buildPageItems_range :
  forall page totalPages n,
    1 <= page <= totalPages ->
    PageNumber n ∈ buildPageItems page totalPages -> 1 <= n <= totalPages.

(** The click handlers leave the inputs of [totalPages] alone. *)
Lemma totalPages_setPage (f : Z -> Z) (s : State) :
  totalPages (setPage f s) = totalPages s.
Proof. now apply totalPages_ext. Qed.

Lemma commit_setPage_settled (p : Z) (s : State) :
  settled s -> 1 <= p <= totalPages s ->
  settled (commit (setPage (fun _ => p) s)).
Proof.
  intros (Hrd & Hcd & Hsz & Hpg) Hp.
  rewrite commit_fixed; unfold settled;
    rewrite ?totalPages_setPage; cbn; auto.
Qed.

Lemma dispatch_settled (ev : Event) (s s' : State) :
  settled s -> dispatch buildPageItems ev s = Some s' -> settled s'.
Proof.
  intros Hs. unfold dispatch.
  destruct (enabled buildPageItems ev s) eqn:Hen; [|discriminate].
  intros [= <-].
  pose proof (totalPages_ge_1 s) as Hge.
  destruct ev as [v|size| | |item|ms']; cbn [handle enabled] in *.
  4: { apply commit_setPage_settled; [exact Hs|].
       destruct Hs as (_ & _ & _ & Hpg). lia. }
  3: { apply commit_setPage_settled; [exact Hs|].
       destruct Hs as (_ & _ & _ & Hpg). lia. }
  3: { apply commit_setPage_settled; [exact Hs|].
       apply andb_prop in Hen as [_ Hin]. apply bool_decide_eq_true in Hin.
       destruct Hs as (_ & _ & _ & Hpg).
       now apply buildPageItems_range in Hin. }
  all: destruct Hs as (Hrd & Hcd & Hsz & Hpg);
       unfold settled; rewrite commit_totalPages;
       match goal with
       | |- context [commit ?h] =>
           destruct (commit_spec h) as (_ & Hq' & Hsz' & Hrd' & Hcd' & Hpg');
           pose proof (totalPages_ge_1 h) as Hge';
           rewrite Hrd', Hcd', Hpg', Hq', Hsz';
           clear Hrd' Hcd' Hpg' Hq' Hsz';
           set (tp' := totalPages h) in *
       end;
       set (tp := totalPages s) in *;
       destruct s as [ms q sz pg rd cd];
       cbn in Hrd, Hcd, Hsz, Hpg, Hen |- *;
       (split; [reflexivity|]); (split; [reflexivity|]).
  - (* Input *)
    split; [exact Hsz|].
    repeat case_bool_decide; simplify_eq; lia.
  - (* SelectPageSize *)
    apply andb_prop in Hen as [_ Hin]. apply bool_decide_eq_true in Hin.
    split; [exact Hin|].
    repeat case_bool_decide; simplify_eq; lia.
  - (* Props *)
    split; [exact Hsz|].
    repeat case_bool_decide; simplify_eq; lia.
Qed.

Lemma run_settled (evs : list Event) (s s' : State) :
  settled s -> run buildPageItems evs s = Some s' -> settled s'.
Proof.
  revert s. induction evs as [|ev evs IH]; cbn; intros s Hs.
  - now intros [= <-].
  - destruct (dispatch buildPageItems ev s) as [s1|] eqn:Hd; [|discriminate].
    apply IH. eapply dispatch_settled; eauto.
Qed.

End WithPageItems.

End PaginationFacts.

(** C5: after the first render and after every event the view can deliver
    (typing in the search box, choosing a page size, the previous, next and
    page-number buttons, a new list of models), once the effects of the
    render have run, the page is in [1, totalPages], where totalPages is
    max(1, ceil(filteredCount / pageSize)) and the page size is one of 12,
    24, 48.  In particular a search that matches nothing followed by one
    that matches again leaves the page at most totalPages.  The page
    numbers offered by buildPageItems are taken to lie in
    [1, totalPages]. *)
Theorem pagination_clamped
    (buildPageItems : Z -> Z -> list Catalog.PageItem)
    (buildPageItems_range :
       forall page totalPages n,
         1 <= page <= totalPages ->
         Catalog.PageNumber n ∈ buildPageItems page totalPages ->
         1 <= n <= totalPages)
    (models : list Catalog.ModelItem) (evs : list Catalog.Event)
    (s : Catalog.State) :
  Catalog.run buildPageItems evs (Catalog.mount models) = Some s ->
  1 <= Catalog.page s <= Catalog.totalPages s
  /\ Catalog.pageSize s ∈ Catalog.pageSizeOptions
  /\ Catalog.totalPages s
     = Z.max 1 (Catalog.ceil_div (Catalog.total s) (Catalog.pageSize s))
  /\ (Catalog.ceil_div (Catalog.total s) (Catalog.pageSize s) - 1)
       * Catalog.pageSize s
     < Catalog.total s
     <= Catalog.ceil_div (Catalog.total s) (Catalog.pageSize s)
        * Catalog.pageSize s
  /\ (forall (q1 q2 : string) (s1 s2 : Catalog.State),
        Catalog.dispatch buildPageItems (Catalog.Input q1) s = Some s1 ->
        Catalog.total s1 = 0 ->
        Catalog.dispatch buildPageItems (Catalog.Input q2) s1 = Some s2 ->
        1 <= Catalog.page s2 <= Catalog.totalPages s2).
Proof.
  intros Hrun.
  assert (Hs : Catalog.settled s).
  { eapply run_settled; eauto using mount_settled. }
  destruct Hs as (Hrd & Hcd & Hsz & Hpg).
  split; [exact Hpg|]. split; [exact Hsz|]. split; [reflexivity|].
  split.
  - apply ceil_div_spec.
    unfold Catalog.pageSizeOptions in Hsz.
    repeat (apply elem_of_cons in Hsz as [->|Hsz]; [lia|]).
    now apply elem_of_nil in Hsz.
  - intros q1 q2 s1 s2 H1 _ H2.
    assert (Hs2 : Catalog.settled s2).
    { eapply dispatch_settled; [exact buildPageItems_range| |exact H2].
      eapply dispatch_settled; [exact buildPageItems_range| |exact H1].
      repeat split; auto; lia. }
    apply Hs2.
Qed.

Lemma pagination_witness :
  let items (page totalPages : Z) :=
    [Catalog.PageNumber 1; Catalog.Ellipsis; Catalog.PageNumber page;
     Catalog.Ellipsis; Catalog.PageNumber totalPages] in
  let models :=
    repeat (Catalog.mkModel "gpt-4o" [] 0 0 0 None []) 30 in
  match
    Catalog.run items
      [Catalog.ClickNext; Catalog.ClickPage 3; Catalog.Input "claude";
       Catalog.Input "GPT"]
      (Catalog.mount models)
  with
  | Some s => 1 <= Catalog.page s <= Catalog.totalPages s
  | None => False
  end.
Proof.
  intros items models.
  assert (Hitems : forall page totalPages n,
             1 <= page <= totalPages ->
             Catalog.PageNumber n ∈ items page totalPages ->
             1 <= n <= totalPages).
  { intros page totalPages n Hp Hin. unfold items in Hin.
    repeat (apply elem_of_cons in Hin as [Heq|Hin];
            [try discriminate Heq; injection Heq as ->; lia|]).
    now apply elem_of_nil in Hin. }
  destruct (Catalog.run items _ (Catalog.mount models)) as [s|] eqn:Hrun.
  - exact (proj1 (pagination_clamped items Hitems models _ s Hrun)).
  - vm_compute in Hrun. discriminate Hrun.
Defined.

(** ** Math.max *)

Section MathMaxFacts.

Import JsNumber.
#[local] Open Scope float_scope.

(** One step of [Math.max] on numbers that are not NaN keeps the larger
    one. *)
Lemma max_step_spec (h v : float) :
  is_nan h = false -> is_nan v = false ->
  exists r, max_step (Some h) v = Some r
            /\ (r = h \/ r = v) /\ (h <=? r) = true /\ (v <=? r) = true.
Proof.
  intros Hh Hv. unfold max_step. rewrite Hv.
  destruct ((h =? 0) && (v =? 0) && (1 / h <? 0) && (0 <? 1 / v)) eqn:Hz.
  - exists v. repeat split; auto using leb_refl.
    apply andb_prop in Hz as [[[Hh0 Hv0]%andb_prop _]%andb_prop _].
    destruct (eqb_zero h Hh0) as [-> | ->], (eqb_zero v Hv0) as [-> | ->];
      reflexivity.
  - destruct (h <? v) eqn:Hlt.
    + exists v. repeat split; auto using leb_refl, ltb_leb.
    + exists h. repeat split; auto using leb_refl, leb_total.
Qed.

Lemma fold_max_none (args : list float) :
  fold_left max_step args None = None.
Proof. induction args; cbn; auto. Qed.

(** Over arguments without NaN the result is the start value or one of
    the arguments, and an upper bound of all of them. *)
Lemma fold_max_spec (args : list float) (h : float) :
  is_nan h = false -> Forall (fun v => is_nan v = false) args ->
  exists r, fold_left max_step args (Some h) = Some r
            /\ (r = h \/ In r args) /\ (h <=? r) = true
            /\ Forall (fun v => (v <=? r) = true) args.
Proof.
  intros Hh Hargs. revert h Hh.
  induction Hargs as [|v args Hv _ IH]; intros h Hh; cbn [fold_left].
  - exists h. repeat split; auto using leb_refl.
  - destruct (max_step_spec h v Hh Hv) as (r1 & -> & Hr1 & Hh1 & Hv1).
    destruct (IH r1) as (r & -> & Hr & Hle & Hall).
    { now apply leb_not_nan in Hh1. }
    exists r. split; [reflexivity|]. split; [|split].
    + cbn [In]. destruct Hr as [->|]; [destruct Hr1 as [->| ->]|]; auto.
    + now apply (leb_trans h r1 r).
    + constructor; [now apply (leb_trans v r1 r)|exact Hall].
Qed.

(** Whatever the arguments, the fold ends in NaN or in a number that is
    not NaN. *)
Lemma fold_max_cases (args : list float) (start : option float) :
  match start with Some h => is_nan h = false | None => True end ->
  match fold_left max_step args start with
  | Some r => is_nan r = false
  | None => True
  end.
Proof.
  revert start. induction args as [|v args IH]; intros start Hs; [exact Hs|].
  cbn [fold_left]. apply IH.
  destruct start as [h|]; [|exact I]. unfold max_step.
  destruct (is_nan v) eqn:Hv; [exact I|].
  repeat match goal with |- context [if ?b then _ else _] => destruct b end;
    assumption.
Qed.

End MathMaxFacts.

(** ** Model catalog: sparkline *)

Section SparklineFacts.

Import Catalog.
#[local] Open Scope float_scope.

(** After [...values] comes the argument 1. *)
Lemma scale_max_unfold (values : list float) :
  scale_max values =
  match fold_left JsNumber.max_step values (Some neg_infinity) with
  | Some h =>
      match JsNumber.max_step (Some h) 1 with
      | Some r => r
      | None => nan
      end
  | None => nan
  end.
Proof.
  unfold scale_max, JsNumber.Math_max. rewrite fold_left_app. cbn [fold_left].
  destruct (fold_left JsNumber.max_step values (Some neg_infinity));
    reflexivity.
Qed.

(** The divisor of the value scale is NaN or at least one. *)
Lemma scale_max_cases (values : list float) :
  JsNumber.is_nan (scale_max values) = true
  \/ (1 <=? scale_max values) = true.
Proof.
  rewrite scale_max_unfold.
  pose proof (fold_max_cases values (Some neg_infinity) eq_refl) as Hh.
  destruct (fold_left JsNumber.max_step values (Some neg_infinity)) as [h|];
    [|left; reflexivity].
  destruct (max_step_spec h 1 Hh eq_refl) as (r & -> & _ & _ & Hr).
  right. exact Hr.
Qed.

(** It is never zero. *)
Lemma scale_max_not_zero (values : list float) :
  (scale_max values =? 0) = false.
Proof.
  destruct (scale_max_cases values) as [Hnan | Hge].
  - rewrite FloatAxioms.eqb_spec. apply Bool.negb_true_iff in Hnan.
    destruct (SFeqb _ _) eqn:E; [|reflexivity].
    exfalso. revert Hnan E. unfold JsNumber.is_nan.
    rewrite FloatAxioms.eqb_spec. unfold SFeqb.
    destruct (Prim2SF (scale_max values)) as [[]|[]| |[] m e]; cbn;
      rewrite ?Z.compare_refl, ?Pos.compare_cont_refl; cbn; congruence.
  - apply positive_not_zero. now apply (ltb_leb_trans 0 1).
Qed.

(** Over values without NaN it is at least one, an upper bound of the
    values, and one of the values or the number one. *)
Lemma scale_max_spec (values : list float) :
  Forall (fun v => JsNumber.is_nan v = false) values ->
  (1 <=? scale_max values) = true
  /\ Forall (fun v => (v <=? scale_max values) = true) values
  /\ (In (scale_max values) values \/ scale_max values = 1).
Proof.
  intros Hvalues. rewrite scale_max_unfold.
  destruct (fold_max_spec values neg_infinity eq_refl Hvalues)
    as (h & -> & Hh & _ & Hall).
  assert (Hnan : JsNumber.is_nan h = false).
  { destruct Hh as [->|Hin]; [reflexivity|].
    rewrite List.Forall_forall in Hvalues. now apply Hvalues. }
  destruct (max_step_spec h 1 Hnan eq_refl) as (r & -> & Hr & Hle & H1).
  split; [exact H1|]. split.
  - rewrite List.Forall_forall in Hall |- *. intros v Hv.
    now apply (leb_trans v h r), Hle; apply Hall.
  - destruct Hr as [-> | ->]; [|now right].
    destruct Hh as [-> | Hin]; [|now left].
    vm_compute in H1. discriminate H1.
Qed.

Lemma is_finite_not_nan (x : float) :
  JsNumber.is_finite x = true -> JsNumber.is_nan x = false.
Proof.
  intros H. apply is_nan_spec. unfold JsNumber.is_finite in H.
  destruct (Prim2SF x); congruence.
Qed.

Lemma SFcompare_eq_finite (s : bool) (m : positive) (e : Z) (b : spec_float) :
  SFcompare (S754_finite s m e) b = Some Eq -> b = S754_finite s m e.
Proof.
  destruct b as [sb|sb| |sb mb eb]; unfold SFcompare;
    try (destruct s; discriminate); try (destruct sb; discriminate).
  change (Pos.compare_cont Eq) with Pos.compare.
  destruct s, sb; try discriminate;
    destruct (Z.compare_spec e eb); try discriminate;
    destruct (Pos.compare_spec m mb); cbn; try discriminate;
    subst; reflexivity.
Qed.

Lemma leb_antisym_1 (x : float) :
  (1 <=? x) = true -> (x <=? 1) = true -> x = 1.
Proof.
  rewrite !leb_spec. unfold SFleb. intros H1 H2.
  apply Prim2SF_inj.
  rewrite (SFcompare_antisym (Prim2SF 1) (Prim2SF x)) in H2.
  change (Prim2SF 1) with (S754_finite false 4503599627370496 (-52)) in *.
  apply SFcompare_eq_finite.
  destruct (SFcompare _ (Prim2SF x)) as [[]|]; cbn in H2; congruence.
Qed.

(** A value equal to the scale sits on the top edge. *)
Lemma point_y_top (M : float) :
  (1 <=? M) = true -> JsNumber.is_finite M = true -> point_y M M = padding.
Proof.
  intros H1 Hfin. destruct (ge_1_finite M H1 Hfin) as (m & e & HM).
  unfold point_y. rewrite (div_self M false m e HM).
  vm_compute. reflexivity.
Qed.

Lemma scale_max_finite (values : list float) :
  Forall (fun v => JsNumber.is_finite v = true) values ->
  JsNumber.is_finite (scale_max values) = true.
Proof.
  intros Hfin.
  destruct (scale_max_spec values) as (_ & _ & [Hin | ->]).
  - eapply Forall_impl; [exact Hfin|]. intros v. apply is_finite_not_nan.
  - rewrite List.Forall_forall in Hfin. now apply Hfin.
  - reflexivity.
Qed.

(** Once a value reaches one, the scale is the largest value. *)
Lemma scale_max_in (values : list float) (v : float) :
  Forall (fun v => JsNumber.is_nan v = false) values ->
  In v values -> (1 <=? v) = true -> In (scale_max values) values.
Proof.
  intros Hvalues Hin Hv.
  destruct (scale_max_spec values Hvalues) as (_ & Hall & [HM | HM]);
    [exact HM|].
  rewrite List.Forall_forall in Hall. specialize (Hall v Hin).
  rewrite HM in Hall |- *.
  now rewrite <- (leb_antisym_1 v Hv Hall).
Qed.

(** Values that are all zero leave the scale at one, and every point on
    the bottom edge. *)
Lemma fold_max_zeros (values : list float) (h : float) :
  h = neg_infinity \/ h = 0 \/ h = (-0) ->
  Forall (fun v => (v =? 0) = true) values ->
  exists r, fold_left JsNumber.max_step values (Some h) = Some r
            /\ (r = neg_infinity \/ r = 0 \/ r = (-0)).
Proof.
  intros Hh Hvalues. revert h Hh.
  induction Hvalues as [|v values Hv _ IH]; intros h Hh; cbn [fold_left].
  - eauto.
  - destruct (eqb_zero v Hv) as [-> | ->], Hh as [-> | [-> | ->]];
      apply IH; vm_compute; auto.
Qed.

Lemma scale_max_zeros (values : list float) :
  Forall (fun v => (v =? 0) = true) values -> scale_max values = 1.
Proof.
  intros Hvalues. rewrite scale_max_unfold.
  destruct (fold_max_zeros values neg_infinity (or_introl eq_refl) Hvalues)
    as (r & -> & [-> | [-> | ->]]); reflexivity.
Qed.

Lemma point_y_zero (v : float) :
  (v =? 0) = true -> point_y 1 v = height - padding.
Proof. intros [-> | ->]%eqb_zero; reflexivity. Qed.

Lemma coords_lookup (values : list float) (i : nat) (v : float) :
  values !! i = Some v ->
  coords values !! i = Some (point_x values i, point_y (scale_max values) v).
Proof. intros H. unfold coords. now rewrite list_lookup_imap, H. Qed.

Lemma coords_zeros (values : list float) :
  Forall (fun v => (v =? 0) = true) values ->
  Forall (fun p => snd p = height - padding) (coords values).
Proof.
  intros Hvalues. apply Forall_lookup. intros i [x y] Hp.
  destruct (values !! i) as [v|] eqn:Hv.
  - rewrite (coords_lookup values i v Hv) in Hp. injection Hp as <- <-.
    rewrite scale_max_zeros by exact Hvalues. cbn [snd].
    apply point_y_zero. now apply (Forall_lookup_1 _ _ _ _ Hvalues Hv).
  - unfold coords in Hp. rewrite list_lookup_imap, Hv in Hp. discriminate.
Qed.

Lemma step_count_ge_1 (values : list float) : (1 <= step_count values)%Z.
Proof. unfold step_count. lia. Qed.

(** Values that all stay below one leave the scale at one. *)
Lemma scale_max_below_1 (values : list float) :
  Forall (fun v => (v <? 1) = true) values -> scale_max values = 1.
Proof.
  intros Hlow.
  assert (Hnan : Forall (fun v => JsNumber.is_nan v = false) values).
  { eapply Forall_impl; [exact Hlow|]. intros v Hv.
    now apply ltb_leb, leb_not_nan in Hv. }
  destruct (scale_max_spec values Hnan) as (H1 & _ & [Hin | HM]); [|exact HM].
  rewrite List.Forall_forall in Hlow. apply Hlow in Hin.
  apply ltb_not_leb in Hin. congruence.
Qed.

(** Some point carries the scale once a value reaches one, and it lies on
    the top edge. *)
Lemma scale_max_touches_top (values : list float) (v : float) :
  Forall (fun v => JsNumber.is_finite v = true) values ->
  In v values -> (1 <=? v) = true ->
  exists (i : nat) (x : float),
    values !! i = Some (scale_max values)
    /\ coords values !! i = Some (x, padding).
Proof.
  intros Hfin Hin Hv.
  assert (Hnan : Forall (fun v => JsNumber.is_nan v = false) values).
  { eapply Forall_impl; [exact Hfin|]. intros v'. apply is_finite_not_nan. }
  pose proof (scale_max_in values v Hnan Hin Hv) as HM.
  apply list_elem_of_In, list_elem_of_lookup in HM as [i Hi].
  exists i. eexists. split; [exact Hi|].
  rewrite (coords_lookup _ i _ Hi).
  rewrite point_y_top; [reflexivity| |now apply scale_max_finite].
  now destruct (scale_max_spec values Hnan) as (H1 & _).
Qed.

(** The texts of the two [points] attributes. *)
Lemma string_app_assoc (a b c : string) :
  ((a ++ b) ++ c = a ++ (b ++ c))%string.
Proof.
  induction a as [|x a IH]; [reflexivity|].
  change (String x ((a ++ b) ++ c) = String x (a ++ (b ++ c)))%string.
  now rewrite IH.
Qed.

Lemma concat_snoc (sep z : string) (xs : list string) :
  xs <> [] ->
  String.concat sep (xs ++ [z]) = (String.concat sep xs ++ sep ++ z)%string.
Proof.
  induction xs as [|x xs IH]; [congruence|]. intros _.
  destruct xs as [|y xs]; [reflexivity|].
  change (String.concat sep ((x :: y :: xs) ++ [z]))
    with (x ++ sep ++ String.concat sep ((y :: xs) ++ [z]))%string.
  rewrite IH by discriminate.
  change (String.concat sep (x :: y :: xs))
    with (x ++ sep ++ String.concat sep (y :: xs))%string.
  now rewrite !string_app_assoc.
Qed.

Lemma area_points_template (Number_toString : float -> string)
    (values : list float) :
  values <> [] ->
  show_points Number_toString (area_coords values)
  = (show_point Number_toString (padding, height - padding) ++ " "
     ++ show_points Number_toString (coords values) ++ " "
     ++ show_point Number_toString
          (padding + JsNumber.of_Z (Z.of_nat (length values) - 1) * step values,
           height - padding))%string.
Proof.
  intros Hne. unfold show_points, area_coords.
  assert (Hc : map (show_point Number_toString) (coords values) <> []).
  { destruct values; [congruence|]. discriminate. }
  rewrite map_cons, map_app. cbn [map].
  destruct (map (show_point Number_toString) (coords values)) as [|c cs] eqn:E;
    [congruence|].
  change (String.concat " " (?a :: (c :: cs) ++ [?z]))
    with (a ++ " " ++ String.concat " " ((c :: cs) ++ [z]))%string.
  now rewrite concat_snoc by discriminate.
Qed.

End SparklineFacts.

(** C10, as stated: whenever there are two or more data points that are
    not all zero, the largest value is drawn on the top edge.  The values
    0.5 and 0.25 are drawn at the heights 16 and 23, below the top edge
    at 2, because the scale is never less than one. *)
Lemma sparkline_max_below_top :
  ~ (forall data : list Catalog.DailyPoint,
       (2 <= length data)%nat ->
       Exists (fun v => (v =? 0)%float = false) (Catalog.values data) ->
       exists (i : nat) (v x : float),
         Catalog.values data !! i = Some v
         /\ Forall (fun v' => (v' <=? v)%float = true) (Catalog.values data)
         /\ Catalog.coords (Catalog.values data) !! i
            = Some (x, Catalog.padding)).
Proof.
  intros H.
  destruct (H [Catalog.mkDaily "2024-05-01" 0.5 10;
               Catalog.mkDaily "2024-05-02" 0.25 5])
    as (i & v & x & _ & _ & Hc).
  - cbn. lia.
  - constructor. reflexivity.
  - destruct i as [|[|i]]; vm_compute in Hc; [| |discriminate Hc];
      apply (f_equal (fun o : option (float * float) =>
                        match o with
                        | Some (_, y) => (y =? 2)%float
                        | None => false
                        end)) in Hc;
      vm_compute in Hc; discriminate Hc.
Qed.

(** C10, amended: without data points the sparkline renders nothing.  With
    data it renders an SVG of 120 by 32 whose line holds one point per data
    point, in order, the point of value v at index i being
    (2 + i * step, 30 - v / max * 28), and whose area is the same points
    between the two ends of the bottom edge.  No division is by zero: the
    divisor of the horizontal step is the integer max(n - 1, 1), at least
    one, and the divisor of the value scale is Math.max(...values, 1),
    never zero: at least one, or NaN when a value is NaN.  A single data
    point gives a single point at the left padding.  Values that are all
    zero give a flat line on the bottom edge.  With finite values of which
    one reaches one, the scale is the largest value and a point with that
    value lies on the top edge.  With values that all stay below one the
    scale is one, so that the largest value is drawn below the top
    edge. *)
Theorem sparkline_guarded (Number_toString : float -> string) :
  Catalog.MiniSparkline Number_toString [] = None
  /\ (forall data : list Catalog.DailyPoint,
        data <> [] ->
        let values := Catalog.values data in
        let line :=
          String.concat " "
            (map (fun p => (Number_toString (fst p) ++ ","
                            ++ Number_toString (snd p))%string)
                 (Catalog.coords values)) in
        (exists svg,
           Catalog.MiniSparkline Number_toString data = Some svg
           /\ Catalog.svg_width svg = 120%float
           /\ Catalog.svg_height svg = 32%float
           /\ Catalog.polyline_points svg = line
           /\ Catalog.polygon_points svg
              = (Number_toString 2%float ++ "," ++ Number_toString 30%float
                 ++ " " ++ line ++ " "
                 ++ Number_toString
                      (2 + JsNumber.of_Z (Z.of_nat (length data) - 1)
                           * Catalog.step values)%float
                 ++ "," ++ Number_toString 30%float)%string)
        /\ length (Catalog.coords values) = length data
        /\ (forall (i : nat) (v : float),
              values !! i = Some v ->
              Catalog.coords values !! i
              = Some ((2 + JsNumber.of_Z (Z.of_nat i) * Catalog.step values)%float,
                      (30 - v / Catalog.scale_max values * 28)%float))
        /\ Catalog.step values
           = (116 / JsNumber.of_Z (Catalog.step_count values))%float
        /\ Catalog.step_count values = Z.max (Z.of_nat (length data) - 1) 1
        /\ 1 <= Catalog.step_count values
        /\ (Catalog.scale_max values =? 0)%float = false
        /\ (JsNumber.is_nan (Catalog.scale_max values) = true
            \/ (1 <=? Catalog.scale_max values)%float = true))
  /\ (forall d : Catalog.DailyPoint,
        Catalog.step_count (Catalog.values [d]) = 1
        /\ Catalog.coords (Catalog.values [d])
           = [(Catalog.padding,
               Catalog.point_y (Catalog.scale_max [Catalog.requests d])
                               (Catalog.requests d))])
  /\ (forall data : list Catalog.DailyPoint,
        Forall (fun d => (Catalog.requests d =? 0)%float = true) data ->
        Catalog.scale_max (Catalog.values data) = 1%float
        /\ Forall (fun p => snd p = 30%float)
                  (Catalog.coords (Catalog.values data)))
  /\ (forall data : list Catalog.DailyPoint,
        Forall (fun d => JsNumber.is_finite (Catalog.requests d) = true) data ->
        let M := Catalog.scale_max (Catalog.values data) in
        (1 <=? M)%float = true
        /\ Forall (fun v => (v <=? M)%float = true) (Catalog.values data)
        /\ (forall v, In v (Catalog.values data) -> (1 <=? v)%float = true ->
              In M (Catalog.values data)
              /\ exists (i : nat) (x : float),
                   Catalog.values data !! i = Some M
                   /\ Catalog.coords (Catalog.values data) !! i
                      = Some (x, 2%float))
        /\ (forall i : nat,
              Catalog.values data !! i = Some M ->
              exists x, Catalog.coords (Catalog.values data) !! i
                        = Some (x, 2%float)))
  /\ (forall data : list Catalog.DailyPoint,
        Forall (fun d => (Catalog.requests d <? 1)%float = true) data ->
        Catalog.scale_max (Catalog.values data) = 1%float).
Proof.
  split; [reflexivity|]. split; [|split; [|split; [|split]]].
  - intros data Hdata values line.
    assert (Hvalues : values <> []).
    { subst values. destruct data; [congruence|discriminate]. }
    split; [|split; [|split; [|split; [|split; [|split; [|split]]]]]].
    + exists (Catalog.mkSvg Catalog.width Catalog.height
                (("0 0 " ++ Number_toString Catalog.width) ++ " "
                 ++ Number_toString Catalog.height)%string
                (Catalog.show_points Number_toString
                   (Catalog.area_coords values))
                (Catalog.show_points Number_toString (Catalog.coords values))).
      split; [destruct data; [congruence|reflexivity]|].
      split; [reflexivity|]. split; [reflexivity|]. split; [reflexivity|].
      etransitivity;
        [apply (area_points_template Number_toString values Hvalues)|].
      unfold values, Catalog.values, Catalog.show_point. rewrite length_map.
      cbn [fst snd]. rewrite !string_app_assoc. reflexivity.
    + unfold Catalog.coords, values, Catalog.values.
      now rewrite length_imap, length_map.
    + intros i v Hi. exact (coords_lookup values i v Hi).
    + reflexivity.
    + unfold Catalog.step_count, values, Catalog.values.
      now rewrite length_map.
    + apply step_count_ge_1.
    + apply scale_max_not_zero.
    + apply scale_max_cases.
  - intros d. split; reflexivity.
  - intros data Hzero.
    assert (Hvalues : Forall (fun v => (v =? 0)%float = true)
                             (Catalog.values data)).
    { unfold Catalog.values. now apply Forall_map. }
    split; [now apply scale_max_zeros|now apply coords_zeros].
  - intros data Hfin M.
    assert (Hvalues : Forall (fun v => JsNumber.is_finite v = true)
                             (Catalog.values data)).
    { unfold Catalog.values. now apply Forall_map. }
    assert (Hnan : Forall (fun v => JsNumber.is_nan v = false)
                          (Catalog.values data)).
    { eapply Forall_impl; [exact Hvalues|]. intros v. apply is_finite_not_nan. }
    destruct (scale_max_spec _ Hnan) as (H1 & Hall & _).
    split; [exact H1|]. split; [exact Hall|]. split.
    + intros v Hin Hv. split; [now apply (scale_max_in _ v)|].
      now apply (scale_max_touches_top _ v).
    + intros i Hi. eexists.
      rewrite (coords_lookup _ i M Hi). fold M.
      rewrite point_y_top; [reflexivity|exact H1|].
      now apply scale_max_finite.
  - intros data Hlow. apply scale_max_below_1.
    unfold Catalog.values. now apply Forall_map.
Qed.

Lemma sparkline_witness :
  let data := [Catalog.mkDaily "2024-05-01" 3 900;
               Catalog.mkDaily "2024-05-02" 12 4100;
               Catalog.mkDaily "2024-05-03" 7 2300] in
  Catalog.scale_max (Catalog.values data) = 12%float
  /\ Catalog.coords (Catalog.values data) !! 1%nat
     = Some (60%float, 2%float)
  /\ (exists (i : nat) (x : float),
        Catalog.values data !! i = Some 12%float
        /\ Catalog.coords (Catalog.values data) !! i = Some (x, 2%float))
  /\ Forall (fun p => snd p = 30%float)
       (Catalog.coords
          (Catalog.values [Catalog.mkDaily "2024-05-01" 0 0;
                           Catalog.mkDaily "2024-05-02" 0 0]))
  /\ Catalog.scale_max
       (Catalog.values [Catalog.mkDaily "2024-05-01" 0.5 10;
                        Catalog.mkDaily "2024-05-02" 0.25 5]) = 1%float.
Proof.
  cbv zeta.
  destruct (sparkline_guarded (fun _ => "")) as (_ & _ & _ & Hzero & Htop & Hlow).
  split; [reflexivity|]. split; [reflexivity|]. split; [|split].
  - destruct (Htop [Catalog.mkDaily "2024-05-01" 3 900;
                    Catalog.mkDaily "2024-05-02" 12 4100;
                    Catalog.mkDaily "2024-05-03" 7 2300])
      as (_ & _ & Hin & _); [repeat constructor|].
    apply (Hin 12%float); [right; left|]; reflexivity.
  - apply (Hzero [Catalog.mkDaily "2024-05-01" 0 0;
                  Catalog.mkDaily "2024-05-02" 0 0]).
    repeat constructor.
  - apply (Hlow [Catalog.mkDaily "2024-05-01" 0.5 10;
                 Catalog.mkDaily "2024-05-02" 0.25 5]).
    repeat constructor.
Defined.

(** * Further properties *)

(** ** Session store *)

Section SessionFacts.

Import Root RootEvents.

Ltac run_all :=
  unfold perform, redirect, browser_back, browser_forward, handlePopState,
    handleAdminLogin, onSiteInfo, onProfileLoaded, onProfileFailed,
    path_after, pathname_after, rendered, exec, eval, App,
    authenticated, handleUserLogout, handleUserLogin, navigateTo,
    updateUserToken, updateAdminToken, loadUserRecord, when, initial,
    history_replaceState, history_pushState, localStorage_removeItem,
    localStorage_setItem, setPath, setUserToken, setUserRecord, setNotice,
    setSiteMode, setAdminToken, modify_hooks, modify_browser, get_hooks,
    get_browser, mbind, mret, act_bind, act_ret;
  cbn.

Ltac case_ifs :=
  repeat (cbn;
          match goal with
          | |- context [if ?b then _ else _] => destruct b eqn:?
          | |- context [match ?o with Some _ => _ | None => _ end] =>
              destruct o eqn:?
          | |- context [match ?l with [] => _ | _ :: _ => _ end] =>
              destruct l eqn:?
          | |- context [match ?r with inl _ => _ | inr _ => _ end] =>
              destruct r eqn:?
          end);
  cbn.

#[local] Opaque JsString.startsWith String.eqb normalizePath.

Lemma updateUserToken_storage (next : option string) (w : World) :
  localStorage (browser (exec (updateUserToken next) w)) !! "user_token"
  = stored next.
Proof.
  destruct w as [[a u r m n p] [l hb hf ls]]. unfold stored. run_all.
  destruct next as [t|]; cbn; [destruct t; cbn|].
  - apply lookup_delete_eq.
  - apply lookup_insert_eq.
  - apply lookup_delete_eq.
Qed.

Lemma updateAdminToken_storage (next : option string) (w : World) :
  localStorage (browser (exec (updateAdminToken next) w)) !! "admin_token"
  = stored next.
Proof.
  destruct w as [[a u r m n p] [l hb hf ls]]. unfold stored. run_all.
  destruct next as [t|]; cbn; [destruct t; cbn|].
  - apply lookup_delete_eq.
  - apply lookup_insert_eq.
  - apply lookup_delete_eq.
Qed.

(** A token set through the session store is what the next page load
    starts with; the other slot, in memory and in storage, is untouched. *)
Lemma updateUserToken_frame (next : option string) (w : World) :
  let w' := exec (updateUserToken next) w in
  userToken (hooks w') = next
  /\ adminToken (hooks w') = adminToken (hooks w)
  /\ localStorage (browser w') !! "admin_token"
     = localStorage (browser w) !! "admin_token"
  /\ siteMode (hooks w') = siteMode (hooks w)
  /\ path (hooks w') = path (hooks w)
  /\ pathname (browser w') = pathname (browser w)
  /\ history_back (browser w') = history_back (browser w)
  /\ (token_truthy next = true -> userRecord (hooks w') = userRecord (hooks w))
  /\ (token_truthy next = false -> userRecord (hooks w') = None).
Proof.
  destruct w as [[a u r m n p] [l hb hf ls]]. run_all.
  destruct next as [t|]; cbn; [destruct t; cbn|];
    repeat split; try congruence;
    rewrite ?lookup_delete_ne, ?lookup_insert_ne by discriminate; reflexivity.
Qed.

Lemma updateAdminToken_frame (next : option string) (w : World) :
  let w' := exec (updateAdminToken next) w in
  adminToken (hooks w') = next
  /\ userToken (hooks w') = userToken (hooks w)
  /\ userRecord (hooks w') = userRecord (hooks w)
  /\ localStorage (browser w') !! "user_token"
     = localStorage (browser w) !! "user_token"
  /\ siteMode (hooks w') = siteMode (hooks w)
  /\ path (hooks w') = path (hooks w)
  /\ pathname (browser w') = pathname (browser w)
  /\ history_back (browser w') = history_back (browser w).
Proof.
  destruct w as [[a u r m n p] [l hb hf ls]]. run_all.
  destruct next as [t|]; cbn; [destruct t; cbn|];
    repeat split;
    rewrite ?lookup_delete_ne, ?lookup_insert_ne by discriminate; reflexivity.
Qed.

(** *** Render pass *)

(** A pass changes nothing, or it sets the stored path and the current
    history entry to one of three targets; everything else stays. *)
Lemma App_effect (w : World) :
  exec App w = w
  \/ exists t, (t = "/admin" \/ t = "/user" \/ t = "/login")
               /\ exec App w = exec (redirect t) w.
Proof.
  destruct w as [[a u r m n p] [l hb hf ls]]. run_all.
  case_ifs; auto; right;
    first [ exists "/admin"; split; [auto|reflexivity]
          | exists "/user"; split; [auto|reflexivity]
          | exists "/login"; split; [auto|reflexivity] ].
Qed.

Lemma redirect_frame (t : string) (w : World) :
  let w' := exec (redirect t) w in
  w' = mkWorld
         (mkHooks (adminToken (hooks w)) (userToken (hooks w))
                  (userRecord (hooks w)) (siteMode (hooks w))
                  (notice (hooks w)) t)
         (mkBrowser t (history_back (browser w))
                    (history_forward (browser w))
                    (localStorage (browser w))).
Proof. destruct w as [[a u r m n p] [l hb hf ls]]. reflexivity. Qed.

(** The consoles are rendered only on their routes and with their
    credentials. *)
Lemma user_console_guard (w : World) (t : string) (u : User) :
  rendered w = Some (UserAppView t u) ->
  userToken (hooks w) = Some t /\ JsString.truthy t = true
  /\ userRecord (hooks w) = Some u
  /\ JsString.startsWith (path (hooks w)) "/user" = true
  /\ JsString.startsWith (path (hooks w)) "/admin" = false.
Proof.
  destruct w as [[a u' r m n p] [l hb hf ls]]. run_all.
  case_ifs; intros [= <- <-] || discriminate; repeat split; assumption.
Qed.

Lemma admin_console_guard (w : World) (t : string) :
  rendered w = Some (AdminAppView t) ->
  adminToken (hooks w) = Some t /\ JsString.truthy t = true
  /\ JsString.startsWith (path (hooks w)) "/admin" = true.
Proof.
  destruct w as [[a u' r m n p] [l hb hf ls]]. run_all.
  case_ifs; intros [= <-] || discriminate; repeat split; assumption.
Qed.

(** *** Path and address bar *)

Lemma normalizePath_targets :
  normalizePath "/admin" = "/admin" /\ normalizePath "/user" = "/user"
  /\ normalizePath "/login" = "/login".
Proof. vm_compute. repeat split. Qed.

Lemma initial_in_sync (b : Browser) : in_sync (initial b).
Proof. reflexivity. Qed.

Lemma exec_Render (w : World) : exec (perform Render) w = exec App w.
Proof.
  unfold perform, exec, mbind, act_bind, mret, act_ret.
  destruct (App w); reflexivity.
Qed.

Lemma perform_in_sync (ev : Event) (w : World) :
  in_sync w -> in_sync (exec (perform ev) w).
Proof.
  destruct normalizePath_targets as (Ha & Hu & Hl).
  unfold in_sync. destruct ev as [ |target| | |token| |next|next|result|result|u| ].
  - (* Render *)
    intros Hs. rewrite exec_Render.
    destruct (App_effect w) as [-> | (t & Ht & ->)]; [exact Hs|].
    rewrite redirect_frame. cbn.
    destruct Ht as [-> | [-> | ->]]; congruence.
  - destruct w as [[a u r m n p] [l hb hf ls]]. run_all. reflexivity.
  - destruct w as [[a u r m n p] [l hb hf ls]]. run_all.
    destruct hb; cbn; reflexivity.
  - destruct w as [[a u r m n p] [l hb hf ls]]. run_all.
    destruct hf; cbn; reflexivity.
  - destruct w as [[a u r m n p] [l hb hf ls]]. run_all.
    destruct token; cbn; congruence.
  - destruct w as [[a u r m n p] [l hb hf ls]]. run_all. congruence.
  - destruct w as [[a u r m n p] [l hb hf ls]]. run_all.
    destruct next as [[|c t]|]; cbn; auto.
  - destruct w as [[a u r m n p] [l hb hf ls]]. run_all.
    destruct next as [[|c t]|]; cbn; auto.
  - destruct w as [[a u r m n p] [l hb hf ls]]. run_all.
    destruct result as [[|c t]|msg]; cbn; auto.
  - destruct w as [[a u r m n p] [l hb hf ls]]. run_all.
    destruct result; cbn; auto.
  - destruct w as [[a u' r m n p] [l hb hf ls]]. run_all.
    case_ifs; congruence.
  - destruct w as [[a u r m n p] [l hb hf ls]]. run_all. auto.
Qed.

Lemma perform_all_in_sync (evs : list Event) (w : World) :
  in_sync w -> in_sync (perform_all evs w).
Proof.
  revert w. induction evs as [|ev evs IH]; intros w Hw; [exact Hw|].
  cbn [perform_all]. apply IH. now apply perform_in_sync.
Qed.

(** *** Flows *)

(** Elsewhere the arrival of the profile moves nothing. *)
Lemma profile_elsewhere (u : User) (w : World) :
  normalizePath (pathname (browser w)) <> "/login" ->
  normalizePath (pathname (browser w)) <> "/register" ->
  let w' := exec (perform (ProfileLoaded u)) w in
  userRecord (hooks w') = Some u
  /\ path (hooks w') = path (hooks w)
  /\ browser w' = browser w.
Proof.
  destruct w as [[a u' r m n p] [l hb hf ls]]. cbn.
  intros H1%String.eqb_neq H2%String.eqb_neq.
  run_all. rewrite H1, H2. cbn. repeat split.
Qed.

(** The admin login form under /admin. *)
Lemma admin_login_success (token : string) (w : World) :
  JsString.startsWith (path (hooks w)) "/admin" = true ->
  JsString.truthy token = true ->
  let w' := exec (perform (AdminLogin (inl token))) w in
  adminToken (hooks w') = Some token
  /\ notice (hooks w') = ""
  /\ localStorage (browser w') !! "admin_token" = Some token
  /\ rendered w' = Some (AdminAppView token).
Proof.
  destruct w as [[a u r m n p] [l hb hf ls]]. cbn. intros Hp Ht.
  assert (Hroot : String.eqb p "/" = false).
  { apply String.eqb_neq. intros ->. vm_compute in Hp. discriminate. }
  run_all. rewrite Ht. cbn. rewrite Hp, Hroot, Ht, andb_false_r. cbn.
  repeat split. apply lookup_insert_eq.
Qed.

Lemma admin_login_failure (message : string) (w : World) :
  JsString.startsWith (path (hooks w)) "/admin" = true ->
  token_truthy (adminToken (hooks w)) = false ->
  let w' := exec (perform (AdminLogin (inr message))) w in
  adminToken (hooks w') = adminToken (hooks w)
  /\ browser w' = browser w
  /\ notice (hooks w') = message
  /\ rendered w' = Some (AdminLoginView message).
Proof.
  destruct w as [[a u r m n p] [l hb hf ls]]. cbn. intros Hp Ht.
  assert (Hroot : String.eqb p "/" = false).
  { apply String.eqb_neq. intros ->. vm_compute in Hp. discriminate. }
  run_all. rewrite Hp, Hroot, andb_false_r. cbn.
  destruct a as [t|]; cbn in Ht; rewrite ?Ht; repeat split.
Qed.

End SessionFacts.

Section RenderSettles.

Import Root RootEvents.

Ltac run_pass :=
  unfold redirect, exec, App, authenticated, when, history_replaceState,
    setPath, modify_hooks, modify_browser, get_hooks, mbind, mret,
    act_bind, act_ret;
  cbn.

Lemma is_personal_known (m : option SiteMode) :
  is_personal m = true -> known m = true.
Proof. destruct m; [reflexivity|discriminate]. Qed.

#[local] Opaque is_personal known.

Lemma login_stable (w : World) :
  path (hooks w) = "/login" -> is_personal (siteMode (hooks w)) = false ->
  exec App w = w.
Proof.
  destruct w as [[a u r m n p] [l hb hf ls]]. cbn. intros -> Hp.
  run_pass. rewrite Hp. reflexivity.
Qed.

Lemma login_personal (w : World) :
  path (hooks w) = "/login" -> is_personal (siteMode (hooks w)) = true ->
  exec App w = exec (redirect "/admin") w.
Proof.
  destruct w as [[a u r m n p] [l hb hf ls]]. cbn. intros -> Hp.
  run_pass. rewrite Hp. reflexivity.
Qed.

Lemma user_stable (w : World) :
  path (hooks w) = "/user" -> is_personal (siteMode (hooks w)) = false ->
  authenticated (hooks w) = true -> exec App w = w.
Proof.
  destruct w as [[a u r m n p] [l hb hf ls]]. unfold authenticated. cbn.
  intros -> Hp Hauth. run_pass. rewrite Hp.
  destruct u as [[|cu tu]|], r as [ur|]; try discriminate. reflexivity.
Qed.

Lemma user_personal (w : World) :
  path (hooks w) = "/user" -> is_personal (siteMode (hooks w)) = true ->
  authenticated (hooks w) = true ->
  exec App w = exec (redirect "/admin") w.
Proof.
  destruct w as [[a u r m n p] [l hb hf ls]]. unfold authenticated. cbn.
  intros -> Hp Hauth. run_pass. rewrite Hp.
  destruct u as [[|cu tu]|], r as [ur|]; try discriminate. reflexivity.
Qed.

Lemma user_anonymous (w : World) :
  path (hooks w) = "/user" -> authenticated (hooks w) = false ->
  exec App w = exec (redirect "/login") w.
Proof.
  destruct w as [[a u r m n p] [l hb hf ls]]. unfold authenticated. cbn.
  intros -> Hauth. run_pass.
  destruct (is_personal m), u as [[|cu tu]|], r as [ur|];
    try discriminate; reflexivity.
Qed.

Lemma admin_stable (w : World) :
  path (hooks w) = "/admin" -> exec App w = w.
Proof. intros Hp. apply admin_path_stable. now rewrite Hp. Qed.

(** The redirects of a pass, with what the one to /user presupposes. *)
Lemma App_cases (w : World) :
  exec App w = w
  \/ exec App w = exec (redirect "/admin") w
  \/ (exec App w = exec (redirect "/user") w
      /\ authenticated (hooks w) = true
      /\ is_personal (siteMode (hooks w)) = false)
  \/ exec App w = exec (redirect "/login") w.
Proof.
  destruct w as [[a u r m n p] [l hb hf ls]]. run_pass.
  repeat (cbn;
          match goal with
          | |- context [if ?b then _ else _] => destruct b eqn:?
          | |- context [match ?o with Some _ => _ | None => _ end] =>
              destruct o eqn:?
          end);
    cbn;
    first [ left; reflexivity
          | right; left; reflexivity
          | right; right; right; reflexivity
          | right; right; left; repeat split; assumption ].
Qed.

(** Redirects do not loop: the third pass changes nothing. *)
Lemma passes_settle (w : World) : exec App (passes 2 w) = passes 2 w.
Proof.
  cbn [passes].
  destruct (App_cases w) as [Hw | [Hw | [(Hw & Hauth & Hpers) | Hw]]].
  - now rewrite !Hw.
  - rewrite Hw.
    assert (Hs : exec App (exec (redirect "/admin") w)
                 = exec (redirect "/admin") w)
      by (apply admin_stable; now rewrite redirect_frame).
    now rewrite !Hs.
  - rewrite Hw.
    assert (Hs : exec App (exec (redirect "/user") w)
                 = exec (redirect "/user") w).
    { apply user_stable; rewrite redirect_frame; auto. }
    now rewrite !Hs.
  - rewrite Hw. set (w1 := exec (redirect "/login") w).
    assert (Hp1 : path (hooks w1) = "/login")
      by (subst w1; now rewrite redirect_frame).
    destruct (is_personal (siteMode (hooks w1))) eqn:Hpers.
    + rewrite (login_personal w1 Hp1 Hpers).
      assert (Hs : exec App (exec (redirect "/admin") w1)
                   = exec (redirect "/admin") w1)
        by (apply admin_stable; now rewrite redirect_frame).
      now rewrite !Hs.
    + now rewrite !(login_stable w1 Hp1 Hpers).
Qed.

End RenderSettles.

(** ** Login and profile *)

Section FlowFacts.

Import Root RootEvents.

Ltac run_flow :=
  unfold perform, onSiteInfo, onProfileLoaded, rendered, exec, eval, App,
    authenticated, handleUserLogin, navigateTo, updateUserToken,
    loadUserRecord, when, initial, history_replaceState, history_pushState,
    localStorage_setItem, setPath, setUserToken, setUserRecord, setSiteMode,
    modify_hooks, modify_browser, get_hooks, get_browser, mbind, mret,
    act_bind, act_ret;
  cbn.

Lemma register_stable (w : World) :
  path (hooks w) = "/register" -> is_personal (siteMode (hooks w)) = false ->
  exec App w = w.
Proof.
  destruct w as [[a u r m n p] [l hb hf ls]]. cbn. intros -> Hp.
  run_flow. rewrite Hp. reflexivity.
Qed.

Lemma public_rendered (w : World) :
  path (hooks w) = "/login" \/ path (hooks w) = "/register" ->
  rendered w = Some PublicAppView.
Proof.
  destruct w as [[a u r m n p] [l hb hf ls]]. cbn.
  intros [-> | ->]; run_flow; destruct (is_personal m); reflexivity.
Qed.

Lemma user_rendered (w : World) (t : string) (u : User) :
  path (hooks w) = "/user" -> userToken (hooks w) = Some t ->
  JsString.truthy t = true -> userRecord (hooks w) = Some u ->
  rendered w = Some (UserAppView t u).
Proof.
  destruct w as [[a u' r m n p] [l hb hf ls]]. cbn. intros -> -> Ht ->.
  run_flow. rewrite Ht.
  destruct (known m), (is_personal m); reflexivity.
Qed.

(** The request of the profile effect carries the token, and sending it
    changes nothing. *)
Lemma loadUserRecord_token (w : World) (t : string) :
  userToken (hooks w) = Some t -> JsString.truthy t = true ->
  eval loadUserRecord w = Some t /\ exec loadUserRecord w = w.
Proof.
  destruct w as [[a u r m n p] b]. cbn. intros -> Ht.
  run_flow. rewrite Ht. split; reflexivity.
Qed.

(** The login handler, then the render passes that follow it: without a
    record the guard of the user routes replaces the new entry /user by
    /login. *)
Lemma login_then_render (token : string) (w : World) (n : nat) :
  JsString.truthy token = true ->
  userRecord (hooks w) = None ->
  is_personal (siteMode (hooks w)) = false ->
  passes (S n) (exec (perform (UserLogin token)) w)
  = mkWorld
      (mkHooks (adminToken (hooks w)) (Some token) None (siteMode (hooks w))
               (notice (hooks w)) "/login")
      (mkBrowser "/login" (pathname (browser w) :: history_back (browser w))
                 [] (<["user_token" := token]> (localStorage (browser w)))).
Proof.
  intros Ht Hr Hp. cbn [passes].
  assert (H1 : exec App (exec (perform (UserLogin token)) w)
               = mkWorld
                   (mkHooks (adminToken (hooks w)) (Some token) None
                            (siteMode (hooks w)) (notice (hooks w)) "/login")
                   (mkBrowser "/login"
                              (pathname (browser w) :: history_back (browser w))
                              [] (<["user_token" := token]>
                                    (localStorage (browser w))))).
  { destruct w as [[a u r m nt p] [l hb hf ls]]. cbn in Hr, Hp. subst r.
    run_flow. rewrite Ht. cbn. rewrite Hp. cbn.
    destruct (known m); reflexivity. }
  rewrite H1. apply passes_fixed, login_stable; [reflexivity|exact Hp].
Qed.

(** The profile arrives while the address bar shows the login or register
    page. *)
Lemma profile_pushes (u : User) (w : World) :
  normalizePath (pathname (browser w)) = "/login"
    \/ normalizePath (pathname (browser w)) = "/register" ->
  exec (perform (ProfileLoaded u)) w
  = mkWorld
      (mkHooks (adminToken (hooks w)) (userToken (hooks w)) (Some u)
               (siteMode (hooks w)) (notice (hooks w)) "/user")
      (mkBrowser "/user" (pathname (browser w) :: history_back (browser w))
                 [] (localStorage (browser w))).
Proof.
  destruct w as [[a t r m n p] [l hb hf ls]]. cbn. intros Hp.
  run_flow. destruct Hp as [-> | ->]; reflexivity.
Qed.

(** Render passes and site-info answers other than "personal" leave a
    visitor with a stored token on the login or register page. *)
Lemma stays_public_step (b : Browser) (token : string) (ev : Event) (w : World) :
  normalizePath (pathname b) = "/login"
    \/ normalizePath (pathname b) = "/register" ->
  stays_public ev = true ->
  browser w = b /\ path (hooks w) = normalizePath (pathname b)
  /\ userToken (hooks w) = Some token /\ userRecord (hooks w) = None
  /\ is_personal (siteMode (hooks w)) = false ->
  let w' := exec (perform ev) w in
  browser w' = b /\ path (hooks w') = normalizePath (pathname b)
  /\ userToken (hooks w') = Some token /\ userRecord (hooks w') = None
  /\ is_personal (siteMode (hooks w')) = false.
Proof.
  intros Hb Hev (Hbr & Hp & Ht & Hr & Hm). cbv zeta.
  destruct ev as [ |target| | |tk| |next|next|result|[m|]|u'| ];
    try discriminate Hev.
  - rewrite exec_Render.
    assert (Hfix : exec App w = w).
    { destruct Hb as [Hb | Hb]; rewrite Hb in Hp.
      - now apply login_stable.
      - now apply register_stable. }
    rewrite Hfix. auto.
  - destruct w as [[a t r m' n p] br]. cbn in *.
    repeat split; auto. now apply Bool.negb_true_iff.
Qed.

Lemma stays_public_all (b : Browser) (token : string) (pre : list Event)
    (w : World) :
  normalizePath (pathname b) = "/login"
    \/ normalizePath (pathname b) = "/register" ->
  Forall (fun ev => stays_public ev = true) pre ->
  browser w = b /\ path (hooks w) = normalizePath (pathname b)
  /\ userToken (hooks w) = Some token /\ userRecord (hooks w) = None
  /\ is_personal (siteMode (hooks w)) = false ->
  let w' := perform_all pre w in
  browser w' = b /\ path (hooks w') = normalizePath (pathname b)
  /\ userToken (hooks w') = Some token /\ userRecord (hooks w') = None
  /\ is_personal (siteMode (hooks w')) = false.
Proof.
  intros Hb Hpre. revert w.
  induction Hpre as [|ev pre Hev _ IH]; intros w Hw; [exact Hw|].
  cbn [perform_all]. apply IH.
  now apply (stays_public_step b token ev w Hb Hev).
Qed.

(** A site-info answer "personal", or none, on the login or register
    page: the passes that follow end on /admin in the same history
    entry. *)
Lemma personal_from_public (b : Browser) (result : option SiteMode) (n : nat) :
  normalizePath (pathname b) = "/login"
    \/ normalizePath (pathname b) = "/register" ->
  result = None \/ result = Some "personal" ->
  passes (S n) (exec (perform (SiteInfo result)) (initial b))
  = mkWorld
      (mkHooks (localStorage b !! "admin_token") (localStorage b !! "user_token")
               None (Some "personal") "" "/admin")
      (mkBrowser "/admin" (history_back b) (history_forward b)
                 (localStorage b)).
Proof.
  intros Hb Hres. cbn [passes].
  set (w := exec (perform (SiteInfo result)) (initial b)).
  assert (Hw : w = mkWorld
                     (mkHooks (localStorage b !! "admin_token")
                              (localStorage b !! "user_token")
                              None (Some "personal") ""
                              (normalizePath (pathname b)))
                     b).
  { subst w. destruct Hres as [-> | ->]; reflexivity. }
  assert (Ha : JsString.startsWith (path (hooks w)) "/admin" = false)
    by (rewrite Hw; cbn; destruct Hb as [-> | ->]; reflexivity).
  assert (Hu : JsString.startsWith (path (hooks w)) "/user" = false)
    by (rewrite Hw; cbn; destruct Hb as [-> | ->]; reflexivity).
  assert (Hm : siteMode (hooks w) = Some "personal") by now rewrite Hw.
  rewrite (personal_first_pass w Hm Ha).
  rewrite (personal_redirect w Hm Ha (or_introl Hu)).
  rewrite passes_fixed by (now apply admin_path_stable).
  rewrite Hw. destruct b; reflexivity.
Qed.

End FlowFacts.

(** ** Path normalization: what is removed *)

Section NormalizePathMore.

Import JsString.

Lemma append_cons (c : ascii) (s t : string) :
  (String c s ++ t)%string = String c (s ++ t).
Proof. reflexivity. Qed.

(** The input is what is left, followed by slashes only. *)
Lemma replace_suffix (s : string) :
  exists tail : string,
    all_slashes tail = true /\ s = (replace_trailing_slashes s ++ tail)%string.
Proof.
  induction s as [|c rest (tail & Htail & IH)].
  - exists EmptyString. split; reflexivity.
  - rewrite replace_unfold.
    destruct (is_slash c && all_slashes rest) eqn:E.
    + exists (String c rest). split; [exact E|reflexivity].
    + exists tail. split; [exact Htail|].
      rewrite append_cons. now rewrite <- IH.
Qed.

(** What is left has no slashes at its end. *)
Lemma replace_no_slash_suffix (s q t : string) :
  replace_trailing_slashes s = (q ++ t)%string -> all_slashes t = true ->
  t = EmptyString.
Proof.
  revert q. induction s as [|c rest IH]; intros q.
  - cbn. destruct q, t; try discriminate; reflexivity.
  - rewrite replace_unfold.
    destruct (is_slash c && all_slashes rest) eqn:E.
    + destruct q, t; try discriminate; reflexivity.
    + destruct q as [|c' q'].
      * change (EmptyString ++ t)%string with t. intros <-.
        cbn [all_slashes]. intros [Hc Hr]%andb_prop.
        apply replace_all_slashes, replace_empty_iff in Hr.
        rewrite Hc, Hr in E. discriminate.
      * rewrite append_cons. intros [= _ Hrest]. now apply (IH q').
Qed.

Lemma normalizePath_cases (p : string) :
  normalizePath p = "/"
  \/ (2 <= JsString.length p
      /\ normalizePath p = replace_trailing_slashes p
      /\ truthy (replace_trailing_slashes p) = true).
Proof.
  unfold normalizePath. rewrite length_le_1.
  destruct p as [|c [|c' r]]; auto.
  destruct (truthy (replace_trailing_slashes _)) eqn:E; auto.
  right. repeat split.
  unfold JsString.length. cbn [String.length]. lia.
Qed.

End NormalizePathMore.

(** ** Session store, router and render pass: statements *)

(** X1: a token set through the session store is written through to
    localStorage: the next page load starts with that token when it is a
    non-empty string, and without a token when it is null or empty.  This
    holds for the user slot and for the admin slot. *)
Theorem token_round_trip (next : option string) (w : Root.World) :
  (let w' := Root.exec (Root.updateUserToken next) w in
   Root.userToken (Root.hooks w') = next
   /\ Root.localStorage (Root.browser w') !! "user_token"
      = RootEvents.stored next
   /\ Root.userToken (Root.hooks (Root.initial (Root.browser w')))
      = RootEvents.stored next)
  /\ (let w' := Root.exec (Root.updateAdminToken next) w in
      Root.adminToken (Root.hooks w') = next
      /\ Root.localStorage (Root.browser w') !! "admin_token"
         = RootEvents.stored next
      /\ Root.adminToken (Root.hooks (Root.initial (Root.browser w')))
         = RootEvents.stored next).
Proof.
  split; cbv zeta.
  - split; [apply (updateUserToken_frame next w)|].
    split; [apply updateUserToken_storage|].
    unfold Root.initial. cbn. apply updateUserToken_storage.
  - split; [apply (updateAdminToken_frame next w)|].
    split; [apply updateAdminToken_storage|].
    unfold Root.initial. cbn. apply updateAdminToken_storage.
Qed.

(** X2: the two sessions are independent.  Updating the admin token leaves
    the user token, the user record and the stored user token alone;
    updating the user token leaves the admin token and the stored admin
    token alone, keeps the user record when the new token is a non-empty
    string and clears it otherwise.  Neither touches the site mode, the
    path, the address bar or the history. *)
Theorem session_slots_independent (next : option string) (w : Root.World) :
  (let w' := Root.exec (Root.updateAdminToken next) w in
   Root.userToken (Root.hooks w') = Root.userToken (Root.hooks w)
   /\ Root.userRecord (Root.hooks w') = Root.userRecord (Root.hooks w)
   /\ Root.localStorage (Root.browser w') !! "user_token"
      = Root.localStorage (Root.browser w) !! "user_token"
   /\ Root.siteMode (Root.hooks w') = Root.siteMode (Root.hooks w)
   /\ Root.path (Root.hooks w') = Root.path (Root.hooks w)
   /\ Root.pathname (Root.browser w') = Root.pathname (Root.browser w)
   /\ Root.history_back (Root.browser w')
      = Root.history_back (Root.browser w))
  /\ (let w' := Root.exec (Root.updateUserToken next) w in
      Root.adminToken (Root.hooks w') = Root.adminToken (Root.hooks w)
      /\ Root.localStorage (Root.browser w') !! "admin_token"
         = Root.localStorage (Root.browser w) !! "admin_token"
      /\ Root.siteMode (Root.hooks w') = Root.siteMode (Root.hooks w)
      /\ Root.path (Root.hooks w') = Root.path (Root.hooks w)
      /\ Root.pathname (Root.browser w') = Root.pathname (Root.browser w)
      /\ Root.history_back (Root.browser w')
         = Root.history_back (Root.browser w)
      /\ Root.userRecord (Root.hooks w')
         = if Root.token_truthy next then Root.userRecord (Root.hooks w)
           else None).
Proof.
  split; cbv zeta.
  - apply (updateAdminToken_frame next w).
  - destruct (updateUserToken_frame next w)
      as (_ & Ha & Hs & Hm & Hp & Hl & Hb & Hkeep & Hclear).
    repeat split; auto.
    destruct (Root.token_truthy next); auto.
Qed.

(** X3: a render pass never touches the tokens, the user record, the site
    mode, the notice, localStorage or the history entries behind and ahead
    of the current one (it never pushes an entry).  It either leaves path
    and address bar as they are, or sets both to the same one of "/admin",
    "/user", "/login". *)
Theorem render_pass_frame (w : Root.World) :
  let w' := Root.exec Root.App w in
  Root.adminToken (Root.hooks w') = Root.adminToken (Root.hooks w)
  /\ Root.userToken (Root.hooks w') = Root.userToken (Root.hooks w)
  /\ Root.userRecord (Root.hooks w') = Root.userRecord (Root.hooks w)
  /\ Root.siteMode (Root.hooks w') = Root.siteMode (Root.hooks w)
  /\ Root.notice (Root.hooks w') = Root.notice (Root.hooks w)
  /\ Root.localStorage (Root.browser w') = Root.localStorage (Root.browser w)
  /\ Root.history_back (Root.browser w') = Root.history_back (Root.browser w)
  /\ Root.history_forward (Root.browser w')
     = Root.history_forward (Root.browser w)
  /\ (w' = w
      \/ Root.path (Root.hooks w') = Root.pathname (Root.browser w')
         /\ (Root.path (Root.hooks w') = "/admin"
             \/ Root.path (Root.hooks w') = "/user"
             \/ Root.path (Root.hooks w') = "/login")).
Proof.
  cbv zeta.
  destruct (App_effect w) as [-> | (t & Ht & ->)].
  - repeat split. now left.
  - rewrite redirect_frame. cbn. repeat split. right. split; auto.
Qed.

(** X4: the redirects of the render pass do not loop: after two passes a
    further pass changes nothing, whatever the state the first pass
    started from. *)
Theorem render_passes_settle (w : Root.World) :
  Root.exec Root.App (Root.passes 2 w) = Root.passes 2 w
  /\ forall n : nat, Root.passes (2 + n) w = Root.passes 2 w.
Proof.
  split; [apply passes_settle|].
  assert (Hfix : forall n w', Root.exec Root.App w' = w' ->
                              Root.passes n w' = w').
  { induction n as [|n IH]; intros w' Hw'; [reflexivity|].
    cbn [Root.passes]. rewrite Hw'. now apply IH. }
  assert (Hsplit : forall n m w', Root.passes (m + n) w'
                                  = Root.passes n (Root.passes m w')).
  { intros n m. induction m as [|m IH]; intros w'; [reflexivity|].
    cbn [Nat.add Root.passes]. apply IH. }
  intros n. rewrite Hsplit. apply Hfix, passes_settle.
Qed.

(** X5: the user console is rendered only on a path under /user (and not
    under /admin) with a non-empty user token and a user record, and with
    exactly these; the admin console only on a path under /admin with a
    non-empty admin token. *)
Theorem console_guards (w : Root.World) :
  (forall (t : string) (u : Root.User),
     Root.rendered w = Some (Root.UserAppView t u) ->
     Root.userToken (Root.hooks w) = Some t /\ JsString.truthy t = true
     /\ Root.userRecord (Root.hooks w) = Some u
     /\ JsString.startsWith (Root.path (Root.hooks w)) "/user" = true
     /\ JsString.startsWith (Root.path (Root.hooks w)) "/admin" = false)
  /\ (forall t : string,
        Root.rendered w = Some (Root.AdminAppView t) ->
        Root.adminToken (Root.hooks w) = Some t /\ JsString.truthy t = true
        /\ JsString.startsWith (Root.path (Root.hooks w)) "/admin" = true).
Proof.
  split; [exact (user_console_guard w)|exact (admin_console_guard w)].
Qed.

Lemma console_guards_witness :
  let w := Root.mkWorld
             (Root.mkHooks None (Some "tok") (Some (Root.mkUser "u1"))
                           (Some "multi") "" "/user/keys")
             (Root.mkBrowser "/user/keys" [] [] ∅) in
  Root.userToken (Root.hooks w) = Some "tok" /\ JsString.truthy "tok" = true
  /\ Root.userRecord (Root.hooks w) = Some (Root.mkUser "u1")
  /\ JsString.startsWith (Root.path (Root.hooks w)) "/user" = true
  /\ JsString.startsWith (Root.path (Root.hooks w)) "/admin" = false.
Proof.
  cbv zeta. apply console_guards. reflexivity.
Defined.

(** X6: the stored path is always the normalized path of the address bar:
    this holds after page load and is kept by every render pass, by back
    and forward, login, logout, token update and request completion, and
    by every navigation to a plain absolute path (letters, digits, "-",
    "_" and "/", not starting with "//"), which the browser takes over as
    the pathname unchanged. *)
Theorem path_follows_address_bar
    (b : Root.Browser) (evs : list RootEvents.Event) :
  Forall (fun ev => RootEvents.plain_event ev = true) evs ->
  let w := RootEvents.perform_all evs (Root.initial b) in
  Root.path (Root.hooks w) = normalizePath (Root.pathname (Root.browser w)).
Proof. intros _. apply perform_all_in_sync, initial_in_sync. Qed.

Lemma path_follows_address_bar_witness :
  let w := RootEvents.perform_all
             [RootEvents.Navigate "/user/keys/"; RootEvents.Render;
              RootEvents.Back; RootEvents.SiteInfo None; RootEvents.Render]
             (Root.initial (Root.mkBrowser "/login/" [] [] ∅)) in
  Root.path (Root.hooks w) = normalizePath (Root.pathname (Root.browser w)).
Proof.
  cbv zeta.
  apply (path_follows_address_bar (Root.mkBrowser "/login/" [] [] ∅)
           [RootEvents.Navigate "/user/keys/"; RootEvents.Render;
            RootEvents.Back; RootEvents.SiteInfo None; RootEvents.Render]).
  repeat constructor.
Defined.

(** X7: a successful login through the login form, in a mode that is not
    personal and with no record loaded.  The handler sets and stores the
    token and pushes /user; the render pass that follows finds no record
    and replaces that entry by /login, showing the public view, and
    further passes change nothing; the profile request carries the token.
    When the profile arrives the record is set and /user is pushed again,
    so that the history holds the page of the login and the replaced
    entry /login behind /user, the user console is rendered for this
    token and user, and further passes change nothing. *)
Theorem login_then_profile
    (token : string) (u : Root.User) (w : Root.World) (n : nat) :
  JsString.truthy token = true ->
  Root.userRecord (Root.hooks w) = None ->
  Root.is_personal (Root.siteMode (Root.hooks w)) = false ->
  let w1 := Root.passes (S n)
              (Root.exec (RootEvents.perform (RootEvents.UserLogin token)) w) in
  let w2 := Root.exec (RootEvents.perform (RootEvents.ProfileLoaded u)) w1 in
  (Root.userToken (Root.hooks w1) = Some token
   /\ Root.userRecord (Root.hooks w1) = None
   /\ Root.localStorage (Root.browser w1) !! "user_token" = Some token
   /\ Root.path (Root.hooks w1) = "/login"
   /\ Root.pathname (Root.browser w1) = "/login"
   /\ Root.history_back (Root.browser w1)
      = Root.pathname (Root.browser w) :: Root.history_back (Root.browser w)
   /\ Root.rendered w1 = Some Root.PublicAppView
   /\ Root.eval Root.loadUserRecord w1 = Some token
   /\ Root.exec Root.loadUserRecord w1 = w1)
  /\ (Root.userToken (Root.hooks w2) = Some token
      /\ Root.userRecord (Root.hooks w2) = Some u
      /\ Root.localStorage (Root.browser w2) !! "user_token" = Some token
      /\ Root.path (Root.hooks w2) = "/user"
      /\ Root.pathname (Root.browser w2) = "/user"
      /\ Root.history_back (Root.browser w2)
         = "/login" :: Root.pathname (Root.browser w)
           :: Root.history_back (Root.browser w)
      /\ Root.rendered w2 = Some (Root.UserAppView token u)
      /\ Root.exec Root.App w2 = w2).
Proof.
  intros Ht Hr Hp. cbv zeta.
  rewrite (login_then_render token w n Ht Hr Hp).
  rewrite profile_pushes by (left; reflexivity).
  split.
  - repeat split; try apply lookup_insert_eq.
    + now apply public_rendered; left.
    + now apply (loadUserRecord_token _ token).
    + now apply (loadUserRecord_token _ token).
  - repeat split; try apply lookup_insert_eq.
    + now apply user_rendered.
    + apply user_stable; [reflexivity|exact Hp|].
      unfold Root.authenticated. cbn. now rewrite Ht.
Qed.

Lemma login_then_profile_witness :
  let w := Root.mkWorld
             (Root.mkHooks None None None (Some "multi") "" "/login")
             (Root.mkBrowser "/login" ["/"] [] ∅) in
  let w1 := Root.passes 2
              (Root.exec (RootEvents.perform (RootEvents.UserLogin "tok")) w) in
  let w2 := Root.exec
              (RootEvents.perform (RootEvents.ProfileLoaded (Root.mkUser "u1")))
              w1 in
  Root.path (Root.hooks w1) = "/login"
  /\ Root.history_back (Root.browser w2) = ["/login"; "/login"; "/"]
  /\ Root.rendered w2 = Some (Root.UserAppView "tok" (Root.mkUser "u1")).
Proof.
  cbv zeta.
  destruct (login_then_profile "tok" (Root.mkUser "u1")
              (Root.mkWorld
                 (Root.mkHooks None None None (Some "multi") "" "/login")
                 (Root.mkBrowser "/login" ["/"] [] ∅))
              1%nat eq_refl eq_refl eq_refl)
    as [(_ & _ & _ & Hp1 & _) (_ & _ & _ & _ & _ & Hh & Hr & _)].
  split; [exact Hp1|]. split; [exact Hh|exact Hr].
Defined.

(** X8: a page load on the login or register page (trailing slashes or
    not) with a non-empty stored user token.  As long as only render
    passes and site-info answers other than "personal" have happened, the
    public view is shown, the profile request is sent with the stored
    token, and when the profile arrives the application pushes /user and
    shows the user console.  When site-info has answered "personal", or
    has failed, the passes that follow have replaced the page by /admin:
    the arrival of the profile then only sets the record, nothing is
    pushed, and the admin view stays.  In general, while the address bar
    shows neither page, the arrival of the profile only sets the
    record. *)
Theorem stored_token_resumes
    (b : Root.Browser) (token : string) (u : Root.User) :
  (Root.localStorage b !! "user_token" = Some token ->
   JsString.truthy token = true ->
   normalizePath (Root.pathname b) = "/login"
     \/ normalizePath (Root.pathname b) = "/register" ->
   (forall pre : list RootEvents.Event,
      Forall (fun ev => RootEvents.stays_public ev = true) pre ->
      let w0 := RootEvents.perform_all pre (Root.initial b) in
      Root.browser w0 = b
      /\ Root.rendered w0 = Some Root.PublicAppView
      /\ Root.eval Root.loadUserRecord w0 = Some token
      /\ Root.exec Root.loadUserRecord w0 = w0
      /\ let w' := Root.exec
                     (RootEvents.perform (RootEvents.ProfileLoaded u)) w0 in
         Root.userRecord (Root.hooks w') = Some u
         /\ Root.path (Root.hooks w') = "/user"
         /\ Root.pathname (Root.browser w') = "/user"
         /\ Root.history_back (Root.browser w')
            = Root.pathname b :: Root.history_back b
         /\ Root.rendered w' = Some (Root.UserAppView token u)
         /\ Root.exec Root.App w' = w')
   /\ (forall (result : option Root.SiteMode) (n : nat),
         result = None \/ result = Some "personal" ->
         let w0 := Root.passes (S n)
                     (Root.exec
                        (RootEvents.perform (RootEvents.SiteInfo result))
                        (Root.initial b)) in
         Root.path (Root.hooks w0) = "/admin"
         /\ Root.pathname (Root.browser w0) = "/admin"
         /\ Root.history_back (Root.browser w0) = Root.history_back b
         /\ Root.eval Root.loadUserRecord w0 = Some token
         /\ let w' := Root.exec
                        (RootEvents.perform (RootEvents.ProfileLoaded u)) w0 in
            Root.userRecord (Root.hooks w') = Some u
            /\ Root.path (Root.hooks w') = "/admin"
            /\ Root.browser w' = Root.browser w0
            /\ Root.rendered w' = Root.rendered w0
            /\ (forall (t : string) (u' : Root.User),
                  Root.rendered w' <> Some (Root.UserAppView t u'))))
  /\ (forall w : Root.World,
        normalizePath (Root.pathname (Root.browser w)) <> "/login" ->
        normalizePath (Root.pathname (Root.browser w)) <> "/register" ->
        let w' := Root.exec (RootEvents.perform (RootEvents.ProfileLoaded u))
                            w in
        Root.userRecord (Root.hooks w') = Some u
        /\ Root.path (Root.hooks w') = Root.path (Root.hooks w)
        /\ Root.browser w' = Root.browser w).
Proof.
  split; [|exact (profile_elsewhere u)].
  intros Hst Ht Hb. split.
  - intros pre Hpre. cbv zeta.
    destruct (stays_public_all b token pre (Root.initial b) Hb Hpre)
      as (Hbr & Hp & Htok & Hrec & Hm).
    { repeat split. exact Hst. }
    split; [exact Hbr|].
    split; [apply public_rendered; rewrite Hp; exact Hb|].
    split; [now apply (loadUserRecord_token _ token)|].
    split; [now apply (loadUserRecord_token _ token)|].
    rewrite profile_pushes by (rewrite Hbr; exact Hb).
    cbn. rewrite Hbr, Htok.
    repeat split.
    + now apply user_rendered.
    + apply user_stable; [reflexivity|exact Hm|].
      unfold Root.authenticated. cbn. now rewrite Ht.
  - intros result n Hres. cbv zeta.
    rewrite (personal_from_public b result n Hb Hres).
    split; [reflexivity|]. split; [reflexivity|]. split; [reflexivity|].
    split; [apply (loadUserRecord_token _ token); [exact Hst|exact Ht]|].
    match goal with
    | |- context [Root.exec _ ?w0] =>
        destruct (profile_elsewhere u w0) as (Hr & Hp & Hbr);
          [discriminate|discriminate|]
    end.
    split; [exact Hr|]. split; [exact Hp|]. split; [exact Hbr|].
    assert (Hview : forall w : Root.World,
               Root.path (Root.hooks w) = "/admin" ->
               JsString.startsWith (Root.path (Root.hooks w)) "/admin" = true)
      by (intros w ->; reflexivity).
    split.
    + rewrite !admin_rendered by (apply Hview; assumption || reflexivity).
      destruct (Root.exec _ _) as [[a t r m nt p] br] eqn:E.
      apply (f_equal Root.hooks) in E. cbn in E.
      unfold RootEvents.perform, Root.onProfileLoaded, Root.exec, mbind,
        Root.act_bind, Root.setUserRecord, Root.modify_hooks in E.
      cbn in E. injection E as <- <- <- <- <- <-. reflexivity.
    + intros t u' Hc. apply user_console_guard in Hc as (_ & _ & _ & _ & Hc).
      rewrite Hp in Hc. discriminate Hc.
Qed.

Lemma stored_token_resumes_witness :
  let b := Root.mkBrowser "/register/" ["/"] [] {["user_token" := "tok"]} in
  let w0 := RootEvents.perform_all
              [RootEvents.Render; RootEvents.SiteInfo (Some "multi");
               RootEvents.Render] (Root.initial b) in
  let w' := Root.exec
              (RootEvents.perform (RootEvents.ProfileLoaded (Root.mkUser "u1")))
              w0 in
  Root.eval Root.loadUserRecord w0 = Some "tok"
  /\ Root.path (Root.hooks w') = "/user"
  /\ Root.history_back (Root.browser w') = ["/register/"; "/"]
  /\ Root.rendered w' = Some (Root.UserAppView "tok" (Root.mkUser "u1")).
Proof.
  cbv zeta.
  destruct (stored_token_resumes
              (Root.mkBrowser "/register/" ["/"] [] {["user_token" := "tok"]})
              "tok" (Root.mkUser "u1")) as [H _].
  destruct H as [H _]; [reflexivity|reflexivity|right; reflexivity|].
  destruct (H [RootEvents.Render; RootEvents.SiteInfo (Some "multi");
               RootEvents.Render])
    as (_ & _ & Hreq & _ & _ & Hp & _ & Hh & Hr & _);
    [repeat constructor|].
  auto.
Defined.

(** X9: the admin login form on a path under /admin.  When the request
    succeeds with a non-empty token, the token is set and stored, the
    notice is cleared and the next pass shows the admin console.  When it
    fails, token and browser are untouched, the notice is the error
    message, and without an admin token the next pass shows the login form
    with that message. *)
Theorem admin_login_outcomes (w : Root.World) :
  JsString.startsWith (Root.path (Root.hooks w)) "/admin" = true ->
  (forall token : string,
     JsString.truthy token = true ->
     let w' := Root.exec
                 (RootEvents.perform (RootEvents.AdminLogin (inl token))) w in
     Root.adminToken (Root.hooks w') = Some token
     /\ Root.notice (Root.hooks w') = ""
     /\ Root.localStorage (Root.browser w') !! "admin_token" = Some token
     /\ Root.rendered w' = Some (Root.AdminAppView token))
  /\ (forall message : string,
        Root.token_truthy (Root.adminToken (Root.hooks w)) = false ->
        let w' := Root.exec
                    (RootEvents.perform (RootEvents.AdminLogin (inr message)))
                    w in
        Root.adminToken (Root.hooks w') = Root.adminToken (Root.hooks w)
        /\ Root.browser w' = Root.browser w
        /\ Root.notice (Root.hooks w') = message
        /\ Root.rendered w' = Some (Root.AdminLoginView message)).
Proof.
  intros Hp. split.
  - intros token Ht. now apply admin_login_success.
  - intros message Ht. now apply admin_login_failure.
Qed.

Lemma admin_login_outcomes_witness :
  let w := Root.initial (Root.mkBrowser "/admin/" [] [] ∅) in
  Root.rendered
    (Root.exec (RootEvents.perform (RootEvents.AdminLogin (inl "secret"))) w)
  = Some (Root.AdminAppView "secret")
  /\ Root.rendered
       (Root.exec
          (RootEvents.perform (RootEvents.AdminLogin (inr "Unauthorized"))) w)
     = Some (Root.AdminLoginView "Unauthorized").
Proof.
  cbv zeta.
  destruct (admin_login_outcomes
              (Root.initial (Root.mkBrowser "/admin/" [] [] ∅)) eq_refl)
    as [Hok Hfail].
  split.
  - apply Hok. reflexivity.
  - apply Hfail. reflexivity.
Defined.

Section NormalizePathShape.

Import JsString.

Lemma append_empty_r (s : string) : (s ++ "")%string = s.
Proof.
  induction s as [|c s IH]; [reflexivity|]. rewrite append_cons. now f_equal.
Qed.

Lemma append_assoc (s t u : string) :
  ((s ++ t) ++ u)%string = (s ++ t ++ u)%string.
Proof.
  induction s as [|c s IH]; [reflexivity|]. rewrite !append_cons. now f_equal.
Qed.

(** Slashes, at least one, end in a slash. *)
Lemma all_slashes_last (c : ascii) (t : string) :
  all_slashes (String c t) = true ->
  exists t', String c t = (t' ++ "/")%string.
Proof.
  revert c. induction t as [|c' t IH]; intros c; cbn [all_slashes].
  - rewrite andb_true_r. unfold is_slash. intros ->%Ascii.eqb_eq.
    exists EmptyString. reflexivity.
  - intros [Hc Ht]%andb_prop. destruct (IH c' Ht) as (t' & ->).
    exists (String c t'). reflexivity.
Qed.

Lemma normalizePath_no_trailing_slash (p q : string) :
  normalizePath p = (q ++ "/")%string -> normalizePath p = "/".
Proof.
  destruct (normalizePath_cases p) as [H | (_ & -> & _)]; [auto|].
  intros Hq. apply replace_no_slash_suffix in Hq; [discriminate|reflexivity].
Qed.

Lemma normalizePath_not_empty (p : string) : normalizePath p <> "".
Proof.
  destruct (normalizePath_cases p) as [-> | (_ & -> & Ht)]; [discriminate|].
  intros E. rewrite E in Ht. discriminate.
Qed.

Lemma normalizePath_suffix (p : string) :
  2 <= JsString.length p ->
  exists tail : string,
    all_slashes tail = true
    /\ (p = (normalizePath p ++ tail)%string
        \/ normalizePath p = "/" /\ p = tail).
Proof.
  intros Hlen. destruct (replace_suffix p) as (tail & Htail & Hp).
  unfold normalizePath. rewrite (proj2 (Z.leb_gt _ _)) by lia.
  destruct (replace_trailing_slashes p) as [|c r] eqn:E; cbn [truthy].
  - exists tail. split; [exact Htail|]. right. split; [reflexivity|exact Hp].
  - exists tail. split; [exact Htail|]. now left.
Qed.

Lemma normalizePath_fixed (p : string) :
  2 <= JsString.length p -> (forall q, p <> (q ++ "/")%string) ->
  normalizePath p = p.
Proof.
  intros Hlen Hend. destruct (replace_suffix p) as (tail & Htail & Hp).
  destruct tail as [|c t].
  - rewrite append_empty_r in Hp.
    unfold normalizePath. rewrite (proj2 (Z.leb_gt _ _)) by lia.
    rewrite <- Hp. destruct p as [|c r]; [|reflexivity].
    unfold JsString.length in Hlen. cbn in Hlen. lia.
  - destruct (all_slashes_last c t Htail) as (t' & Ht').
    exfalso. apply (Hend (replace_trailing_slashes p ++ t')%string).
    rewrite append_assoc, <- Ht'. exact Hp.
Qed.

End NormalizePathShape.

(** X10: a normalized path is never empty and never ends in a slash, the
    root path "/" excepted. *)
Theorem normalizePath_shape (p : string) :
  normalizePath p <> ""
  /\ (normalizePath p = "/"
      \/ forall q : string, normalizePath p <> (q ++ "/")%string).
Proof.
  split; [apply normalizePath_not_empty|].
  destruct (String.eqb_spec (normalizePath p) "/") as [H|H]; [now left|].
  right. intros q Hq. apply H. now apply (normalizePath_no_trailing_slash p q).
Qed.

(** X11: on a path of two or more characters normalization removes
    trailing slashes and nothing else: the path is its normal form followed
    by slashes only, or it consists of slashes only and its normal form is
    "/"; a path that does not end in a slash is returned as it is. *)
Theorem normalizePath_strips_only_slashes (p : string) :
  2 <= JsString.length p ->
  (exists tail : string,
     JsString.all_slashes tail = true
     /\ (p = (normalizePath p ++ tail)%string
         \/ normalizePath p = "/" /\ p = tail))
  /\ ((forall q : string, p <> (q ++ "/")%string) -> normalizePath p = p).
Proof.
  intros Hlen. split.
  - now apply normalizePath_suffix.
  - now apply normalizePath_fixed.
Qed.

Lemma normalizePath_strips_witness :
  (exists tail : string,
     JsString.all_slashes tail = true
     /\ ("/user/keys//" = (normalizePath "/user/keys//" ++ tail)%string
         \/ normalizePath "/user/keys//" = "/" /\ "/user/keys//" = tail))
  /\ ((forall q : string, "/user/keys//" <> (q ++ "/")%string) ->
      normalizePath "/user/keys//" = "/user/keys//").
Proof.
  apply (normalizePath_strips_only_slashes "/user/keys//").
  vm_compute. discriminate.
Defined.

(** ** Monitoring view: further properties *)

Section MonitoringMore.

Import Monitoring MonitoringRender.

Context {MonitoringData Parent : Type}.
Variable apiBase : string.
Variable onLoaded : MonitoringData -> Parent -> Parent.
Variable fetch : Request -> Fetched MonitoringData.
Variable monitoring : Parent -> option MonitoringData.

#[local] Abbreviation State := (Monitoring.State MonitoringData Parent).
#[local] Abbreviation fetchData :=
  (Monitoring.fetchData MonitoringData apiBase Parent onLoaded fetch).
#[local] Abbreviation handleDaysChange :=
  (Monitoring.handleDaysChange MonitoringData apiBase Parent onLoaded fetch).
#[local] Abbreviation click :=
  (MonitoringRender.click MonitoringData apiBase Parent onLoaded fetch
     monitoring).
#[local] Abbreviation MonitoringView :=
  (MonitoringRender.MonitoringView MonitoringData Parent monitoring).
#[local] Abbreviation pending := (MonitoringRender.pending MonitoringData Parent).

Ltac run_m :=
  unfold Monitoring.handleDaysChange, Monitoring.fetchData,
    try_catch_finally, await_fetch, await_json, call_onLoaded, setLoading,
    setDays, throw, mbind, mret, m_bind, m_ret;
  cbn.

(** Every outcome of the request, at once. *)
Lemma fetchData_outcome (token : string) (d : Z) (s : State) :
  fetchData token d s =
  (Normal tt,
   match fetch (request apiBase token d) with
   | Resolved res =>
       if ok res then
         match body res with
         | Parsed data =>
             mkState (days s) false (onLoaded data (parent s))
                     (data :: onLoaded_calls s)
         | SyntaxError _ =>
             mkState (days s) false (parent s) (onLoaded_calls s)
         end
       else mkState (days s) false (parent s) (onLoaded_calls s)
   | NetworkError _ => mkState (days s) false (parent s) (onLoaded_calls s)
   end).
Proof.
  run_m.
  destruct (fetch (request apiBase token d)) as [res|e]; cbn; [|reflexivity].
  destruct (ok res); cbn; [|reflexivity].
  destruct (body res); reflexivity.
Qed.

Lemma handleDaysChange_state (token : string) (d : Z) (s : State) :
  days (snd (handleDaysChange token d s)) = d
  /\ loading (snd (handleDaysChange token d s)) = false.
Proof.
  run_m.
  destruct (fetch (request apiBase token d)) as [res|e]; cbn; [|auto].
  destruct (ok res); cbn; [|auto].
  destruct (body res); cbn; auto.
Qed.

Lemma windowButtons_keys (d : Z) (l : bool) :
  map key (windowButtons d l) = [1; 7; 30]
  /\ Forall (fun b => disabled b = l) (windowButtons d l).
Proof. split; [reflexivity|]. repeat constructor. Qed.

Lemma windowButtons_active (d : Z) (l : bool) :
  d = 1 \/ d = 7 \/ d = 30 ->
  map key (filter (fun b => active b = true) (windowButtons d l)) = [d].
Proof. intros [-> | [-> | ->]]; reflexivity. Qed.

Lemma click_no_data (token : string) (d : Z) (s : State) :
  monitoring (parent s) = None ->
  MonitoringView s = NoData /\ click token d s = None.
Proof.
  intros Hm. unfold MonitoringRender.click, MonitoringRender.MonitoringView.
  now rewrite Hm.
Qed.

Lemma click_pending (token : string) (d d' : Z) (s : State) :
  click token d (pending d' s) = None.
Proof.
  unfold MonitoringRender.click, MonitoringRender.MonitoringView,
    MonitoringRender.pending, windowButtons.
  cbn -[Z.eqb]. destruct (monitoring (parent s)); [|reflexivity].
  cbn -[Z.eqb].
  repeat (match goal with
          | |- context [if (?a =? ?b) then _ else _] => destruct (a =? b)
          end; cbn -[Z.eqb]);
    reflexivity.
Qed.

Lemma click_idle (token : string) (d : Z) (s : State) (data : MonitoringData) :
  monitoring (parent s) = Some data ->
  loading s = false -> d = 1 \/ d = 7 \/ d = 30 ->
  click token d s = Some (snd (handleDaysChange token d s)).
Proof.
  intros Hm Hl Hd.
  unfold MonitoringRender.click, MonitoringRender.MonitoringView, windowButtons.
  rewrite Hm, Hl.
  destruct Hd as [-> | [-> | ->]]; reflexivity.
Qed.

Lemma click_unknown (token : string) (d : Z) (s : State) :
  d <> 1 -> d <> 7 -> d <> 30 -> click token d s = None.
Proof.
  intros H1%Z.eqb_neq H7%Z.eqb_neq H30%Z.eqb_neq.
  unfold MonitoringRender.click, MonitoringRender.MonitoringView, windowButtons.
  destruct (monitoring (parent s)); [|reflexivity].
  cbn -[Z.eqb].
  rewrite (Z.eqb_sym 1), (Z.eqb_sym 7), (Z.eqb_sym 30).
  now rewrite H1, H7, H30.
Qed.

(** After a request that failed the parent is as it was, so the panel is
    still there, with the clicked window active and the buttons enabled
    again. *)
Lemma click_failed_view (token : string) (d : Z) (s : State)
    (data : MonitoringData) :
  monitoring (parent s) = Some data ->
  fetch_failed MonitoringData apiBase fetch token d ->
  MonitoringView (snd (handleDaysChange token d s))
  = Panel (windowButtons d false).
Proof.
  intros Hm Hfail.
  unfold Monitoring.handleDaysChange, setDays, mbind, m_bind.
  cbn. rewrite fetchData_outcome. cbn.
  unfold fetch_failed in Hfail. unfold MonitoringRender.MonitoringView.
  destruct (fetch (request apiBase token d)) as [res|e]; cbn;
    [|now rewrite Hm].
  destruct Hfail as [-> | [e ->]]; cbn; [now rewrite Hm|].
  destruct (ok res); cbn; now rewrite Hm.
Qed.

End MonitoringMore.

(** X12: fetchData never throws and always ends with the loading flag
    down and the selected window untouched.  It calls onLoaded exactly
    once, with the parsed body, when the response has a 2xx status and a
    body that parses, and not at all otherwise. *)
Theorem fetchData_exactly_once
    (MonitoringData Parent : Type) (apiBase : string)
    (onLoaded : MonitoringData -> Parent -> Parent)
    (fetch : Monitoring.Request -> Monitoring.Fetched MonitoringData)
    (token : string) (d : Z) (s : Monitoring.State MonitoringData Parent) :
  exists s',
    Monitoring.fetchData MonitoringData apiBase Parent onLoaded fetch
      token d s = (Monitoring.Normal tt, s')
    /\ Monitoring.loading s' = false
    /\ Monitoring.days s' = Monitoring.days s
    /\ ((exists res data,
           fetch (Monitoring.request apiBase token d) = Monitoring.Resolved res
           /\ Monitoring.ok res = true
           /\ Monitoring.body res = Monitoring.Parsed data
           /\ Monitoring.onLoaded_calls s' = data :: Monitoring.onLoaded_calls s
           /\ Monitoring.parent s' = onLoaded data (Monitoring.parent s))
        \/ (Monitoring.fetch_failed MonitoringData apiBase fetch token d
            /\ Monitoring.onLoaded_calls s' = Monitoring.onLoaded_calls s
            /\ Monitoring.parent s' = Monitoring.parent s)).
Proof.
  eexists. split; [apply fetchData_outcome|].
  unfold Monitoring.fetch_failed.
  destruct (fetch (Monitoring.request apiBase token d)) as [res|e];
    [|repeat split; right; repeat split].
  destruct (Monitoring.ok res) eqn:Hok;
    [|repeat split; right; repeat split; now left].
  destruct (Monitoring.body res) as [data|e] eqn:Hbody.
  - repeat split. left. exists res, data. repeat split; assumption.
  - repeat split. right. repeat split. right. now exists e.
Qed.

(** X13: the colour never gets worse when the rate goes up: from a rate
    shown as good every higher rate is shown as good, and from a rate
    shown as warning every higher rate is shown as warning or good. *)
Theorem rateColor_monotone (r1 r2 : float) :
  (r1 <=? r2)%float = true ->
  (Monitoring.rateColor (Some r1) = "text-green-600" ->
   Monitoring.rateColor (Some r2) = "text-green-600")
  /\ (Monitoring.rateColor (Some r1) = "text-yellow-600" ->
      Monitoring.rateColor (Some r2) = "text-yellow-600"
      \/ Monitoring.rateColor (Some r2) = "text-green-600").
Proof.
  intros Hle. unfold Monitoring.rateColor.
  destruct (99 <=? r1)%float eqn:H1.
  - rewrite (leb_trans 99 r1 r2 H1 Hle). split; [auto|discriminate].
  - destruct (95 <=? r1)%float eqn:H2.
    + rewrite (leb_trans 95 r1 r2 H2 Hle).
      split; [discriminate|]. intros _. destruct (99 <=? r2)%float; auto.
    + split; discriminate.
Qed.

Lemma rateColor_monotone_witness :
  (96.5 <=? 99.2)%float = true
  /\ Monitoring.rateColor (Some 96.5%float) = "text-yellow-600"
  /\ (Monitoring.rateColor (Some 99.2%float) = "text-yellow-600"
      \/ Monitoring.rateColor (Some 99.2%float) = "text-green-600").
Proof.
  split; [reflexivity|]. split; [reflexivity|].
  apply (proj2 (rateColor_monotone 96.5 99.2 eq_refl)). reflexivity.
Defined.

(** X14: text colour and background colour always agree: for every rate,
    null and NaN included, the background is the stone, green, yellow or
    red one exactly when the text is. *)
Theorem rateBg_matches_rateColor (rate : option float) :
  (Monitoring.rateColor rate = "text-stone-400"
   <-> Monitoring.rateBg rate = "bg-stone-100")
  /\ (Monitoring.rateColor rate = "text-green-600"
      <-> Monitoring.rateBg rate = "bg-green-50")
  /\ (Monitoring.rateColor rate = "text-yellow-600"
      <-> Monitoring.rateBg rate = "bg-yellow-50")
  /\ (Monitoring.rateColor rate = "text-red-600"
      <-> Monitoring.rateBg rate = "bg-red-50").
Proof.
  unfold Monitoring.rateColor, Monitoring.rateBg.
  destruct rate as [r|]; [destruct (99 <=? r)%float, (95 <=? r)%float|];
    repeat split; intros; first [reflexivity|discriminate].
Qed.

(** X15: while the monitoring prop is null the view is the placeholder:
    no button is rendered and no click is delivered.  With data the panel
    has the three buttons of 1, 7 and 30 days; all of them are disabled
    exactly while a request is pending, so that a click then starts
    nothing; the button of the selected window, and only it, is active.  A
    click on a button while idle ends with that window selected and the
    loading flag down, and when the request failed the panel is still
    shown, with that button the active one and the buttons enabled; there
    is no button for any other window. *)
Theorem window_buttons
    (MonitoringData Parent : Type) (apiBase : string)
    (onLoaded : MonitoringData -> Parent -> Parent)
    (fetch : Monitoring.Request -> Monitoring.Fetched MonitoringData)
    (monitoring : Parent -> option MonitoringData)
    (token : string) (s : Monitoring.State MonitoringData Parent) :
  (monitoring (Monitoring.parent s) = None ->
   MonitoringRender.MonitoringView MonitoringData Parent monitoring s
   = MonitoringRender.NoData
   /\ forall d : Z,
        MonitoringRender.click MonitoringData apiBase Parent onLoaded fetch
          monitoring token d s = None)
  /\ (forall data : MonitoringData,
        monitoring (Monitoring.parent s) = Some data ->
        MonitoringRender.MonitoringView MonitoringData Parent monitoring s
        = MonitoringRender.Panel
            (MonitoringRender.windowButtons (Monitoring.days s)
                                            (Monitoring.loading s)))
  /\ (forall (d : Z) (l : bool),
        map MonitoringRender.key (MonitoringRender.windowButtons d l)
        = [1; 7; 30]
        /\ Forall (fun b => MonitoringRender.disabled b = l)
                  (MonitoringRender.windowButtons d l))
  /\ (forall (d : Z) (l : bool),
        d = 1 \/ d = 7 \/ d = 30 ->
        map MonitoringRender.key
          (filter (fun b => MonitoringRender.active b = true)
                  (MonitoringRender.windowButtons d l)) = [d])
  /\ (forall d d' : Z,
        MonitoringRender.click MonitoringData apiBase Parent onLoaded fetch
          monitoring token d (MonitoringRender.pending MonitoringData Parent d' s)
        = None)
  /\ (forall (d : Z) (data : MonitoringData),
        monitoring (Monitoring.parent s) = Some data ->
        Monitoring.loading s = false -> d = 1 \/ d = 7 \/ d = 30 ->
        exists s',
          MonitoringRender.click MonitoringData apiBase Parent onLoaded fetch
            monitoring token d s = Some s'
          /\ Monitoring.days s' = d /\ Monitoring.loading s' = false
          /\ (Monitoring.fetch_failed MonitoringData apiBase fetch token d ->
              MonitoringRender.MonitoringView MonitoringData Parent
                monitoring s'
              = MonitoringRender.Panel
                  (MonitoringRender.windowButtons d false)))
  /\ (forall d : Z,
        d <> 1 -> d <> 7 -> d <> 30 ->
        MonitoringRender.click MonitoringData apiBase Parent onLoaded fetch
          monitoring token d s = None).
Proof.
  split.
  { intros Hm. split.
    - now apply (click_no_data apiBase onLoaded fetch monitoring token 0).
    - intros d. now apply click_no_data. }
  split.
  { intros data Hm. unfold MonitoringRender.MonitoringView. now rewrite Hm. }
  split; [exact windowButtons_keys|].
  split; [exact windowButtons_active|].
  split; [intros d d'; apply click_pending|].
  split; [|intros d; apply click_unknown].
  intros d data Hm Hl Hd. eexists.
  split; [now apply (click_idle apiBase onLoaded fetch monitoring token d s
                       data)|].
  split; [apply handleDaysChange_state|].
  split; [apply handleDaysChange_state|].
  intros Hfail.
  now apply (click_failed_view apiBase onLoaded fetch monitoring token d s data).
Qed.

Lemma window_buttons_witness :
  let fetch (_ : Monitoring.Request) : Monitoring.Fetched nat :=
    Monitoring.Resolved (Monitoring.mkResponse 200 (Monitoring.Parsed 5%nat)) in
  let s := Monitoring.mkState 7 false (Some 3%nat) [] in
  exists s',
    MonitoringRender.click nat "" (option nat) (fun data _ => Some data)
      fetch (fun parent => parent) "tok" 30 s = Some s'
    /\ Monitoring.days s' = 30 /\ Monitoring.loading s' = false.
Proof.
  cbv zeta.
  destruct (window_buttons nat (option nat) "" (fun data _ => Some data)
              (fun _ => Monitoring.Resolved
                          (Monitoring.mkResponse 200 (Monitoring.Parsed 5%nat)))
              (fun parent => parent)
              "tok" (Monitoring.mkState 7 false (Some 3%nat) []))
    as (_ & _ & _ & _ & _ & Hclick & _).
  destruct (Hclick 30 3%nat) as (s' & Hs & Hd & Hl & _); auto.
  exists s'. auto.
Defined.

(** ** Monitoring view: table cells *)

Section CellFacts.

Import MonitoringRender.

Lemma take_append (date rest : string) (n : nat) :
  take (String.length date + n) (date ++ rest) = (date ++ take n rest)%string.
Proof.
  unfold take. induction date as [|c date IH]; [reflexivity|].
  rewrite !append_cons. cbn [String.length Nat.add String.substring].
  now rewrite IH.
Qed.

Lemma replace_first_T_append (date rest : string) :
  has_T date = false ->
  replace_first_T (date ++ String "T" rest) = (date ++ String " " rest)%string.
Proof.
  induction date as [|c date IH]; [reflexivity|].
  cbn [has_T]. intros [Hc Hd]%orb_false_elim.
  rewrite !append_cons. cbn [replace_first_T]. rewrite Hc. now rewrite IH.
Qed.

Lemma length_replace_first_T (s : string) :
  String.length (replace_first_T s) = String.length s.
Proof.
  induction s as [|c s IH]; [reflexivity|].
  cbn [replace_first_T]. destruct (Ascii.eqb c "T"); cbn; congruence.
Qed.

Lemma length_string_take (n : nat) (s : string) :
  String.length (take n s) = Nat.min n (String.length s).
Proof.
  unfold take. revert n. induction s as [|c s IH]; intros [|n]; cbn; auto.
Qed.

Lemma lastSeenCell_iso (ch : ChannelStat) (date time : string) :
  last_seen ch = Some (date ++ String "T" time)%string ->
  String.length date = 10%nat -> has_T date = false ->
  lastSeenCell ch = (date ++ String " " (take 5 time))%string.
Proof.
  intros Hls Hlen HT. unfold lastSeenCell. rewrite Hls.
  assert (Htruthy : JsString.truthy (date ++ String "T" time) = true).
  { destruct date; reflexivity. }
  rewrite Htruthy.
  change 16%nat with (10 + 6)%nat. rewrite <- Hlen, take_append.
  change (take 6 (String "T" time)) with (String "T" (take 5 time)).
  now apply replace_first_T_append.
Qed.

Lemma lastSeenCell_length (ch : ChannelStat) (s : string) :
  last_seen ch = Some s -> JsString.truthy s = true ->
  String.length (lastSeenCell ch) = Nat.min 16 (String.length s).
Proof.
  intros Hls Ht. unfold lastSeenCell. rewrite Hls, Ht.
  now rewrite length_replace_first_T, length_string_take.
Qed.

Lemma lastSeenCell_missing (ch : ChannelStat) :
  last_seen ch = None \/ last_seen ch = Some "" -> lastSeenCell ch = "-".
Proof. unfold lastSeenCell. now intros [-> | ->]. Qed.

Lemma chName_found (channels : list ChannelStat) (row : TrendRow)
    (ch : ChannelStat) :
  NoDup (map channel_id channels) -> In ch channels ->
  row_channel_id row = Some (channel_id ch) ->
  chName channels row = channel_name ch.
Proof.
  intros Hnd Hin Hrow. unfold chName. rewrite Hrow.
  induction channels as [|c channels IH]; [destruct Hin|].
  cbn [List.find]. apply NoDup_cons in Hnd as [Hc Hnd].
  destruct Hin as [-> | Hin].
  - now rewrite String.eqb_refl.
  - destruct (String.eqb_spec (channel_id c) (channel_id ch)) as [E|_].
    + exfalso. apply Hc. rewrite E. apply list_elem_of_In.
      now apply in_map.
    + now apply IH.
Qed.

Lemma chName_unknown (channels : list ChannelStat) (row : TrendRow)
    (id : string) :
  row_channel_id row = Some id ->
  (forall ch, In ch channels -> channel_id ch <> id) ->
  chName channels row = id.
Proof.
  intros Hrow Hnone. unfold chName. rewrite Hrow.
  induction channels as [|c channels IH]; [reflexivity|].
  cbn [List.find].
  destruct (String.eqb_spec (channel_id c) id) as [E|_].
  - exfalso. apply (Hnone c); [now left|exact E].
  - apply IH. intros ch Hin. apply Hnone. now right.
Qed.

Lemma chName_no_id (channels : list ChannelStat) (row : TrendRow) :
  row_channel_id row = None -> chName channels row = "-".
Proof.
  intros Hrow. unfold chName. rewrite Hrow.
  induction channels as [|c channels IH]; [reflexivity|exact IH].
Qed.

End CellFacts.

(** X16: the channel shown in a daily-trend row is looked up by channel
    id.  With distinct channel ids, a row whose id is that of a listed
    channel shows that channel's name; a row whose id is not listed shows
    the id itself; a row without an id shows a dash. *)
Theorem trend_row_channel_name
    (channels : list MonitoringRender.ChannelStat)
    (row : MonitoringRender.TrendRow) :
  (forall ch : MonitoringRender.ChannelStat,
     NoDup (map MonitoringRender.channel_id channels) -> In ch channels ->
     MonitoringRender.row_channel_id row
     = Some (MonitoringRender.channel_id ch) ->
     MonitoringRender.chName channels row = MonitoringRender.channel_name ch)
  /\ (forall id : string,
        MonitoringRender.row_channel_id row = Some id ->
        (forall ch, In ch channels -> MonitoringRender.channel_id ch <> id) ->
        MonitoringRender.chName channels row = id)
  /\ (MonitoringRender.row_channel_id row = None ->
      MonitoringRender.chName channels row = "-").
Proof.
  split; [intros ch; apply chName_found|].
  split; [intros id; apply chName_unknown|apply chName_no_id].
Qed.

Lemma trend_row_channel_name_witness :
  let openai := MonitoringRender.mkChannelStat "c1" "OpenAI" "openai" "active"
                  (Some 99.5%float) 120 (Some 340%float)
                  (Some "2024-05-01T12:34:56.000Z") in
  let azure := MonitoringRender.mkChannelStat "c2" "Azure" "openai" "inactive"
                 None 0 None None in
  let row id := MonitoringRender.mkTrendRow "2024-05-01" id 10 9 1
                  (Some 90%float) (Some 300%float) in
  MonitoringRender.chName [openai; azure] (row (Some "c2")) = "Azure"
  /\ MonitoringRender.chName [openai; azure] (row (Some "c9")) = "c9".
Proof.
  cbv zeta. split.
  - refine (proj1 (trend_row_channel_name _ _)
                   (MonitoringRender.mkChannelStat "c2" "Azure" "openai"
                      "inactive" None 0 None None) _ _ _).
    + cbn. apply NoDup_cons. split; [|apply NoDup_singleton].
      intros H%list_elem_of_singleton. discriminate H.
    + right. left. reflexivity.
    + reflexivity.
  - apply (proj1 (proj2 (trend_row_channel_name _ _))); [reflexivity|].
    intros ch [<- | [<- | []]]; discriminate.
Defined.

(** X17: the last-activity cell shows a dash when the timestamp is missing
    or empty.  Otherwise it shows the first 16 characters with the first T
    replaced by a space, so its length is the smaller of 16 and the
    timestamp's length, and an ISO timestamp (a ten-character date without
    a T, a T, then the time) is shown as the date, a space, and the first
    five characters of the time. *)
Theorem last_seen_cell (ch : MonitoringRender.ChannelStat) :
  (MonitoringRender.last_seen ch = None
     \/ MonitoringRender.last_seen ch = Some "" ->
   MonitoringRender.lastSeenCell ch = "-")
  /\ (forall s : string,
        MonitoringRender.last_seen ch = Some s -> JsString.truthy s = true ->
        String.length (MonitoringRender.lastSeenCell ch)
        = Nat.min 16 (String.length s))
  /\ (forall date time : string,
        MonitoringRender.last_seen ch = Some (date ++ String "T" time)%string ->
        String.length date = 10%nat ->
        MonitoringRender.has_T date = false ->
        MonitoringRender.lastSeenCell ch
        = (date ++ String " " (MonitoringRender.take 5 time))%string).
Proof.
  split; [apply lastSeenCell_missing|].
  split; [apply lastSeenCell_length|apply lastSeenCell_iso].
Qed.

Lemma last_seen_cell_witness :
  MonitoringRender.lastSeenCell
    (MonitoringRender.mkChannelStat "c1" "OpenAI" "openai" "active"
       (Some 99.5%float) 120 (Some 340%float)
       (Some "2024-05-01T12:34:56.000Z"))
  = "2024-05-01 12:34".
Proof.
  apply (proj2 (proj2 (last_seen_cell _)) "2024-05-01" "12:34:56.000Z");
    reflexivity.
Defined.

(** ** Model catalog: search *)

Section SearchFacts.

Import Catalog.

Lemma prefix_app (p s : string) :
  String.prefix p s = true <-> exists b : string, s = (p ++ b)%string.
Proof.
  revert s. induction p as [|c p IH]; intros s.
  - split; [intros _; exists s; reflexivity|intros _; destruct s; reflexivity].
  - destruct s as [|c' s]; cbn [String.prefix].
    + split; [discriminate|intros (b & Hb); discriminate Hb].
    + destruct (ascii_dec c c') as [<-|Hne].
      * rewrite IH. split; intros (b & Hb); exists b.
        -- now rewrite append_cons, <- Hb.
        -- rewrite append_cons in Hb. now injection Hb.
      * split; [discriminate|]. intros (b & Hb).
        rewrite append_cons in Hb. injection Hb as Hc _. congruence.
Qed.

(** [includes] is the substring test. *)
Lemma includes_spec (s p : string) :
  JsString.includes s p = true <->
  exists a b : string, s = (a ++ p ++ b)%string.
Proof.
  split.
  - induction s as [|c s IH]; cbn [JsString.includes].
    + rewrite orb_false_r. intros (b & Hb)%prefix_app.
      now exists EmptyString, b.
    + intros [(b & Hb)%prefix_app | Hs]%orb_prop.
      * now exists EmptyString, b.
      * destruct (IH Hs) as (a & b & ->). now exists (String c a), b.
  - intros (a & b & ->). induction a as [|c a IH].
    + assert (H : String.prefix p (p ++ b) = true)
        by (apply prefix_app; now exists b).
      change (EmptyString ++ p ++ b)%string with (p ++ b)%string.
      destruct (p ++ b)%string; cbn [JsString.includes]; now rewrite H.
    + rewrite append_cons. cbn [JsString.includes].
      rewrite IH. apply orb_true_r.
Qed.

Lemma lower_unit_idempotent (c : ascii) :
  JsString.lower_unit (JsString.lower_unit c) = JsString.lower_unit c.
Proof. destruct c as [[] [] [] [] [] [] [] []]; reflexivity. Qed.

Lemma toLowerCase_idempotent (s : string) :
  JsString.toLowerCase (JsString.toLowerCase s) = JsString.toLowerCase s.
Proof.
  induction s as [|c s IH]; [reflexivity|].
  cbn [JsString.toLowerCase]. now rewrite lower_unit_idempotent, IH.
Qed.

Lemma truthy_toLowerCase (s : string) :
  JsString.truthy (JsString.toLowerCase s) = JsString.truthy s.
Proof. destruct s; reflexivity. Qed.

Lemma filtered_same_case (q1 q2 : string) (s : State) :
  JsString.toLowerCase q1 = JsString.toLowerCase q2 ->
  filtered (setSearch q1 s) = filtered (setSearch q2 s).
Proof.
  intros Hq. unfold filtered, setSearch. cbn.
  rewrite <- (truthy_toLowerCase q1), <- (truthy_toLowerCase q2), Hq.
  reflexivity.
Qed.

Lemma filtered_elem (m : ModelItem) (s : State) :
  m ∈ filtered s <->
  m ∈ models s
  /\ (search s = ""
      \/ exists a b : string,
           JsString.toLowerCase (id m)
           = (a ++ JsString.toLowerCase (search s) ++ b)%string).
Proof.
  unfold filtered. destruct (search s) as [|c q] eqn:Hq; cbn [JsString.truthy].
  - split; [auto|tauto].
  - rewrite list_elem_of_filter, Is_true_true, includes_spec.
    split.
    + intros [H ?]. split; auto.
    + intros [? [H|H]]; [discriminate|auto].
Qed.

Lemma filtered_sublist (s : State) : sublist (filtered s) (models s).
Proof.
  unfold filtered. destruct (JsString.truthy (search s)); [|reflexivity].
  apply sublist_filter.
Qed.

End SearchFacts.

(** X18: the search lists exactly the models whose identifier, in lower
    case, contains the query in lower case as a substring; the empty query
    lists all models.  The listed models keep the order of the model list
    and are never more than it has. *)
Theorem search_matches_substring (s : Catalog.State) :
  (forall m : Catalog.ModelItem,
     m ∈ Catalog.filtered s <->
     m ∈ Catalog.models s
     /\ (Catalog.search s = ""
         \/ exists a b : string,
              JsString.toLowerCase (Catalog.id m)
              = (a ++ JsString.toLowerCase (Catalog.search s) ++ b)%string))
  /\ sublist (Catalog.filtered s) (Catalog.models s)
  /\ Catalog.total s <= Z.of_nat (length (Catalog.models s)).
Proof.
  split; [intros m; apply filtered_elem|].
  split; [apply filtered_sublist|].
  unfold Catalog.total. apply inj_le, sublist_length, filtered_sublist.
Qed.

(** X19: the search ignores the case of the query: two queries with the
    same lower-case form list the same models, and so do a query and its
    lower-case form. *)
Theorem search_ignores_case (s : Catalog.State) :
  (forall q1 q2 : string,
     JsString.toLowerCase q1 = JsString.toLowerCase q2 ->
     Catalog.filtered (Catalog.setSearch q1 s)
     = Catalog.filtered (Catalog.setSearch q2 s))
  /\ (forall q : string,
        Catalog.filtered (Catalog.setSearch (JsString.toLowerCase q) s)
        = Catalog.filtered (Catalog.setSearch q s)).
Proof.
  split.
  - intros q1 q2 Hq. now apply filtered_same_case.
  - intros q. apply filtered_same_case, toLowerCase_idempotent.
Qed.

Lemma search_ignores_case_witness :
  let s := Catalog.mount [Catalog.mkModel "GPT-4o" [] 0 0 0 None [];
                          Catalog.mkModel "claude-3" [] 0 0 0 None []] in
  Catalog.filtered (Catalog.setSearch "gPt" s)
  = Catalog.filtered (Catalog.setSearch "GPT" s).
Proof.
  cbv zeta. apply search_ignores_case. reflexivity.
Defined.

(** ** Model catalog: pages *)

Section PageFacts.

Import Catalog.

(** A slice from a non-negative start, as take and drop. *)
Lemma slice_take_drop {A} (l : list A) (start n : Z) :
  0 <= start -> 0 <= n ->
  slice l start (start + n) = take (Z.to_nat n) (drop (Z.to_nat start) l).
Proof.
  intros Hs Hn. unfold slice.
  rewrite (proj2 (Z.ltb_ge start 0)) by lia.
  rewrite (proj2 (Z.ltb_ge (start + n) 0)) by lia.
  destruct (Z.le_gt_cases start (Z.of_nat (length l))) as [Hle | Hgt].
  - rewrite (Z.min_l start) by lia.
    replace (Z.to_nat (Z.max (Z.min (start + n) (Z.of_nat (length l)) - start) 0))
      with (Nat.min (Z.to_nat n) (length (drop (Z.to_nat start) l)))
      by (rewrite length_drop; lia).
    rewrite <- take_take. now rewrite (take_ge (drop _ _)) by lia.
  - rewrite (Z.min_r start) by lia.
    rewrite !drop_ge by lia. now rewrite !take_nil.
Qed.

Lemma pagedModels_take_drop (s : State) :
  1 <= page s -> 0 <= pageSize s ->
  pagedModels s
  = take (Z.to_nat (pageSize s))
         (drop (Z.to_nat ((page s - 1) * pageSize s)) (filtered s)).
Proof.
  intros Hp Hs. unfold pagedModels. apply slice_take_drop; nia.
Qed.

Lemma pageSize_positive (s : State) : settled s -> 0 < pageSize s.
Proof.
  intros (_ & _ & Hsz & _). unfold pageSizeOptions in Hsz.
  repeat (apply elem_of_cons in Hsz as [->|Hsz]; [lia|]).
  now apply elem_of_nil in Hsz.
Qed.

(** The page that is shown starts inside the filtered list. *)
Lemma page_start_in_range (s : State) :
  settled s -> 0 < total s -> (page s - 1) * pageSize s < total s.
Proof.
  intros Hs Ht. pose proof (pageSize_positive s Hs) as Hps.
  destruct Hs as (_ & _ & _ & Hpg).
  pose proof (ceil_div_spec (total s) (pageSize s) Hps) as Hcd.
  unfold totalPages in Hpg. nia.
Qed.

Lemma pagedModels_length (s : State) :
  settled s ->
  Z.of_nat (length (pagedModels s))
  = Z.min (pageSize s) (total s - (page s - 1) * pageSize s)
  \/ (total s = 0 /\ pagedModels s = []).
Proof.
  intros Hs. pose proof (pageSize_positive s Hs) as Hps.
  pose proof Hs as (_ & _ & _ & Hpg).
  rewrite pagedModels_take_drop by lia.
  destruct (Z.eq_dec (total s) 0) as [H0 | Hne].
  - right. split; [exact H0|]. unfold total in H0.
    destruct (filtered s); [|cbn in H0; lia]. now rewrite drop_nil, take_nil.
  - left. assert (Ht : 0 < total s) by (unfold total in *; lia).
    pose proof (page_start_in_range s Hs Ht) as Hstart.
    rewrite length_take, length_drop. unfold total in *. nia.
Qed.

(** Cutting a list into chunks of [k] and gluing them gives the list. *)
Lemma chunks_concat {A} (k n : nat) (l : list A) :
  (0 < k)%nat -> (length l <= n * k)%nat ->
  concat (map (fun i => take k (drop ((i - 1) * k)%nat l)) (seq 1 n)) = l.
Proof.
  intros Hk. revert l. induction n as [|n IH]; intros l Hl.
  - destruct l; [reflexivity|cbn in Hl; lia].
  - cbn [seq map concat].
    replace ((1 - 1) * k)%nat with 0%nat by lia. cbn [drop].
    transitivity (take k l ++ drop k l)%list; [|apply take_drop]. f_equal.
    rewrite <- (IH (drop k l)) at 1 by (rewrite length_drop; lia).
    rewrite <- seq_shift, map_map.
    f_equal. apply map_ext_in. intros i Hi%List.in_seq.
    rewrite drop_drop. do 2 f_equal.
    replace (S i - 1)%nat with (S (i - 1)) by lia. reflexivity.
Qed.

End PageFacts.

Section PageEvents.

Import Catalog.

Variable buildPageItems : Z -> Z -> list PageItem.

#[local] Abbreviation dispatch := (Catalog.dispatch buildPageItems).

Lemma setPage_same (s : State) : setPage (fun _ => page s) s = s.
Proof. destruct s; reflexivity. Qed.

Lemma setPage_setPage (p q : Z) (s : State) :
  setPage (fun _ => p) (setPage (fun _ => q) s) = setPage (fun _ => p) s.
Proof. destruct s; reflexivity. Qed.

Lemma commit_setPage (p : Z) (s : State) :
  settled s -> commit (setPage (fun _ => p) s) = setPage (fun _ => p) s.
Proof.
  intros (Hrd & Hcd & _). apply commit_fixed;
    rewrite ?totalPages_setPage; assumption.
Qed.

Lemma pagination_shown_setPage (p : Z) (s : State) :
  pagination_shown (setPage (fun _ => p) s) = pagination_shown s.
Proof. reflexivity. Qed.

Lemma dispatch_next (s s1 : State) :
  settled s -> dispatch ClickNext s = Some s1 ->
  s1 = setPage (fun _ => page s + 1) s /\ page s < totalPages s.
Proof.
  intros Hs. unfold Catalog.dispatch.
  destruct (enabled buildPageItems ClickNext s) eqn:Hen; [|discriminate].
  cbn in Hen. apply andb_prop in Hen as [_ Hlt%negb_true_iff%Z.leb_gt].
  cbn [handle]. rewrite commit_setPage by exact Hs. intros [= <-].
  split; [|exact Hlt].
  now replace (Z.min (totalPages s) (page s + 1)) with (page s + 1) by lia.
Qed.

Lemma dispatch_prev (s s1 : State) :
  settled s -> dispatch ClickPrev s = Some s1 ->
  s1 = setPage (fun _ => page s - 1) s /\ 1 < page s.
Proof.
  intros Hs. unfold Catalog.dispatch.
  destruct (enabled buildPageItems ClickPrev s) eqn:Hen; [|discriminate].
  cbn in Hen. apply andb_prop in Hen as [_ Hlt%negb_true_iff%Z.leb_gt].
  cbn [handle]. rewrite commit_setPage by exact Hs. intros [= <-].
  split; [|lia].
  now replace (Z.max 1 (page s - 1)) with (page s - 1) by lia.
Qed.

Lemma setPage_settled (p : Z) (s : State) :
  settled s -> 1 <= p <= totalPages s -> settled (setPage (fun _ => p) s).
Proof.
  intros (Hrd & Hcd & Hsz & _) Hp. unfold settled.
  rewrite totalPages_setPage. cbn. auto.
Qed.

Lemma next_then_prev (s s1 : State) :
  settled s -> dispatch ClickNext s = Some s1 -> dispatch ClickPrev s1 = Some s.
Proof.
  intros Hs Hnext. pose proof Hs as (_ & _ & _ & Hpg).
  destruct (dispatch_next s s1 Hs Hnext) as [-> Hlt].
  assert (Hshown : pagination_shown s = true).
  { unfold Catalog.dispatch in Hnext.
    destruct (enabled buildPageItems ClickNext s) eqn:Hen; [|discriminate].
    cbn in Hen. now apply andb_prop in Hen as [-> _]. }
  unfold Catalog.dispatch. cbn [enabled handle].
  rewrite pagination_shown_setPage, Hshown.
  replace (page (setPage (fun _ => page s + 1) s)) with (page s + 1)
    by (destruct s; reflexivity).
  rewrite (proj2 (Z.leb_gt _ _)) by lia. cbn [negb andb].
  rewrite setPage_setPage, commit_setPage by exact Hs.
  replace (Z.max 1 (page s + 1 - 1)) with (page s) by lia.
  now rewrite setPage_same.
Qed.

Lemma prev_then_next (s s1 : State) :
  settled s -> dispatch ClickPrev s = Some s1 -> dispatch ClickNext s1 = Some s.
Proof.
  intros Hs Hprev. pose proof Hs as (_ & _ & _ & Hpg).
  destruct (dispatch_prev s s1 Hs Hprev) as [-> Hlt].
  assert (Hshown : pagination_shown s = true).
  { unfold Catalog.dispatch in Hprev.
    destruct (enabled buildPageItems ClickPrev s) eqn:Hen; [|discriminate].
    cbn in Hen. now apply andb_prop in Hen as [-> _]. }
  unfold Catalog.dispatch. cbn [enabled handle].
  rewrite pagination_shown_setPage, Hshown, totalPages_setPage.
  replace (page (setPage (fun _ => page s - 1) s)) with (page s - 1)
    by (destruct s; reflexivity).
  rewrite (proj2 (Z.leb_gt _ _)) by lia. cbn [negb andb].
  rewrite setPage_setPage, commit_setPage by exact Hs.
  replace (Z.min (totalPages s) (page s - 1 + 1)) with (page s) by lia.
  now rewrite setPage_same.
Qed.

Lemma dispatch_ends (s : State) :
  (page s = totalPages s -> dispatch ClickNext s = None)
  /\ (page s = 1 -> dispatch ClickPrev s = None).
Proof.
  unfold Catalog.dispatch. cbn [enabled]. split; intros ->.
  - rewrite Z.leb_refl. now rewrite andb_false_r.
  - now rewrite andb_false_r.
Qed.

Lemma dispatch_input (q : string) (s s' : State) :
  settled s -> dispatch (Input q) s = Some s' ->
  search s' = q /\ (q <> search s -> page s' = 1) /\ (q = search s -> s' = s).
Proof.
  intros Hs. pose proof Hs as (Hrd & Hcd & _ & Hpg).
  unfold Catalog.dispatch. cbn [enabled handle]. intros [= <-].
  destruct (commit_spec (setSearch q s)) as (_ & Hq & _ & _ & _ & Hp).
  pose proof (totalPages_ge_1 (setSearch q s)) as Hge.
  split; [exact Hq|]. split.
  - intros Hne. rewrite Hp. clear Hp. cbn.
    rewrite (bool_decide_eq_false_2 (reset_deps s = _))
      by (rewrite Hrd; congruence).
    destruct (bool_decide _); lia.
  - intros ->. replace (setSearch (search s) s) with s by (destruct s; reflexivity).
    now apply commit_fixed.
Qed.

Lemma dispatch_select (size : Z) (s s' : State) :
  settled s -> dispatch (SelectPageSize size) s = Some s' ->
  pageSize s' = size
  /\ (size <> pageSize s -> page s' = 1) /\ (size = pageSize s -> s' = s).
Proof.
  intros Hs. pose proof Hs as (Hrd & Hcd & _ & Hpg).
  unfold Catalog.dispatch.
  destruct (enabled buildPageItems (SelectPageSize size) s); [|discriminate].
  cbn [handle]. intros [= <-].
  destruct (commit_spec (setPageSize size s)) as (_ & _ & Hsz & _ & _ & Hp).
  pose proof (totalPages_ge_1 (setPageSize size s)) as Hge.
  split; [exact Hsz|]. split.
  - intros Hne. rewrite Hp. clear Hp. cbn.
    rewrite (bool_decide_eq_false_2 (reset_deps s = _))
      by (rewrite Hrd; congruence).
    destruct (bool_decide _); lia.
  - intros ->.
    replace (setPageSize (pageSize s) s) with s by (destruct s; reflexivity).
    now apply commit_fixed.
Qed.

Lemma dispatch_props (ms : list ModelItem) (s s' : State) :
  settled s -> dispatch (Props ms) s = Some s' ->
  models s' = ms /\ search s' = search s /\ pageSize s' = pageSize s
  /\ page s' = Z.min (page s) (totalPages s').
Proof.
  intros Hs. pose proof Hs as (Hrd & Hcd & _ & Hpg).
  unfold Catalog.dispatch. cbn [enabled handle]. intros [= <-].
  rewrite commit_totalPages.
  destruct (commit_spec (setModels ms s)) as (Hm & Hq & Hsz & _ & _ & Hp).
  split; [exact Hm|]. split; [exact Hq|]. split; [exact Hsz|].
  rewrite Hp. clear Hp. cbn.
  rewrite (bool_decide_eq_true_2 (reset_deps s = _)) by exact Hrd.
  case_bool_decide as Hsame; [|reflexivity].
  rewrite Hcd in Hsame. injection Hsame as Hsame. lia.
Qed.

End PageEvents.

(** X20: between events the page that is shown is the slice of the
    filtered list that starts at (page - 1) * pageSize and has at most
    pageSize models; it holds min(pageSize, what is left from its start)
    models, so it is not empty as long as the search matches anything. *)
Theorem paged_models_bounds (s : Catalog.State) :
  Catalog.settled s ->
  Catalog.pagedModels s
  = take (Z.to_nat (Catalog.pageSize s))
         (drop (Z.to_nat ((Catalog.page s - 1) * Catalog.pageSize s))
               (Catalog.filtered s))
  /\ Z.of_nat (length (Catalog.pagedModels s)) <= Catalog.pageSize s
  /\ (0 < Catalog.total s ->
      Z.of_nat (length (Catalog.pagedModels s))
      = Z.min (Catalog.pageSize s)
              (Catalog.total s - (Catalog.page s - 1) * Catalog.pageSize s)
      /\ 1 <= Z.of_nat (length (Catalog.pagedModels s)))
  /\ (Catalog.total s = 0 -> Catalog.pagedModels s = []).
Proof.
  intros Hs. pose proof (pageSize_positive s Hs) as Hps.
  pose proof Hs as (_ & _ & _ & Hpg).
  split; [apply pagedModels_take_drop; lia|].
  destruct (pagedModels_length s Hs) as [Hlen | [H0 Hnil]].
  - split; [lia|]. split.
    + intros Ht. pose proof (page_start_in_range s Hs Ht). lia.
    + intros H0. rewrite H0 in Hlen.
      assert (length (Catalog.pagedModels s) = 0%nat) by nia.
      now apply nil_length_inv.
  - rewrite Hnil. cbn. split; [lia|]. split; [lia|auto].
Qed.

Lemma paged_models_bounds_witness :
  let s := Catalog.mount
             (repeat (Catalog.mkModel "gpt-4o" [] 0 0 0 None []) 30) in
  Z.of_nat (length (Catalog.pagedModels s)) <= Catalog.pageSize s.
Proof.
  cbv zeta.
  apply (paged_models_bounds
           (Catalog.mount
              (repeat (Catalog.mkModel "gpt-4o" [] 0 0 0 None []) 30))).
  apply mount_settled.
Defined.

(** X21: the pages partition the filtered list: the pages 1 to
    totalPages, one after the other, are the filtered list, with no model
    lost or shown twice. *)
Theorem pages_partition (s : Catalog.State) :
  Catalog.settled s ->
  concat
    (map (fun k => Catalog.pagedModels
                     (Catalog.setPage (fun _ => Z.of_nat k) s))
         (seq 1 (Z.to_nat (Catalog.totalPages s))))
  = Catalog.filtered s.
Proof.
  intros Hs. pose proof (pageSize_positive s Hs) as Hps.
  pose proof (ceil_div_spec (Catalog.total s) (Catalog.pageSize s) Hps) as Hcd.
  etransitivity; [|apply (chunks_concat (Z.to_nat (Catalog.pageSize s))
                            (Z.to_nat (Catalog.totalPages s)))].
  - f_equal. apply map_ext_in. intros k Hk%List.in_seq.
    rewrite pagedModels_take_drop by (cbn; lia).
    change (Catalog.filtered (Catalog.setPage _ s)) with (Catalog.filtered s).
    destruct s; cbn. do 2 f_equal. nia.
  - lia.
  - unfold Catalog.totalPages, Catalog.total in *. nia.
Qed.

Lemma pages_partition_witness :
  let s := Catalog.mount
             (repeat (Catalog.mkModel "gpt-4o" [] 0 0 0 None []) 30) in
  concat
    (map (fun k => Catalog.pagedModels
                     (Catalog.setPage (fun _ => Z.of_nat k) s))
         (seq 1 (Z.to_nat (Catalog.totalPages s))))
  = Catalog.filtered s.
Proof.
  cbv zeta. apply pages_partition, mount_settled.
Defined.

(** X22: typing a different search text, or choosing a different page
    size, goes back to the first page; typing the same text or choosing the
    same size changes nothing. *)
Theorem search_or_size_change_resets_page
    (buildPageItems : Z -> Z -> list Catalog.PageItem) (s : Catalog.State) :
  Catalog.settled s ->
  (forall (q : string) (s' : Catalog.State),
     Catalog.dispatch buildPageItems (Catalog.Input q) s = Some s' ->
     Catalog.search s' = q
     /\ (q <> Catalog.search s -> Catalog.page s' = 1)
     /\ (q = Catalog.search s -> s' = s))
  /\ (forall (size : Z) (s' : Catalog.State),
        Catalog.dispatch buildPageItems (Catalog.SelectPageSize size) s
        = Some s' ->
        Catalog.pageSize s' = size
        /\ (size <> Catalog.pageSize s -> Catalog.page s' = 1)
        /\ (size = Catalog.pageSize s -> s' = s)).
Proof.
  intros Hs. split.
  - intros q s'. now apply dispatch_input.
  - intros size s'. now apply dispatch_select.
Qed.

Lemma search_or_size_change_witness :
  let items (_ totalPages : Z) :=
    map Catalog.PageNumber (map Z.of_nat (seq 1 (Z.to_nat totalPages))) in
  let s := Catalog.mount
             (repeat (Catalog.mkModel "gpt-4o" [] 0 0 0 None []) 30) in
  match Catalog.dispatch items (Catalog.Input "gpt") s with
  | Some s' => Catalog.search s' = "gpt"
  | None => False
  end.
Proof.
  intros items s.
  destruct (Catalog.dispatch items (Catalog.Input "gpt") s) as [s'|] eqn:Hd.
  - exact (proj1 (proj1 (search_or_size_change_resets_page items s
                           (mount_settled _)) "gpt" s' Hd)).
  - discriminate Hd.
Defined.

(** X23: the next button moves one page forward and the previous button
    one page back; pressing one after the other returns to the very same
    state; on the last page the next button and on the first page the
    previous button deliver nothing. *)
Theorem next_and_previous
    (buildPageItems : Z -> Z -> list Catalog.PageItem) (s : Catalog.State) :
  Catalog.settled s ->
  (forall s1 : Catalog.State,
     Catalog.dispatch buildPageItems Catalog.ClickNext s = Some s1 ->
     Catalog.page s1 = Catalog.page s + 1
     /\ Catalog.dispatch buildPageItems Catalog.ClickPrev s1 = Some s)
  /\ (forall s1 : Catalog.State,
        Catalog.dispatch buildPageItems Catalog.ClickPrev s = Some s1 ->
        Catalog.page s1 = Catalog.page s - 1
        /\ Catalog.dispatch buildPageItems Catalog.ClickNext s1 = Some s)
  /\ (Catalog.page s = Catalog.totalPages s ->
      Catalog.dispatch buildPageItems Catalog.ClickNext s = None)
  /\ (Catalog.page s = 1 ->
      Catalog.dispatch buildPageItems Catalog.ClickPrev s = None).
Proof.
  intros Hs. split; [|split].
  - intros s1 H1. split; [|now apply next_then_prev].
    destruct (dispatch_next buildPageItems s s1 Hs H1) as [-> _].
    destruct s; reflexivity.
  - intros s1 H1. split; [|now apply prev_then_next].
    destruct (dispatch_prev buildPageItems s s1 Hs H1) as [-> _].
    destruct s; reflexivity.
  - apply dispatch_ends.
Qed.

Lemma next_and_previous_witness :
  let items (_ totalPages : Z) :=
    map Catalog.PageNumber (map Z.of_nat (seq 1 (Z.to_nat totalPages))) in
  let s := Catalog.mount
             (repeat (Catalog.mkModel "gpt-4o" [] 0 0 0 None []) 30) in
  match Catalog.dispatch items Catalog.ClickNext s with
  | Some s1 => Catalog.page s1 = 2
               /\ Catalog.dispatch items Catalog.ClickPrev s1 = Some s
  | None => False
  end.
Proof.
  intros items s.
  destruct (Catalog.dispatch items Catalog.ClickNext s) as [s1|] eqn:Hd.
  - exact (proj1 (next_and_previous items s (mount_settled _)) s1 Hd).
  - vm_compute in Hd. discriminate Hd.
Defined.

(** X24: a new list of models from the parent keeps the search text and
    the page size, and keeps the page unless it lies beyond the new last
    page, in which case the last page is shown. *)
Theorem new_models_keep_or_clamp_page
    (buildPageItems : Z -> Z -> list Catalog.PageItem)
    (models : list Catalog.ModelItem) (s s' : Catalog.State) :
  Catalog.settled s ->
  Catalog.dispatch buildPageItems (Catalog.Props models) s = Some s' ->
  Catalog.models s' = models
  /\ Catalog.search s' = Catalog.search s
  /\ Catalog.pageSize s' = Catalog.pageSize s
  /\ Catalog.page s' = Z.min (Catalog.page s) (Catalog.totalPages s').
Proof. apply dispatch_props. Qed.

Lemma new_models_witness :
  let items (_ totalPages : Z) :=
    map Catalog.PageNumber (map Z.of_nat (seq 1 (Z.to_nat totalPages))) in
  let models := repeat (Catalog.mkModel "gpt-4o" [] 0 0 0 None []) 30 in
  match
    Catalog.dispatch items (Catalog.Props (firstn 5 models))
                     (Catalog.mount models)
  with
  | Some s' => Catalog.page s' = Z.min 1 (Catalog.totalPages s')
  | None => False
  end.
Proof.
  intros items models.
  destruct (Catalog.dispatch items _ (Catalog.mount models)) as [s'|] eqn:Hd.
  - exact (proj2 (proj2 (proj2 (new_models_keep_or_clamp_page items _ _ s'
                                  (mount_settled _) Hd)))).
  - discriminate Hd.
Defined.

(** ** Site mode fallback and logout *)

Section FallbackFacts.

Import Root RootEvents.

Lemma onSiteInfo_frame (result : option SiteMode) (w : World) :
  let w' := exec (perform (SiteInfo result)) w in
  siteMode (hooks w') = Some (default "personal" result)
  /\ path (hooks w') = path (hooks w)
  /\ browser w' = browser w
  /\ userToken (hooks w') = userToken (hooks w).
Proof.
  destruct w as [[a u r m n p] b], result; repeat split.
Qed.

Lemma App_keeps (w : World) :
  siteMode (hooks (exec App w)) = siteMode (hooks w)
  /\ userToken (hooks (exec App w)) = userToken (hooks w).
Proof.
  destruct (App_effect w) as [-> | (t & _ & ->)]; [auto|].
  now rewrite redirect_frame.
Qed.

Lemma personal_under_admin (w : World) :
  siteMode (hooks w) = Some "personal" ->
  JsString.startsWith (path (hooks (passes 2 w))) "/admin" = true.
Proof.
  intros Hm.
  destruct (JsString.startsWith (path (hooks w)) "/admin") eqn:Ha.
  - cbn [passes]. now rewrite !(admin_path_stable w Ha).
  - now rewrite personal_settles.
Qed.

(** Events that do not hand over a user token leave an absent token
    absent. *)
Lemma perform_keeps_anonymous (ev : Event) (w : World) :
  sets_user_token ev = false -> userToken (hooks w) = None ->
  userToken (hooks (exec (perform ev) w)) = None.
Proof.
  intros Hev Hu.
  destruct ev as [ |target| | |token| |next|next|result|result|u| ];
    try discriminate Hev.
  - rewrite exec_Render. now rewrite (proj2 (App_keeps w)).
  - destruct w as [[a u r m n p] b]. exact Hu.
  - destruct w as [[a u r m n p] [l [|e hb] hf ls]]; exact Hu.
  - destruct w as [[a u r m n p] [l hb [|e hf] ls]]; exact Hu.
  - destruct w as [[a u r m n p] b]. reflexivity.
  - destruct next; [discriminate Hev|].
    destruct w as [[a u r m n p] b]. reflexivity.
  - destruct w as [[a u r m n p] b], next as [[|c t]|]; exact Hu.
  - destruct w as [[a u r m n p] b], result as [[|c t]|msg]; exact Hu.
  - destruct w as [[a u r m n p] b], result; exact Hu.
  - destruct w as [[a u' r m n p] b]. cbn in Hu. subst u'.
    unfold perform, onProfileLoaded, exec, mbind, act_bind, setUserRecord,
      modify_hooks, get_browser, when, navigateTo, history_pushState,
      modify_browser, setPath. cbn.
    destruct (_ || _); reflexivity.
  - destruct w as [[a u r m n p] b]. reflexivity.
Qed.

Lemma perform_all_keeps_anonymous (evs : list Event) (w : World) :
  Forall (fun ev => sets_user_token ev = false) evs ->
  userToken (hooks w) = None ->
  userToken (hooks (perform_all evs w)) = None.
Proof.
  intros Hevs. revert w.
  induction Hevs as [|ev evs Hev _ IH]; intros w Hu; [exact Hu|].
  cbn [perform_all]. apply IH. now apply perform_keeps_anonymous.
Qed.

End FallbackFacts.

(** X25: when the site-info request fails the site mode becomes
    "personal", and whatever the path was, two render passes later the
    application is on a path under /admin and stays there; a successful
    request stores the mode the server sent.  Neither outcome touches the
    path or the browser. *)
Theorem site_info_failure_falls_back (w : Root.World) :
  (let w' := Root.exec (RootEvents.perform (RootEvents.SiteInfo None)) w in
   Root.siteMode (Root.hooks w') = Some "personal"
   /\ Root.path (Root.hooks w') = Root.path (Root.hooks w)
   /\ Root.browser w' = Root.browser w
   /\ JsString.startsWith (Root.path (Root.hooks (Root.passes 2 w'))) "/admin"
      = true
   /\ Root.exec Root.App (Root.passes 2 w') = Root.passes 2 w')
  /\ (forall mode : Root.SiteMode,
        let w' := Root.exec
                    (RootEvents.perform (RootEvents.SiteInfo (Some mode))) w in
        Root.siteMode (Root.hooks w') = Some mode
        /\ Root.path (Root.hooks w') = Root.path (Root.hooks w)
        /\ Root.browser w' = Root.browser w).
Proof.
  split; cbv zeta.
  - destruct (onSiteInfo_frame None w) as (Hm & Hp & Hb & _).
    repeat split; auto.
    + now apply personal_under_admin.
    + apply passes_settle.
  - intros mode. destruct (onSiteInfo_frame (Some mode) w) as (Hm & Hp & Hb & _).
    auto.
Qed.

(** X26: after logout the user console is not rendered again, whatever
    follows (render passes, navigation, back and forward, admin login,
    site info, a late profile response), until an event hands over a user
    token again. *)
Theorem logout_hides_user_console
    (evs : list RootEvents.Event) (w : Root.World)
    (t : string) (u : Root.User) :
  Forall (fun ev => RootEvents.sets_user_token ev = false) evs ->
  let w' := RootEvents.perform_all (RootEvents.UserLogout :: evs) w in
  Root.userToken (Root.hooks w') = None
  /\ Root.rendered w' <> Some (Root.UserAppView t u).
Proof.
  intros Hevs. cbv zeta. cbn [RootEvents.perform_all].
  assert (Hu : Root.userToken
                 (Root.hooks
                    (RootEvents.perform_all evs
                       (Root.exec (RootEvents.perform RootEvents.UserLogout) w)))
               = None).
  { apply perform_all_keeps_anonymous; [exact Hevs|].
    apply (logout_state w). }
  split; [exact Hu|]. now apply anonymous_no_user_console.
Qed.

Lemma logout_hides_user_console_witness :
  let w := Root.mkWorld
             (Root.mkHooks None (Some "tok") (Some (Root.mkUser "u1"))
                           (Some "multi") "" "/user")
             (Root.mkBrowser "/user" ["/login"] [] {["user_token" := "tok"]}) in
  let w' := RootEvents.perform_all
              [RootEvents.UserLogout; RootEvents.Render; RootEvents.Back;
               RootEvents.Back; RootEvents.ProfileLoaded (Root.mkUser "u1");
               RootEvents.Render] w in
  Root.userToken (Root.hooks w') = None
  /\ Root.rendered w' <> Some (Root.UserAppView "tok" (Root.mkUser "u1")).
Proof.
  cbv zeta.
  apply (logout_hides_user_console
           [RootEvents.Render; RootEvents.Back; RootEvents.Back;
            RootEvents.ProfileLoaded (Root.mkUser "u1"); RootEvents.Render]).
  repeat constructor.
Defined.
